(** * Evidence-profile pipeline: fetch, fallback, normalize, cache

    A shallow embedding of the Python modules [clinical_trials.py],
    [news_sources.py], [fetcher.py], [extractor.py], [edgar_financials.py]
    and of the parts of [pipeline_runner.py] that drive them.

    Conventions of the embedding
    - A Python [str] is a [string]; its characters are the code points
      below 256 (Latin-1), which is where [isalnum], [lower] and [strip]
      are tabulated below.
    - A Python [int] is a [Z]; a [float] is carried as a rational and is
      never computed with (only its truthiness and its equality matter).
    - A JSON object is an association list in insertion order.
    - An exception is a value [Raise e] of the type [result]; code that
      touches the network, the clock or the disk runs in the monad [M]
      over the state [World].
    - Times are integers, in microseconds (the resolution of [datetime]). *)

From Stdlib Require Import ZArith QArith Ascii String List Lia.
From stdpp Require Import base option list gmap strings sorting.

#[local] Set Warnings "-clear-no-such-hyp".


(** ** Text *)

Module Text.

Definition code (c : ascii) : N := N_of_ascii c.

Definition between (lo hi : N) (c : ascii) : bool :=
  ((lo <=? code c) && (code c <=? hi))%N.

(** [str.isalnum] on one Latin-1 character: letters, decimal digits, and the
    characters Unicode classes as alphabetic, digit or numeric. *)
Definition isalnum (c : ascii) : bool :=
  between 48 57 c || between 65 90 c || between 97 122 c
  || between 170 170 c || between 178 179 c || between 181 181 c
  || between 185 186 c || between 188 190 c
  || between 192 214 c || between 216 246 c || between 248 255 c.

(** [str.lower] on one Latin-1 character. *)
Definition lower_char (c : ascii) : ascii :=
  if between 65 90 c || between 192 214 c || between 216 222 c
  then ascii_of_N (code c + 32)
  else c.

Fixpoint lower (s : string) : string :=
  match s with
  | EmptyString => EmptyString
  | String c s' => String (lower_char c) (lower s')
  end.

(** [str.upper] is used only to state case-insensitivity; the two Latin-1
    characters whose upper case leaves Latin-1 are left alone. *)
Definition upper_char (c : ascii) : ascii :=
  if between 97 122 c || between 224 246 c || between 248 254 c
  then ascii_of_N (code c - 32)
  else c.

Fixpoint upper (s : string) : string :=
  match s with
  | EmptyString => EmptyString
  | String c s' => String (upper_char c) (upper s')
  end.

(** Whitespace as [str.strip] sees it. *)
Definition isspace (c : ascii) : bool :=
  between 9 13 c || between 28 32 c || between 133 133 c || between 160 160 c.

Fixpoint lstrip (s : string) : string :=
  match s with
  | EmptyString => EmptyString
  | String c s' => if isspace c then lstrip s' else s
  end.

Definition strip (s : string) : string :=
  String.rev (lstrip (String.rev (lstrip s))).

Fixpoint map_chars (f : ascii -> ascii) (s : string) : string :=
  match s with
  | EmptyString => EmptyString
  | String c s' => String (f c) (map_chars f s')
  end.

Fixpoint take (n : nat) (s : string) : string :=
  match n, s with
  | S n', String c s' => String c (take n' s')
  | _, _ => EmptyString
  end.

(** [sub in s] *)
Fixpoint contains (sub s : string) : bool :=
  String.prefix sub s ||
  match s with
  | EmptyString => false
  | String _ s' => contains sub s'
  end.

Fixpoint join (sep : string) (parts : list string) : string :=
  match parts with
  | [] => EmptyString
  | [p] => p
  | p :: ps => p +:+ sep +:+ join sep ps
  end.

Fixpoint chars (s : string) : list string :=
  match s with
  | EmptyString => []
  | String c s' => String c EmptyString :: chars s'
  end.

Definition CR : ascii := ascii_of_N 13.
Definition LF : ascii := ascii_of_N 10.

(** What reading a file in text mode makes of its line endings (universal
    newlines): a carriage return followed by a line feed, and a carriage
    return on its own, both come out as one line feed. *)
Fixpoint universal_newlines (s : string) : string :=
  match s with
  | EmptyString => EmptyString
  | String c s' =>
      if bool_decide (c = CR) then
        String LF match s' with
                  | String c' s'' =>
                      if bool_decide (c' = LF) then universal_newlines s''
                      else universal_newlines s'
                  | EmptyString => EmptyString
                  end
      else String c (universal_newlines s')
  end.

End Text.

(** ** Python values and exceptions *)

Inductive exn :=
| AttributeError | TypeError | IndexError | KeyError | ValueError
| OSError | RequestException | HTTPError.

Inductive result (A : Type) :=
| Ok (a : A)
| Raise (e : exn).
Arguments Ok {A} a.
Arguments Raise {A} e.

Definition res_bind {A B} (r : result A) (f : A -> result B) : result B :=
  match r with
  | Ok a => f a
  | Raise e => Raise e
  end.

Definition raises {A} (r : result A) : Prop :=
  match r with Ok _ => False | Raise _ => True end.

Global Instance result_ret : MRet result := @Ok.
Global Instance result_bind : MBind result := fun A B f r => res_bind r f.

#[warnings="-register-all"]
Inductive pyval :=
| PNone
| PBool (b : bool)
| PInt (n : Z)
| PFloat (q : Q)
| PStr (s : string)
| PList (l : list pyval)
| PDict (d : list (string * pyval)).

(** A [dict] with string keys, in insertion order. *)
Abbreviation dict := (list (string * pyval)).

Fixpoint dget (d : dict) (k : string) : option pyval :=
  match d with
  | [] => None
  | (k', v) :: d' => if decide (k' = k) then Some v else dget d' k
  end.

(** [d[k] = v]: an existing key keeps its place, a new one goes last. *)
Fixpoint dset (d : dict) (k : string) (v : pyval) : dict :=
  match d with
  | [] => [(k, v)]
  | (k', v') :: d' =>
      if decide (k' = k) then (k, v) :: d' else (k', v') :: dset d' k v
  end.

Definition truthy (v : pyval) : bool :=
  match v with
  | PNone => false
  | PBool b => b
  | PInt n => negb (n =? 0)%Z
  | PFloat q => negb (Qeq_bool q 0)
  | PStr s => negb (bool_decide (s = EmptyString))
  | PList l => match l with [] => false | _ => true end
  | PDict d => match d with [] => false | _ => true end
  end.

(** [a or b] *)
Definition py_or (a b : pyval) : pyval := if truthy a then a else b.

(** [l[:n]] on a list, for any integer [n]. *)
Definition slice_to {A} (n : Z) (l : list A) : list A :=
  if (0 <=? n)%Z then take (Z.to_nat n) l
  else take (length l - Z.to_nat (- n)) l.

Definition str_slice_to (n : Z) (s : string) : string :=
  if (0 <=? n)%Z then Text.take (Z.to_nat n) s
  else Text.take (String.length s - Z.to_nat (- n)) s.

Module Py.

(** [v.get(k)] *)
Definition get (v : pyval) (k : string) : result pyval :=
  match v with
  | PDict d => Ok (default PNone (dget d k))
  | _ => Raise AttributeError
  end.

(** [v.get(k, dflt)] *)
Definition get_or (v : pyval) (k : string) (dflt : pyval) : result pyval :=
  match v with
  | PDict d => Ok (default dflt (dget d k))
  | _ => Raise AttributeError
  end.

(** [v[k]] for a string key [k] *)
Definition item (v : pyval) (k : string) : result pyval :=
  match v with
  | PDict d => match dget d k with Some x => Ok x | None => Raise KeyError end
  | _ => Raise TypeError
  end.

(** [v[0]] *)
Definition first (v : pyval) : result pyval :=
  match v with
  | PList (x :: _) => Ok x
  | PList [] => Raise IndexError
  | PStr (String c _) => Ok (PStr (String c EmptyString))
  | PStr EmptyString => Raise IndexError
  | PDict _ => Raise KeyError
  | _ => Raise TypeError
  end.

(** [for x in v[:n]]: the items the loop visits *)
Definition sliced (v : pyval) (n : Z) : result (list pyval) :=
  match v with
  | PList l => Ok (slice_to n l)
  | PStr s => Ok (PStr <$> Text.chars (str_slice_to n s))
  | _ => Raise TypeError
  end.

(** [for x in v]: the items the loop visits *)
Definition iter (v : pyval) : result (list pyval) :=
  match v with
  | PList l => Ok l
  | PStr s => Ok (PStr <$> Text.chars s)
  | PDict d => Ok ((fun kv => PStr kv.1) <$> d)
  | _ => Raise TypeError
  end.

Definition is_dict (v : pyval) : bool :=
  match v with PDict _ => true | _ => false end.

Definition is_list (v : pyval) : bool :=
  match v with PList _ => true | _ => false end.

(** [s.encode()], [s.lower()], ...: a method that only [str] has *)
Definition as_str (v : pyval) : result string :=
  match v with
  | PStr s => Ok s
  | _ => Raise AttributeError
  end.

(** The normal form of a hashable value: [True == 1 == 1.0] are one key. *)
Inductive hkey :=
| HNone
| HNum (num : Z) (den : positive)
| HStr (s : string).

Definition hash_key (v : pyval) : result hkey :=
  match v with
  | PNone => Ok HNone
  | PBool b => Ok (HNum (if b then 1 else 0) 1)
  | PInt n => Ok (HNum n 1)
  | PFloat q => Ok (HNum (Qnum (Qred q)) (Qden (Qred q)))
  | PStr s => Ok (HStr s)
  | PList _ | PDict _ => Raise TypeError
  end.

Global Instance hkey_eq_dec : EqDecision hkey.
Proof. solve_decision. Defined.

Definition hkey_enc (h : hkey) : option (Z * positive + string) :=
  match h with
  | HNone => None
  | HNum n d => Some (inl (n, d))
  | HStr s => Some (inr s)
  end.

Definition hkey_dec (x : option (Z * positive + string)) : hkey :=
  match x with
  | None => HNone
  | Some (inl (n, d)) => HNum n d
  | Some (inr s) => HStr s
  end.

Global Instance hkey_countable : Countable hkey.
Proof.
  apply (inj_countable' hkey_enc hkey_dec). intros []; reflexivity.
Defined.

End Py.

(** [a or b], where evaluating either side may raise *)
Definition or_else (a b : result pyval) : result pyval :=
  x ← a; if truthy x then Ok x else b.

(** ** The world outside the program *)

Inductive Tier := SerpApi | Bing | Gdelt.

Record Request := {
  req_url : string;
  req_params : dict;
  req_headers : dict
}.

(** What goes over the network: a [requests.get], one
    [Downloader.get(form, ident, limit=...)] of sec_edgar_downloader, or the
    request that constructing a [Downloader] makes. *)
Inductive NetCall :=
| HttpGet (r : Request)
| EdgarGet (form : string) (ident : pyval) (limit : Z)
| EdgarInit.

(** A reply carries its text and, when the text is JSON, its decoding. *)
Record Response := {
  status_ok : bool;
  text : string;
  json : option pyval
}.

Inductive Outcome :=
| NetFail
| Reply (r : Response).

(** What the extractor reads off a parsed page: [soup.title.string],
    [soup.h1.string], and the [content] of the first
    [meta name=description] and [meta property=og:description]. *)
Record Soup := {
  title_string : option string;
  h1_string : option string;
  meta_description : option string;
  og_description : option string
}.

(** The tree under [./sec-edgar-filings]: the entries of each directory. *)
Record Disk := {
  dirs : gmap string (list string);
  files : gset string
}.

(** The environment: configuration read at import time, library functions
    the program calls, and the answers of the outside world. The history
    handed to [net] and [edgar] is the log of earlier calls, newest first;
    [net] also says how long the call took. [downloader_init] is how
    [Downloader(...)] ends: it returns, or it raises what its own request
    raised. [BeautifulSoup] gives the parsed page, or the message of the
    exception that parsing raised. *)
Record Env := {
  SERPAPI_KEY : option string;
  BING_KEY : option string;
  getcwd : string;
  net : list NetCall -> Request -> N * Outcome;
  edgar : list NetCall -> string -> pyval -> Z -> bool * Disk;
  downloader_init : list NetCall -> result unit;
  sha256_hex16 : string -> string;
  str_of : pyval -> string;
  isoformat : Z -> string;
  parse_date : string -> option string;
  strptime_gdelt : string -> option Z;
  BeautifulSoup : pyval -> Soup + string
}.

(** One file of [./news_cache]: its mtime and what
    [json.loads(fn.read_text())] gives, [None] when that raises. *)
Record CacheFile := {
  mtime : Z;
  loaded : option pyval
}.

Record World := {
  clock : Z;
  sent : list NetCall;
  calls : list (Tier * Z);
  archive : gmap string string;
  archive_writable : bool;
  news_cache : gmap string CacheFile;
  cache_writable : bool;
  disk : Disk
}.

Definition set_clock (t : Z) (w : World) : World :=
  {| clock := t; sent := sent w; calls := calls w; archive := archive w;
     archive_writable := archive_writable w; news_cache := news_cache w;
     cache_writable := cache_writable w; disk := disk w |}.

Definition set_sent (s : list NetCall) (w : World) : World :=
  {| clock := clock w; sent := s; calls := calls w; archive := archive w;
     archive_writable := archive_writable w; news_cache := news_cache w;
     cache_writable := cache_writable w; disk := disk w |}.

Definition set_calls (c : list (Tier * Z)) (w : World) : World :=
  {| clock := clock w; sent := sent w; calls := c; archive := archive w;
     archive_writable := archive_writable w; news_cache := news_cache w;
     cache_writable := cache_writable w; disk := disk w |}.

Definition set_archive (a : gmap string string) (w : World) : World :=
  {| clock := clock w; sent := sent w; calls := calls w; archive := a;
     archive_writable := archive_writable w; news_cache := news_cache w;
     cache_writable := cache_writable w; disk := disk w |}.

Definition set_news_cache (c : gmap string CacheFile) (w : World) : World :=
  {| clock := clock w; sent := sent w; calls := calls w; archive := archive w;
     archive_writable := archive_writable w; news_cache := c;
     cache_writable := cache_writable w; disk := disk w |}.

Definition set_disk (d : Disk) (w : World) : World :=
  {| clock := clock w; sent := sent w; calls := calls w; archive := archive w;
     archive_writable := archive_writable w; news_cache := news_cache w;
     cache_writable := cache_writable w; disk := d |}.

(** ** The monad of effectful code: state and exceptions *)

Definition M (A : Type) : Type := World -> result A * World.

Global Instance M_ret : MRet M := fun A a w => (Ok a, w).
Global Instance M_bind : MBind M := fun A B f m w =>
  match m w with
  | (Ok a, w') => f a w'
  | (Raise e, w') => (Raise e, w')
  end.

Definition lift {A} (r : result A) : M A := fun w => (r, w).

(** [try: body / except Exception: handler] *)
Definition try_except {A} (body : M A) (handler : exn -> M A) : M A :=
  fun w =>
    match body w with
    | (Ok a, w') => (Ok a, w')
    | (Raise e, w') => handler e w'
    end.

Definition now : M Z := fun w => (Ok (clock w), w).

(** [time.sleep(d)] *)
Definition sleep (d : Z) : M unit := fun w =>
  if (d <? 0)%Z then (Raise ValueError, w)
  else (Ok (), set_clock (clock w + d) w).

(** Bookkeeping that the program itself does not do: the adapter
    invocations, with the quota each was given. *)
Definition invoked (t : Tier) (quota : Z) : M unit := fun w =>
  (Ok (), set_calls ((t, quota) :: calls w) w).

Section Network.
Context (E : Env).

(** [requests.get(url, params=..., headers=..., timeout=...)] *)
Definition requests_get (r : Request) : M Response := fun w =>
  let '(dt, out) := net E (sent w) r in
  let w' := set_sent (HttpGet r :: sent w) (set_clock (clock w + Z.of_N dt) w) in
  match out with
  | NetFail => (Raise RequestException, w')
  | Reply resp => (Ok resp, w')
  end.

(** [r.raise_for_status()] *)
Definition raise_for_status (r : Response) : result unit :=
  if status_ok r then Ok () else Raise HTTPError.

(** [r.json()] *)
Definition json_of (r : Response) : result pyval :=
  match json r with
  | Some v => Ok v
  | None => Raise ValueError
  end.

(** [datetime.utcnow().isoformat()] *)
Definition utcnow_iso : M pyval :=
  t ← now; mret (PStr (isoformat E t)).

End Network.

(** ** fetcher.py and extractor.py *)

Section Fetcher.
Context (E : Env).

Definition USER_AGENT : string :=
  "Mozilla/5.0 (Windows NT 10.0; Win64; x64) AppleWebKit/537.36 (KHTML, like Gecko) Chrome/116.0 Safari/537.36".

Definition fetch_headers : dict :=
  [("User-Agent", PStr USER_AGENT); ("Accept-Language", PStr "en-US,en;q=0.9")].

(** [archive_path.write_text(text, ...)] *)
Definition archive_write (name text : string) : M unit := fun w =>
  if archive_writable w then (Ok (), set_archive (<[name := text]> (archive w)) w)
  else (Raise OSError, w).

(** [archive_path.exists()] and [archive_path.read_text(...)]: the archive
    holds the text of each file as it was written (on a system whose line
    separator is the line feed, writing changes nothing); reading it back
    goes through universal newlines. *)
Definition archive_read (name : string) : M (option string) := fun w =>
  (Ok (Text.universal_newlines <$> archive w !! name), w).

(** The retry loop of [fetch_url], with [n] attempts left; [sleep_us] is the
    pause between attempts. *)
Fixpoint fetch_attempts (n : nat) (url name : string) (max_retries sleep_us : Z)
  : M dict :=
  match n with
  | O =>
      t ← utcnow_iso E;
      mret [("raw_text", PNone); ("archive_path", PNone); ("fetched_at", t);
            ("from_cache", PBool false);
            ("error", PStr ("Failed after " +:+ str_of E (PInt max_retries)
                            +:+ " attempts"))]
  | S n' =>
      try_except
        (r ← requests_get E {| req_url := url; req_params := [];
                               req_headers := fetch_headers |};
         _ ← lift (raise_for_status r);
         _ ← archive_write name (text r);
         t ← utcnow_iso E;
         mret [("raw_text", PStr (text r));
               ("archive_path", PStr ("archive/" +:+ name));
               ("fetched_at", t); ("from_cache", PBool false)])
        (fun _ =>
           _ ← sleep sleep_us;
           fetch_attempts n' url name max_retries sleep_us)
  end.

Definition archive_name (url : string) : string :=
  sha256_hex16 E url +:+ ".html".

Definition fetch_url (url : pyval) (use_cache : bool) (max_retries sleep_us : Z)
  : M dict :=
  u ← lift (Py.as_str url);
  let name := archive_name u in
  stored ← archive_read name;
  match stored with
  | Some txt =>
      if use_cache then
        t ← utcnow_iso E;
        mret [("raw_text", PStr txt);
              ("archive_path", PStr ("archive/" +:+ name));
              ("fetched_at", t); ("from_cache", PBool true)]
      else fetch_attempts (Z.to_nat max_retries) u name max_retries sleep_us
  | None => fetch_attempts (Z.to_nat max_retries) u name max_retries sleep_us
  end.

Definition opt_str (o : option string) : pyval :=
  match o with Some s => PStr s | None => PNone end.

Definition nonempty (o : option string) : bool :=
  match o with Some s => negb (bool_decide (s = EmptyString)) | None => false end.

Definition extract_basic_metadata (html_text source_url : pyval) : M dict :=
  t ← utcnow_iso E;
  match BeautifulSoup E html_text with
  | inl soup =>
      let title :=
        if nonempty (title_string soup) then Text.strip <$> title_string soup
        else if nonempty (h1_string soup) then Text.strip <$> h1_string soup
        else None in
      let description :=
        match meta_description soup with
        | Some c => Some (Text.strip c)
        | None => Text.strip <$> og_description soup
        end in
      let snippet :=
        if nonempty description then Text.take 200 <$> description
        else if nonempty title then Text.take 200 <$> title
        else None in
      mret [("title", opt_str title); ("description", opt_str description);
            ("source_url", source_url); ("fetched_at", t);
            ("extraction_confidence",
             PFloat (if nonempty title || nonempty description
                     then 6 # 10 else 2 # 10));
            ("evidence_snippet", opt_str snippet)]
  | inr msg =>
      mret [("title", PNone); ("description", PNone);
            ("source_url", source_url); ("fetched_at", t);
            ("extraction_confidence", PFloat 0); ("error", PStr msg)]
  end.

End Fetcher.

(** ** news_sources.py *)

Section News.
Context (E : Env).

Definition SERPAPI_ENDPOINT : string := "https://serpapi.com/search.json".

Definition dquote : string := String (ascii_of_N 34) EmptyString.

(** The exact-phrase query: the company name between double quotes. *)
Definition quoted (company_name : string) : string :=
  dquote +:+ company_name +:+ dquote.

Definition keep_or_underscore (c : ascii) : ascii :=
  if Text.isalnum c || bool_decide (c ∈ [" "; "."; "_"]%char) then c
  else "_"%char.

Definition space_to_underscore (c : ascii) : ascii :=
  if bool_decide (c = " "%char) then "_"%char else c.

Definition _sanitize_filename (name : string) : string :=
  Text.take 180
    (Text.map_chars space_to_underscore
       (Text.strip (Text.map_chars keep_or_underscore name))).

Definition cache_file (company_name : string) : string :=
  _sanitize_filename company_name +:+ ".json".

Definition hours (h : Z) : Z := (h * 3600 * 1000000)%Z.

Definition _load_cache (company_name : string) (ttl_hours : Z) : M pyval :=
  fun w =>
    match news_cache w !! cache_file company_name with
    | None => (Ok PNone, w)
    | Some f =>
        if (clock w - mtime f >? hours ttl_hours)%Z then (Ok PNone, w)
        else match loaded f with
             | Some v => (Ok v, w)
             | None => (Ok PNone, w)
             end
    end.

Definition _save_cache (company_name : string) (payload : pyval) : M unit :=
  fun w =>
    if cache_writable w then
      (Ok (), set_news_cache
                (<[cache_file company_name :=
                     {| mtime := clock w; loaded := Some payload |}]>
                   (news_cache w)) w)
    else (Raise OSError, w).

Definition has_key (k : option string) : bool :=
  match k with
  | Some s => negb (bool_decide (s = EmptyString))
  | None => false
  end.

Definition serpapi_article (item : pyval) : result dict :=
  title ← or_else (Py.get item "title") (Py.get item "headline");
  url ← or_else (Py.get item "link") (Py.get item "source");
  src ← Py.get item "source";
  source ← (if Py.is_dict src
            then s ← or_else (Py.get item "source") (Ok (PDict []));
                 Py.get s "name"
            else Py.get item "source");
  snippet ← or_else (Py.get item "snippet")
              (or_else (Py.get item "summary") (Py.get item "description"));
  published ← or_else (Py.get item "date")
                (or_else (Py.get item "published_date") (Py.get item "time"));
  Ok [("title", title); ("url", url); ("source", source);
      ("snippet", snippet); ("published", published); ("raw", item)].

Definition serpapi_request (company_name : string) (max_results : Z) : Request :=
  {| req_url := SERPAPI_ENDPOINT;
     req_params :=
       [("engine", PStr "google_news"); ("q", PStr (quoted company_name));
        ("api_key", opt_str (SERPAPI_KEY E));
        ("num", PInt (Z.min max_results 10))];
     req_headers := [] |}.

Definition fetch_news_serpapi (company_name : string) (max_results : Z)
    (sleep_between : Z) : M (list dict) :=
  _ ← invoked SerpApi max_results;
  if negb (has_key (SERPAPI_KEY E)) then mret []
  else
    try_except
      (r ← requests_get E (serpapi_request company_name max_results);
       _ ← lift (raise_for_status r);
       data ← lift (json_of r);
       candidates ← lift (or_else (Py.get data "news_results")
                            (or_else (Py.get data "news")
                               (or_else (Py.get data "organic_results")
                                  (Ok (PList [])))));
       items ← lift (Py.sliced candidates max_results);
       articles ← lift (mapM serpapi_article items);
       _ ← sleep sleep_between;
       mret articles)
      (fun _ => mret []).

Definition bing_article (item : pyval) : result dict :=
  title ← Py.get item "name";
  url ← Py.get item "url";
  provider ← Py.get item "provider";
  source ← (if truthy provider
            then p ← Py.get item "provider"; p0 ← Py.first p; Py.item p0 "name"
            else Ok PNone);
  snippet ← Py.get item "description";
  published ← Py.get item "datePublished";
  Ok [("title", title); ("url", url); ("source", source);
      ("snippet", snippet); ("published", published); ("raw", item)].

Definition bing_request (company_name : string) (max_results : Z) : Request :=
  {| req_url := "https://api.bing.microsoft.com/v7.0/news/search";
     req_params :=
       [("q", PStr (quoted company_name));
        ("count", PInt (Z.min max_results 50));
        ("sortBy", PStr "Date"); ("mkt", PStr "en-US")];
     req_headers := [("Ocp-Apim-Subscription-Key", opt_str (BING_KEY E))] |}.

Definition fetch_news_bing (company_name : string) (max_results : Z)
  : M (list dict) :=
  _ ← invoked Bing max_results;
  if negb (has_key (BING_KEY E)) then mret []
  else
    try_except
      (r ← requests_get E (bing_request company_name max_results);
       _ ← lift (raise_for_status r);
       data ← lift (json_of r);
       value ← lift (Py.get_or data "value" (PList []));
       items ← lift (Py.sliced value max_results);
       articles ← lift (mapM bing_article items);
       mret articles)
      (fun _ => mret []).

Definition gdelt_article (item : pyval) : result dict :=
  title ← Py.get item "title";
  url ← Py.get item "url";
  source ← Py.get item "domain";
  snippet ← or_else (Py.get item "seendescription") (Py.get item "title");
  published ← Py.get item "seendate";
  Ok [("title", title); ("url", url); ("source", source);
      ("snippet", snippet); ("published", published); ("raw", item)].

(** GDELT's [YYYYMMDDHHMMSS] becomes an ISO string; a value that does not
    parse is kept. *)
Definition gdelt_iso_date (a : dict) : result dict :=
  published ← Py.item (PDict a) "published";
  if truthy published then
    match published with
    | PStr s =>
        match strptime_gdelt E s with
        | Some dt => Ok (dset a "published" (PStr (isoformat E dt)))
        | None => Ok a
        end
    | _ => Ok a
    end
  else Ok a.

Definition gdelt_request (company_name : string) (max_results : Z) : Request :=
  {| req_url := "https://api.gdeltproject.org/api/v2/doc/doc";
     req_params :=
       [("query", PStr (quoted company_name)); ("mode", PStr "artlist");
        ("maxrecords", PInt max_results); ("format", PStr "json")];
     req_headers := [] |}.

Definition fetch_news_gdelt (company_name : string) (max_results : Z)
  : M (list dict) :=
  _ ← invoked Gdelt max_results;
  try_except
    (r ← requests_get E (gdelt_request company_name max_results);
     _ ← lift (raise_for_status r);
     data ← lift (json_of r);
     found ← lift (Py.get_or data "articles" (PList []));
     items ← lift (Py.sliced found max_results);
     articles ← lift (mapM gdelt_article items);
     articles ← lift (mapM gdelt_iso_date articles);
     mret articles)
    (fun _ => mret []).

Definition aget (a : dict) (k : string) : pyval := default PNone (dget a k).

(** The loop of [enrich_with_html_fallback]; [count] is the number of
    enrichments done so far. The articles are the dicts of the list, each
    its own object. *)
Fixpoint enrich_loop (articles : list dict) (max_fallback count : Z)
  : M (list dict * Z) :=
  match articles with
  | [] => mret ([], count)
  | a :: rest =>
      if (negb (truthy (aget a "headline")) || negb (truthy (aget a "summary")))
         && truthy (aget a "source_url") && (count <? max_fallback)%Z
      then
        url ← lift (Py.item (PDict a) "source_url");
        fetched ← fetch_url E url true 3 2000000;
        if truthy (aget fetched "raw_text") then
          raw_text ← lift (Py.item (PDict fetched) "raw_text");
          url ← lift (Py.item (PDict a) "source_url");
          meta ← extract_basic_metadata E raw_text url;
          let a1 := dset a "headline"
                      (py_or (aget a "headline") (aget meta "title")) in
          let a2 := dset a1 "summary"
                      (py_or (py_or (aget a1 "summary") (aget meta "description"))
                         (aget meta "evidence_snippet")) in
          '(rest', n) ← enrich_loop rest max_fallback (count + 1)%Z;
          mret (a2 :: rest', n)
        else
          '(rest', n) ← enrich_loop rest max_fallback count;
          mret (a :: rest', n)
      else
        '(rest', n) ← enrich_loop rest max_fallback count;
        mret (a :: rest', n)
  end.

Definition enrich_with_html_fallback (articles : list dict) (max_fallback : Z)
  : M (list dict) :=
  '(enriched, _) ← enrich_loop articles max_fallback 0%Z;
  mret enriched.

Definition normalize_date (dt_str : pyval) : pyval :=
  if negb (truthy dt_str) then PNone
  else match dt_str with
       | PStr s => match parse_date E s with
                   | Some iso => PStr iso
                   | None => dt_str
                   end
       | _ => dt_str
       end.

Definition normalize_article (a : dict) : M dict :=
  fetched ← utcnow_iso E;
  mret [("headline", py_or (aget a "title") (aget a "headline"));
        ("summary", py_or (aget a "snippet") (aget a "summary"));
        ("source_url", py_or (aget a "url") (aget a "source_url"));
        ("published", normalize_date (aget a "published"));
        ("source_name", aget a "source");
        ("fetched", fetched);
        ("provenance", py_or (aget a "raw") (PDict []))].

Definition len {A} (l : list A) : Z := Z.of_nat (length l).

(** Steps 1 to 3 of [fetch_company_news_multi]: the tier chain. *)
Definition collect_tiers (company_name : string) (max_results : Z)
  : M (list dict) :=
  articles ← fetch_news_serpapi company_name max_results 1000000;
  articles ← (if (len articles <? max_results)%Z
              then more ← fetch_news_bing company_name
                            (max_results - len articles)%Z;
                   mret (articles ++ more)
              else mret articles);
  articles ← (if (len articles <? max_results)%Z
              then more ← fetch_news_gdelt company_name
                            (max_results - len articles)%Z;
                   mret (articles ++ more)
              else mret articles);
  mret articles.

Definition fetch_company_news_multi (company_name : string) (max_results : Z)
    (use_cache : bool) : M pyval :=
  hit ← (if use_cache
         then cached ← _load_cache company_name 24;
              mret (if truthy cached then Some cached else None)
         else mret None);
  match hit with
  | Some cached => mret cached
  | None =>
      articles ← collect_tiers company_name max_results;
      articles ← enrich_with_html_fallback articles 3;
      norm ← mapM normalize_article (slice_to max_results articles);
      let norm := PList (PDict <$> norm) in
      _ ← (if use_cache then _save_cache company_name norm else mret ());
      mret norm
  end.

End News.

(** ** clinical_trials.py *)

Definition phase_labels : list string :=
  ["phase1"; "phase2"; "phase3"; "phase4"; "phase1_2"; "phase2_3";
   "not_applicable"; "unknown"].

Definition _normalize_phase (raw_phase : pyval) : result string :=
  if negb (truthy raw_phase) then Ok "unknown"
  else
    raw ← Py.as_str raw_phase;
    let phase := Text.lower raw in
    if Text.contains "1/2" phase then Ok "phase1_2"
    else if Text.contains "2/3" phase then Ok "phase2_3"
    else if Text.contains "1" phase then Ok "phase1"
    else if Text.contains "2" phase then Ok "phase2"
    else if Text.contains "3" phase then Ok "phase3"
    else if Text.contains "4" phase then Ok "phase4"
    else if Text.contains "not applicable" phase then Ok "not_applicable"
    else Ok "unknown".

(** The input of [normalize_trials]: one raw JSON dict, or a list whose
    items are [(variant, raw_json)] pairs or, failing that, raw JSON. *)
Inductive RawItem :=
| Tagged (variant raw_json : pyval)
| Bare (raw_json : pyval).

Inductive RawResults :=
| OneDict (raw_json : dict)
| Items (items : list RawItem).

Section Trials.
Context (E : Env).

Definition CLINICAL_TRIALS_API : string :=
  "https://clinicaltrials.gov/api/v2/studies".

(** A value inside an f-string *)
Definition fmt (v : pyval) : string :=
  match v with
  | PStr s => s
  | _ => str_of E v
  end.

(** [sep.join(parts)] *)
Definition py_join (sep : string) (parts : list pyval) : result string :=
  strs ← mapM (fun p => match p with
                        | PStr s => Ok s
                        | _ => Raise TypeError
                        end) parts;
  Ok (Text.join sep strs).

Definition _build_snippet (protocol : pyval) : result string :=
  ident ← Py.get_or protocol "identificationModule" (PDict []);
  cm ← Py.get_or protocol "conditionsModule" (PDict []);
  conditions ← Py.get_or cm "conditions" (PList []);
  am ← Py.get_or protocol "armsInterventionsModule" (PDict []);
  interventions ← Py.get_or am "interventions" (PList []);
  brief ← Py.get ident "briefTitle";
  part1 ← (if truthy brief
           then t ← Py.item ident "briefTitle"; Ok [t]
           else Ok []);
  part2 ← (if truthy conditions
           then c ← Py.first conditions;
                Ok [PStr ("Condition: " +:+ fmt c)]
           else Ok []);
  part3 ← (if truthy interventions
           then i ← Py.first interventions;
                n ← Py.get i "name";
                Ok [PStr ("Intervention: " +:+ fmt n)]
           else Ok []);
  joined ← py_join " | " (part1 ++ part2 ++ part3);
  Ok (Text.take 150 joined).

Definition trials_request (company_name : pyval) (max_records : Z) : Request :=
  {| req_url := CLINICAL_TRIALS_API;
     req_params := [("query.term", company_name); ("pageSize", PInt max_records)];
     req_headers := [] |}.

Definition fetch_trials (company_name : pyval) (max_records : Z) : M pyval :=
  r ← requests_get E (trials_request company_name max_records);
  _ ← lift (raise_for_status r);
  data ← lift (json_of r);
  match data with
  | PDict d =>
      if bool_decide (is_Some (dget d "studies")) then mret data
      else mret (PDict [("studies", PList [])])
  | PList _ => mret (PDict [("studies", data)])
  | _ => mret (PDict [("studies", PList [])])
  end.

(** The trial record built from one study that passed the duplicate check. *)
Definition trial_record (variant nct protocol status : pyval) : M dict :=
  dm ← lift (Py.get_or protocol "designModule" (PDict []));
  phases ← lift (Py.get_or dm "phases" (PList [PStr "Unknown"]));
  phase_raw ← lift (Py.first phases);
  phase ← lift (_normalize_phase phase_raw);
  overall ← lift (Py.get_or status "overallStatus" (PStr "Unknown"));
  cm ← lift (Py.get_or protocol "conditionsModule" (PDict []));
  conds ← lift (Py.get_or cm "conditions" (PList [PNone]));
  condition ← lift (Py.first conds);
  am ← lift (Py.get_or protocol "armsInterventionsModule" (PDict []));
  ivs ← lift (Py.get_or am "interventions" (PList [PDict []]));
  iv ← lift (Py.first ivs);
  intervention ← lift (Py.get iv "name");
  fetched ← utcnow_iso E;
  snippet ← lift (_build_snippet protocol);
  mret [("nct", nct); ("status", overall); ("phase", PStr phase);
        ("condition", condition); ("intervention", intervention);
        ("source_url", PStr ("https://clinicaltrials.gov/study/" +:+ fmt nct));
        ("fetched", fetched); ("evidence_snippet", PStr snippet);
        ("matched_variant", variant)].

(** The loop state of [normalize_trials]: the set [seen] and the list
    [candidates]. *)
Definition Acc : Type := gset Py.hkey * list dict.

(** One iteration of the inner loop, on the study [s]. *)
Definition visit_study (variant s : pyval) (acc : Acc) : M Acc :=
  if negb (Py.is_dict s) then mret acc
  else
    protocol ← lift (Py.get_or s "protocolSection" (PDict []));
    ident ← lift (Py.get_or protocol "identificationModule" (PDict []));
    status ← lift (Py.get_or protocol "statusModule" (PDict []));
    nct ← lift (Py.get ident "nctId");
    if negb (truthy nct) then mret acc
    else
      key ← lift (Py.hash_key nct);
      if bool_decide (key ∈ acc.1) then mret acc
      else
        trial ← trial_record variant nct protocol status;
        mret ({[key]} ∪ acc.1, acc.2 ++ [trial]).

Fixpoint visit_studies (variant : pyval) (studies : list pyval) (acc : Acc)
  : M Acc :=
  match studies with
  | [] => mret acc
  | s :: rest =>
      acc' ← visit_study variant s acc;
      visit_studies variant rest acc'
  end.

Definition visit_item (company_name : pyval) (item : RawItem) (acc : Acc)
  : M Acc :=
  let '(variant, raw_json) :=
    match item with
    | Tagged v j => (v, j)
    | Bare j => (company_name, j)
    end in
  studies ← lift (Py.get_or raw_json "studies" (PList []));
  studies ← lift (Py.iter studies);
  visit_studies variant studies acc.

Fixpoint visit_items (company_name : pyval) (items : list RawItem) (acc : Acc)
  : M Acc :=
  match items with
  | [] => mret acc
  | item :: rest =>
      acc' ← visit_item company_name item acc;
      visit_items company_name rest acc'
  end.

(** [counts[t["phase"]] = counts.get(t["phase"], 0) + 1] over the candidates *)
Fixpoint count_phases (candidates : list dict) (counts : dict) : result dict :=
  match candidates with
  | [] => Ok counts
  | t :: rest =>
      phase ← Py.item (PDict t) "phase";
      key ← Py.as_str phase;
      match default (PInt 0) (dget counts key) with
      | PInt n => count_phases rest (dset counts key (PInt (n + 1)))
      | _ => Raise TypeError
      end
  end.

(** A single dict is treated as the one-item list
    [[(company_name, raw_results)]]. *)
Definition as_items (raw_results : RawResults) (company_name : pyval)
  : list RawItem :=
  match raw_results with
  | OneDict d => [Tagged company_name (PDict d)]
  | Items l => l
  end.

Definition normalize_trials (raw_results : RawResults) (company_name : pyval)
  : M pyval :=
  let items := as_items raw_results company_name in
  '(_, candidates) ← visit_items company_name items (∅, []);
  counts ← lift (count_phases candidates []);
  mret (PDict [("company_name", company_name);
               ("pipeline",
                PDict [("candidates", PList (PDict <$> candidates));
                       ("counts_by_phase", PDict counts)])]).

End Trials.

(** ** edgar_financials.py *)

Section Edgar.
Context (E : Env).

(** [os.path.join(a, b)] *)
Definition path_join (a b : string) : string :=
  if String.prefix "/" b then b
  else if bool_decide (a = EmptyString) || String.prefix "/" (String.rev a)
       then a +:+ b
       else a +:+ "/" +:+ b.

(** A path component has to be a [str]. *)
Definition as_path (v : pyval) : result string :=
  match v with
  | PStr s => Ok s
  | _ => Raise TypeError
  end.

(** [dl.get(form, ident, limit=count)]: the download goes over the network
    and leaves the tree under the working directory as the world decides. *)
Definition downloader_get (form : string) (ident : pyval) (count : Z) : M unit :=
  fun w =>
    let '(ok, d) := edgar E (sent w) form ident count in
    let w' := set_disk d (set_sent (EdgarGet form ident count :: sent w) w) in
    if ok then (Ok (), w') else (Raise RequestException, w').

Definition path_exists (p : string) : M bool := fun w =>
  (Ok (bool_decide (is_Some (dirs (disk w) !! p))
       || bool_decide (p ∈ files (disk w))), w).

Definition listdir (p : string) : M (list string) := fun w =>
  match dirs (disk w) !! p with
  | Some l => (Ok l, w)
  | None => (Raise OSError, w)
  end.

(** [sorted(names, reverse=True)] *)
Definition sorted_desc (names : list string) : list string :=
  merge_sort (fun a b => String.le b a) names.

Definition filing_record (form : string) (ticker cik : pyval)
    (base_path folder : string) : M (list dict) :=
  let filing_path := path_join (path_join base_path folder) "full-submission.txt" in
  present ← path_exists filing_path;
  if (present : bool) then
    fetched ← utcnow_iso E;
    mret [[("form", PStr form); ("filing_date", PStr folder);
           ("file_path", PStr filing_path);
           ("source_url",
            PStr ("https://www.sec.gov/Archives/edgar/data/"
                  +:+ fmt E (py_or cik ticker) +:+ "/" +:+ folder
                  +:+ "/index.html"));
           ("fetched", fetched)]]
  else mret [].

Fixpoint filing_records (form : string) (ticker cik : pyval)
    (base_path : string) (folders : list string) : M (list dict) :=
  match folders with
  | [] => mret []
  | folder :: rest =>
      here ← filing_record form ticker cik base_path folder;
      more ← filing_records form ticker cik base_path rest;
      mret (here ++ more)
  end.

(** The body of the loop over the forms, inside its [try]. *)
Definition fetch_form (form : string) (ticker cik : pyval) (count : Z)
  : M (list dict) :=
  _ ← downloader_get form (py_or ticker cik) count;
  sub ← lift (if truthy ticker then as_path ticker
              else Ok (str_of E cik));
  let base_path :=
    path_join (path_join (path_join (getcwd E) "sec-edgar-filings") sub) form in
  present ← path_exists base_path;
  if (present : bool) then
    names ← listdir base_path;
    filing_records form ticker cik base_path (slice_to count (sorted_desc names))
  else mret [].

Fixpoint fetch_forms (forms : list string) (ticker cik : pyval) (count : Z)
  : M (list dict) :=
  match forms with
  | [] => mret []
  | form :: rest =>
      here ← try_except (fetch_form form ticker cik count) (fun _ => mret []);
      more ← fetch_forms rest ticker cik count;
      mret (here ++ more)
  end.

(** [Downloader(SEC_COMPANY_NAME, SEC_EMAIL, os.getcwd())]: the constructor
    makes a request of its own and raises when that fails. *)
Definition downloader_new : M unit := fun w =>
  (downloader_init E (sent w), set_sent (EdgarInit :: sent w) w).

Definition fetch_edgar_filings (ticker cik : pyval) (count : Z) : M (list dict) :=
  if negb (truthy ticker) && negb (truthy cik) then mret []
  else
    _ ← downloader_new;
    fetch_forms ["10-K"; "10-Q"] ticker cik count.

Definition provenance_entry (f : dict) : result pyval :=
  source_url ← Py.item (PDict f) "source_url";
  fetched ← Py.item (PDict f) "fetched";
  form ← Py.item (PDict f) "form";
  filing_date ← Py.item (PDict f) "filing_date";
  Ok (PDict [("source_url", source_url); ("source_type", PStr "edgar");
             ("fetched", fetched);
             ("evidence_snippet",
              PStr (fmt E form +:+ " filing on " +:+ fmt E filing_date))]).

Definition normalize_financials (filings : list dict) (is_public : bool)
  : result pyval :=
  if negb is_public then
    Ok (PDict [("public", PBool false); ("filings", PList []);
               ("provenance", PList [])])
  else
    match filings with
    | [] => Ok (PDict [("public", PBool true); ("filings", PList []);
                       ("provenance", PList [])])
    | _ =>
        provenance ← mapM provenance_entry filings;
        Ok (PDict [("public", PBool true);
                   ("filings", PList (PDict <$> filings));
                   ("provenance", PList provenance)])
    end.

End Edgar.

(** ** pipeline_runner.py: the clinical, the financial and the news section
    of [build_profiles] *)

Section Runner.
Context (E : Env).

(** The loop over the name variants: each variant's studies are appended to
    [raw_trials]; a variant whose fetch raises is skipped. *)
Fixpoint gather_trials (variants : list pyval) (raw_trials : list pyval)
  : M (list pyval) :=
  match variants with
  | [] => mret raw_trials
  | variant :: rest =>
      raw_trials' ←
        try_except
          (trials_for_variant ← fetch_trials E variant 5;
           studies ← lift (Py.get trials_for_variant "studies");
           if truthy studies then
             studies ← lift (Py.item trials_for_variant "studies");
             more ← lift (Py.iter studies);
             mret (raw_trials ++ more)
           else mret raw_trials)
          (fun _ => mret raw_trials);
      gather_trials rest raw_trials'
  end.

Definition empty_pipeline : pyval :=
  PDict [("pipeline", PDict [("candidates", PList []);
                             ("counts_by_phase", PDict [])])].

Definition profile_trials (variants : list pyval) (resolved_name : pyval)
  : M pyval :=
  try_except
    (raw_trials ← gather_trials variants [];
     normalize_trials E (OneDict [("studies", PList raw_trials)]) resolved_name)
    (fun _ => mret empty_pipeline).

(** [pd.notna(v)]: a missing cell of the CSV is [PNone] here. *)
Definition notna (v : pyval) : bool :=
  match v with PNone => false | _ => true end.

Definition profile_financials (ticker cik : pyval) : M pyval :=
  try_except
    (if notna ticker || notna cik then
       filings ← fetch_edgar_filings E
                   (if notna ticker then ticker else PNone)
                   (if notna cik then cik else PNone) 2;
       lift (normalize_financials E filings true)
     else lift (normalize_financials E [] false))
    (fun _ => mret (PDict [("public", PBool (notna ticker || notna cik));
                           ("filings", PList []); ("provenance", PList [])])).

(** The news section mutates the items of [news_items] in place, so an
    exception in the middle of the loop leaves the earlier changes standing.
    [Patched A] is a computation that hands back the object as the code left
    it, together with how the code ended. *)
Definition Patched (A : Type) : Type := World -> (A * result unit) * World.

(** The last statement of the loop body: [item["published"] = ...]. *)
Definition set_published (d : dict) : pyval :=
  PDict (dset d "published" (normalize_date E (aget d "published"))).

(** The three assignments from [extracted[...]], each of which raises
    [KeyError] on a missing key. *)
Definition copy_extracted (d extracted : dict) : dict * result unit :=
  match dget extracted "fetched_at" with
  | None => (d, Raise KeyError)
  | Some fetched_at =>
      let d := dset d "fetched" fetched_at in
      match dget extracted "extraction_confidence" with
      | None => (d, Raise KeyError)
      | Some confidence =>
          let d := dset d "extraction_confidence" confidence in
          match dget extracted "evidence_snippet" with
          | None => (d, Raise KeyError)
          | Some snippet => (dset d "evidence_snippet" snippet, Ok ())
          end
      end
  end.

(** The loop body of the news section, on one item. *)
Definition backfill_item (item : pyval) : Patched pyval := fun w =>
  match item with
  | PDict d =>
      if negb (truthy (aget d "headline")) || negb (truthy (aget d "summary"))
      then
        let url := aget d "source_url" in
        if truthy url then
          match fetch_url E url true 3 2000000 w with
          | (Raise e, w1) => ((item, Raise e), w1)
          | (Ok fetched, w1) =>
              if truthy (aget fetched "raw_text") then
                match extract_basic_metadata E (aget fetched "raw_text") url w1 with
                | (Raise e, w2) => ((item, Raise e), w2)
                | (Ok extracted, w2) =>
                    let d1 := dset d "headline"
                                (py_or (aget d "headline") (aget extracted "title")) in
                    let d2 := dset d1 "summary"
                                (py_or (aget d1 "summary")
                                   (aget extracted "description")) in
                    match copy_extracted d2 extracted with
                    | (d3, Ok _) => ((set_published d3, Ok ()), w2)
                    | (d3, Raise e) => ((PDict d3, Raise e), w2)
                    end
                end
              else ((set_published d, Ok ()), w1)
          end
        else ((set_published d, Ok ()), w)
      else ((set_published d, Ok ()), w)
  | _ => ((item, Raise AttributeError), w)
  end.

Fixpoint backfill_items (items : list pyval) : Patched (list pyval) := fun w =>
  match items with
  | [] => (([], Ok ()), w)
  | item :: rest =>
      match backfill_item item w with
      | ((item', Raise e), w1) => ((item' :: rest, Raise e), w1)
      | ((item', Ok _), w1) =>
          let '((rest', r), w2) := backfill_items rest w1 in
          ((item' :: rest', r), w2)
      end
  end.

(** The news section of [build_profiles]: [news_items] as the profile gets
    it. Whatever is raised inside the [try] is printed and dropped. A cached
    payload that is not a list is left as it is: its items, if it has any,
    are not dicts and the first [item.get] raises. *)
Definition profile_news (resolved_name : string) : World -> pyval * World :=
  fun w =>
    match fetch_company_news_multi E resolved_name 8 true w with
    | (Raise _, w1) => (PList [], w1)
    | (Ok (PList items), w1) =>
        let '((items', _), w2) := backfill_items items w1 in
        (PList items', w2)
    | (Ok news_items, w1) => (news_items, w1)
    end.

End Runner.

(** ** A small world to run the code in *)

Module Demo.

Definition world0 : World :=
  {| clock := 1700000000000000; sent := []; calls := [];
     archive := ∅; archive_writable := true;
     news_cache := ∅; cache_writable := true;
     disk := {| dirs := ∅; files := ∅ |} |}.

Definition page (j : pyval) : N * Outcome :=
  (250000%N, Reply {| status_ok := true; text := "<html></html>"; json := Some j |}).

Definition story (title url : string) : pyval :=
  PDict [("title", PStr title); ("link", PStr url); ("snippet", PStr "text")].

Definition study (nct : string) (phase : string) : pyval :=
  PDict [("protocolSection",
          PDict [("identificationModule", PDict [("nctId", PStr nct)]);
                 ("designModule", PDict [("phases", PList [PStr phase])])])].

(** SerpApi answers with two stories, Bing is not configured, GDELT with
    one article; the trial registry knows "Acme" and fails on anything else. *)
Definition answer (history : list NetCall) (r : Request) : N * Outcome :=
  if bool_decide (req_url r = SERPAPI_ENDPOINT) then
    page (PDict [("news_results",
                  PList [story "A" "http://a"; story "B" "http://b"])])
  else if bool_decide (req_url r = "https://api.gdeltproject.org/api/v2/doc/doc") then
    page (PDict [("articles",
                  PList [PDict [("title", PStr "G"); ("url", PStr "http://g");
                                ("seendate", PStr "20240101120000")]])])
  else if bool_decide (req_url r = CLINICAL_TRIALS_API) then
    if match dget (req_params r) "query.term" with
       | Some (PStr q) => bool_decide (q = "Acme")
       | _ => false
       end
    then page (PDict [("studies", PList [study "NCT1" "PHASE1"; study "NCT2" "PHASE2"])])
    else (0%N, NetFail)
  else (100000%N, Reply {| status_ok := true; text := "<title>T</title>"; json := None |}).

Definition env : Env :=
  {| SERPAPI_KEY := Some "k"; BING_KEY := None; getcwd := "/srv";
     net := answer;
     edgar := fun _ _ _ _ => (true, {| dirs := ∅; files := ∅ |});
     downloader_init := fun _ => Ok ();
     sha256_hex16 := fun u => u;
     str_of := fun _ => "?";
     isoformat := fun _ => "t";
     parse_date := fun _ => None;
     strptime_gdelt := fun _ => Some 0%Z;
     BeautifulSoup := fun _ => inl {| title_string := Some "T"; h1_string := None;
                                       meta_description := None;
                                       og_description := None |} |}.

(** Two study lists, gathered under two name variants, that share NCT1. *)
Definition two_variants : list RawItem :=
  [Tagged (PStr "Acme")
     (PDict [("studies", PList [study "NCT1" "PHASE1"; study "NCT2" "PHASE2"])]);
   Tagged (PStr "Acme Inc.")
     (PDict [("studies", PList [study "NCT1" "PHASE1"; study "NCT3" "PHASE3"])])].

(** Five articles without headline and summary, each with its URL. *)
Definition bare (url : string) : dict :=
  [("source_url", PStr url); ("published", PNone)].

Definition five : list dict :=
  [bare "http://1"; bare "http://2"; bare "http://3"; bare "http://4";
   bare "http://5"].

Definition filled (url : string) : dict :=
  [("source_url", PStr url); ("published", PNone); ("headline", PStr "T");
   ("summary", PStr "T")].

(** The same world with a cache directory that cannot be written. *)
Definition read_only : World :=
  {| clock := clock world0; sent := []; calls := [];
     archive := ∅; archive_writable := true;
     news_cache := ∅; cache_writable := false;
     disk := disk world0 |}.

End Demo.

(** ** Vocabulary of the properties *)

(** The keys of an article as the three news adapters build it. *)
Definition tier_keys : list string :=
  ["title"; "url"; "source"; "snippet"; "published"; "raw"].

Definition tier_shaped (a : dict) : Prop := a.*1 = tier_keys.

(** A reply an adapter can read: status 2xx and a JSON object. *)
Definition usable (out : Outcome) : bool :=
  match out with
  | NetFail => false
  | Reply r => status_ok r && match json r with
                              | Some (PDict _) => true
                              | _ => false
                              end
  end.


(** The [source_url] of the article, when it has one, is a string. *)
Definition url_is_text (a : dict) : Prop :=
  truthy (aget a "source_url") = true -> exists u, aget a "source_url" = PStr u.

(** The article lacks a headline or a summary and has a source URL. *)
Definition incomplete (a : dict) : Prop :=
  (truthy (aget a "headline") = false \/ truthy (aget a "summary") = false)
  /\ truthy (aget a "source_url") = true.

(** [a'] is [a] with a headline or a summary filled in: every other key is
    as it was, and a headline or summary that [a] had is kept. *)
Definition filled_from (a a' : dict) : Prop :=
  (forall k, k <> "headline" -> k <> "summary" -> dget a' k = dget a k)
  /\ (truthy (aget a "headline") = true -> aget a' "headline" = aget a "headline")
  /\ (truthy (aget a "summary") = true -> aget a' "summary" = aget a "summary").

(** The key under which a study counts in [normalize_trials]: the hash key
    of its [nctId], when the study is a dict and the identifier is truthy. *)
Definition study_key (s : pyval) : option Py.hkey :=
  if Py.is_dict s then
    match (protocol ← Py.get_or s "protocolSection" (PDict []);
           ident ← Py.get_or protocol "identificationModule" (PDict []);
           nct ← Py.get ident "nctId";
           if truthy nct then key ← Py.hash_key nct; Ok (Some key)
           else Ok None) with
    | Ok o => o
    | Raise _ => None
    end
  else None.

(** The sightings of trial identifiers, in processing order: each with the
    variant under which the study list was gathered. *)
Definition item_sightings (company_name : pyval) (item : RawItem)
  : list (Py.hkey * pyval) :=
  let '(variant, raw_json) :=
    match item with
    | Tagged v j => (v, j)
    | Bare j => (company_name, j)
    end in
  match (studies ← Py.get_or raw_json "studies" (PList []); Py.iter studies) with
  | Ok l => omap (fun s => (fun k => (k, variant)) <$> study_key s) l
  | Raise _ => []
  end.

Definition sightings (company_name : pyval) (items : list RawItem)
  : list (Py.hkey * pyval) :=
  items ≫= item_sightings company_name.

(** First-seen-wins, as the spec words it: of the sightings of one
    identifier only the first is kept. *)
Fixpoint first_seen (seen : gset Py.hkey) (l : list (Py.hkey * pyval))
  : list (Py.hkey * pyval) :=
  match l with
  | [] => []
  | (k, v) :: l' =>
      if bool_decide (k ∈ seen) then first_seen seen l'
      else (k, v) :: first_seen ({[k]} ∪ seen) l'
  end.

(** The identifier and the variant a candidate record carries. *)
Definition candidate_tag (c : dict) : option (Py.hkey * pyval) :=
  match Py.hash_key (aget c "nct") with
  | Ok k => Some (k, aget c "matched_variant")
  | Raise _ => None
  end.

(** What [_load_cache] hands to [fetch_company_news_multi]. *)
Definition cached_payload (company_name : string) (w : World) : pyval :=
  match (_load_cache company_name 24 w).1 with
  | Ok v => v
  | Raise _ => PNone
  end.

(** The cache is not consulted, or it has nothing to offer. *)
Definition cache_miss (company_name : string) (use_cache : bool) (w : World)
  : Prop :=
  use_cache = false \/ truthy (cached_payload company_name w) = false.

(** The adapter invocations the quota discipline asks for, oldest first,
    when tier 1 returned [k1] articles and tier 2 returned [k2]. *)
Definition expected_calls (max_results k1 k2 : Z) : list (Tier * Z) :=
  (SerpApi, max_results) ::
  (if (k1 <? max_results)%Z
   then (Bing, (max_results - k1)%Z) ::
        (if (k1 + k2 <? max_results)%Z
         then [(Gdelt, (max_results - (k1 + k2))%Z)]
         else [])
   else []).

(** [out["pipeline"]["candidates"]], with the identifier and the variant
    of each record. *)
Definition candidate_tags_of (out : result pyval) : list (pyval * pyval) :=
  match (o ← out; p ← Py.item o "pipeline"; c ← Py.item p "candidates";
         Py.iter c) with
  | Ok l => (fun c => match c with
                      | PDict d => (aget d "nct", aget d "matched_variant")
                      | _ => (PNone, PNone)
                      end) <$> l
  | Raise _ => []
  end.

(** ** Frames and loop invariants used in the proofs *)

(** [preserves R m]: running [m] takes a world to an [R]-related one,
    whether [m] returns or raises. *)
Definition preserves {A} (R : relation World) (m : M A) : Prop :=
  forall w, R w (m w).2.

(** [returns m]: [m] never raises. *)
Definition returns {A} (m : M A) : Prop :=
  forall w, exists a w', m w = (Ok a, w').

(** Only the clock has moved. *)
Definition only_clock : relation World := fun w w' =>
  w' = set_clock (clock w') w.

(** Nothing on disk has changed: the archive, the news cache, the filings
    tree, and whether they can be written. *)
Definition storage_kept : relation World := fun w w' =>
  archive w' = archive w /\ archive_writable w' = archive_writable w
  /\ news_cache w' = news_cache w /\ cache_writable w' = cache_writable w
  /\ disk w' = disk w.

(** The archive is as it was, or has one entry written under [name]. *)
Definition archive_upto (name : string) : relation World := fun w w' =>
  archive_writable w' = archive_writable w
  /\ (archive w' = archive w
      \/ exists text, archive w' = <[name := text]> (archive w)).

(** [advance seen acc seen' acc' t]: the loop went from [(seen, acc)] to
    [(seen', acc')] over the sightings [t], appending one record for each
    identifier not seen before. *)
Definition advance (seen : gset Py.hkey) (acc : list dict)
    (seen' : gset Py.hkey) (acc' : list dict) (t : list (Py.hkey * pyval))
  : Prop :=
  seen' = list_to_set t.*1 ∪ seen
  /\ exists new, acc' = acc ++ new
                 /\ candidate_tag <$> new = Some <$> first_seen seen t.

(** What is known of one adapter run: it returns; its articles have the
    six adapter keys; the run is on record with its quota; an adapter that
    is not configured sends nothing; and without a usable reply there are
    no articles. *)
Definition adapter_run (E : Env) (tier : Tier) (quota : Z) (configured : bool)
    (req : Request) (m : M (list dict)) : Prop :=
  forall w, exists l w',
    m w = (Ok l, w')
    /\ Forall tier_shaped l
    /\ calls w' = (tier, quota) :: calls w
    /\ (configured = false -> l = [] /\ sent w' = sent w)
    /\ (usable (net E (sent w) req).2 = false -> l = []).

(** ** Statements of the specification that do not hold as worded *)



(** A payload written to the cache and read back within the TTL is
    returned as it is, the world untouched (no adapter is invoked). *)
Definition cache_round_trip : Prop :=
  forall (E : Env) (company : string) (max_results : Z) (payload : pyval)
         (w0 w : World),
    cache_writable w0 = true ->
    news_cache w !! cache_file company
    = news_cache (_save_cache company payload w0).2 !! cache_file company ->
    (clock w - clock w0 <= hours 24)%Z ->
    fetch_company_news_multi E company max_results true w = (Ok payload, w).



(** The test for [incomplete]: an item that lacks a headline or a summary
    and has a URL is one whose page is worth downloading. *)
Definition needs_page (d : dict) : bool :=
  (negb (truthy (aget d "headline")) || negb (truthy (aget d "summary")))
  && truthy (aget d "source_url").

(** What the content fetcher and the metadata extractor, one after the
    other, make of an article's URL: the metadata of the page when the
    fetch yields a text, nothing when it does not. *)
Definition page_metadata (E : Env) (a : dict) : M (option dict) :=
  fetched ← fetch_url E (aget a "source_url") true 3 2000000;
  if truthy (aget fetched "raw_text") then
    meta ← extract_basic_metadata E (aget fetched "raw_text")
             (aget a "source_url");
    mret (Some meta)
  else mret None.

(** The article with what it lacks taken from the metadata: a headline or
    a summary it has stays. *)
Definition fill (a meta : dict) : dict :=
  dset (dset a "headline" (py_or (aget a "headline") (aget meta "title")))
    "summary"
    (py_or (py_or (aget a "summary") (aget meta "description"))
       (aget meta "evidence_snippet")).

(** The enrichment pass as the specification words it, from the world [w]
    on and with [budget] enrichments left: an article goes through as it is
    when the budget is used up or when it needs no page; otherwise its page
    is fetched in the world as it then is, and the article is filled when
    that yields a text and goes through as it is when not. [filled] counts
    the articles filled, [empty] the fetches without a text. *)
Inductive enriches (E : Env)
  : nat -> World -> list dict -> list dict -> World -> nat -> nat -> Prop :=
| enriches_nil budget w :
    enriches E budget w [] [] w 0 0
| enriches_pass budget w a rest rest' w' filled empty :
    budget = 0 \/ needs_page a = false ->
    enriches E budget w rest rest' w' filled empty ->
    enriches E budget w (a :: rest) (a :: rest') w' filled empty
| enriches_fill budget w a meta w1 rest rest' w' filled empty :
    needs_page a = true ->
    page_metadata E a w = (Ok (Some meta), w1) ->
    enriches E budget w1 rest rest' w' filled empty ->
    enriches E (S budget) w (a :: rest) (fill a meta :: rest') w'
      (S filled) empty
| enriches_empty budget w a w1 rest rest' w' filled empty :
    needs_page a = true ->
    page_metadata E a w = (Ok None, w1) ->
    enriches E (S budget) w1 rest rest' w' filled empty ->
    enriches E (S budget) w (a :: rest) (a :: rest') w' filled (S empty).



(** ** Vocabulary of the further properties *)

(** Every character of [s] satisfies [p]. *)
Fixpoint all_chars (p : ascii -> bool) (s : string) : bool :=
  match s with
  | EmptyString => true
  | String c s' => p c && all_chars p s'
  end.

(** A character that [_sanitize_filename] lets through: a letter, a digit,
    a dot or an underscore. *)
Definition filename_char (c : ascii) : bool :=
  Text.isalnum c || bool_decide (c ∈ ["."; "_"]%char).

(** The request [fetch_url] sends for a URL. *)
Definition page_request (url : string) : Request :=
  {| req_url := url; req_params := []; req_headers := fetch_headers |}.


(** A world without network, to run the failure paths in: every request
    fails in transport, and the filings downloader raises, from its
    constructor on. *)
Module Offline.

Definition env : Env :=
  {| SERPAPI_KEY := Some "k"; BING_KEY := Some "b"; getcwd := "/srv";
     net := fun _ _ => (0%N, NetFail);
     edgar := fun _ _ _ _ => (false, {| dirs := ∅; files := ∅ |});
     downloader_init := fun _ => Raise RequestException;
     sha256_hex16 := fun u => u;
     str_of := fun _ => "?";
     isoformat := fun _ => "t";
     parse_date := fun _ => None;
     strptime_gdelt := fun _ => None;
     BeautifulSoup := fun _ => inr "parse error" |}.

End Offline.

(** A server that answers every request with a page whose lines end in a
    carriage return and a line feed. *)
Module Dos.

Definition page : string :=
  "<title>T</title>" +:+ String Text.CR (String Text.LF "<p>text</p>").

Definition env : Env :=
  {| SERPAPI_KEY := None; BING_KEY := None; getcwd := "/srv";
     net := fun _ _ => (100000%N, Reply {| status_ok := true; text := page;
                                           json := None |});
     edgar := fun _ _ _ _ => (false, {| dirs := ∅; files := ∅ |});
     downloader_init := fun _ => Raise RequestException;
     sha256_hex16 := fun u => u;
     str_of := fun _ => "?";
     isoformat := fun _ => "t";
     parse_date := fun _ => None;
     strptime_gdelt := fun _ => None;
     BeautifulSoup := fun _ => inr "parse error" |}.

End Dos.

(** The endpoints of the three news tiers. *)
Definition tier_endpoints : list string :=
  [SERPAPI_ENDPOINT; "https://api.bing.microsoft.com/v7.0/news/search";
   "https://api.gdeltproject.org/api/v2/doc/doc"].

(** The keys of a normalized news item. *)
Definition news_keys : list string :=
  ["headline"; "summary"; "source_url"; "published"; "source_name";
   "fetched"; "provenance"].

(** The keys of a trial record. *)
Definition trial_keys : list string :=
  ["nct"; "status"; "phase"; "condition"; "intervention"; "source_url";
   "fetched"; "evidence_snippet"; "matched_variant"].

(** What every record of [candidates] looks like. *)
Definition well_formed_trial (E : Env) (c : dict) : Prop :=
  c.*1 = trial_keys
  /\ truthy (aget c "nct") = true
  /\ (exists label, aget c "phase" = PStr label /\ label ∈ phase_labels)
  /\ aget c "source_url"
     = PStr ("https://clinicaltrials.gov/study/" +:+ fmt E (aget c "nct"))
  /\ exists s, aget c "evidence_snippet" = PStr s /\ String.length s <= 150.

(** The number of candidates with the phase label [p]. *)
Definition has_phase (p : string) (c : dict) : bool :=
  match aget c "phase" with
  | PStr q => bool_decide (q = p)
  | _ => false
  end.

Definition tally (p : string) (candidates : list dict) : Z :=
  len (filter (fun c => has_phase p c = true) candidates).

(** The sum of the counts held in a dict. *)
Fixpoint dict_total (d : dict) : Z :=
  match d with
  | [] => 0
  | (_, PInt n) :: d' => n + dict_total d'
  | _ :: d' => dict_total d'
  end.

(** [protocol["designModule"]["phases"]] as [normalize_trials] reads it. *)
Definition phases_of (s : pyval) : result pyval :=
  protocol ← Py.get_or s "protocolSection" (PDict []);
  dm ← Py.get_or protocol "designModule" (PDict []);
  Py.get_or dm "phases" (PList [PStr "Unknown"]).

(** A study whose design module lists no phase at all. *)
Definition phaseless_study (nct : string) : pyval :=
  PDict [("protocolSection",
          PDict [("identificationModule", PDict [("nctId", PStr nct)]);
                 ("designModule", PDict [("phases", PList [])])])].

(** The keys of a filing record. *)
Definition filing_keys : list string :=
  ["form"; "filing_date"; "file_path"; "source_url"; "fetched"].

Definition filing_of (form : string) (f : dict) : Prop :=
  f.*1 = filing_keys /\ aget f "form" = PStr form.

(** A world in which the downloader leaves three annual reports of ACME
    under the working directory, two of them with their submission file. *)
Module Filed.

Definition annual : string :=
  path_join (path_join (path_join "/srv" "sec-edgar-filings") "ACME") "10-K".

Definition tree : Disk :=
  {| dirs := {[ annual := ["0001"; "0003"; "0002"] ]};
     files := {[ path_join (path_join annual "0003") "full-submission.txt";
                 path_join (path_join annual "0001") "full-submission.txt" ]} |}.

Definition env : Env :=
  {| SERPAPI_KEY := None; BING_KEY := None; getcwd := "/srv";
     net := fun _ _ => (0%N, NetFail);
     edgar := fun _ form _ _ => (bool_decide (form = "10-K"), tree);
     downloader_init := fun _ => Ok ();
     sha256_hex16 := fun u => u;
     str_of := fun _ => "?";
     isoformat := fun _ => "t";
     parse_date := fun _ => None;
     strptime_gdelt := fun _ => None;
     BeautifulSoup := fun _ => inr "parse error" |}.

End Filed.


(** A world whose archive already holds the page of [url]. *)
Definition with_page (E : Env) (url txt : string) (w : World) : World :=
  {| clock := clock w; sent := sent w; calls := calls w;
     archive := <[archive_name E url := txt]> (archive w);
     archive_writable := archive_writable w; news_cache := news_cache w;
     cache_writable := cache_writable w; disk := disk w |}.

(** ** company_identifier.py *)

Module Identifier.

(** [s.endswith(suf)] *)
Definition endswith (s suf : string) : bool :=
  String.prefix (String.rev suf) (String.rev s).

(** [s.replace(old, new)]: the occurrences of [old] are taken from the left
    and do not overlap; [skip] counts the characters of an occurrence that
    are still to be passed over. *)
Fixpoint replace_go (old new : string) (skip : nat) (s : string) : string :=
  match s with
  | EmptyString => EmptyString
  | String c s' =>
      match skip with
      | S k => replace_go old new k s'
      | O =>
          if String.prefix old (String c s')
          then new +:+ replace_go old new (String.length old - 1) s'
          else String c (replace_go old new 0 s')
      end
  end.

(** With an empty [old], [new] goes before every character and at the end. *)
Fixpoint replace_empty (new s : string) : string :=
  match s with
  | EmptyString => new
  | String c s' => new +:+ String c (replace_empty new s')
  end.

Definition replace (old new s : string) : string :=
  match old with
  | EmptyString => replace_empty new s
  | _ => replace_go old new 0 s
  end.

Fixpoint zeros (n : nat) : string :=
  match n with
  | O => EmptyString
  | S n' => String "0" (zeros n')
  end.

(** [s.zfill(width)]: zeros go after a leading sign. *)
Definition zfill (width : nat) (s : string) : string :=
  let pad := zeros (width - String.length s) in
  match s with
  | String c s' =>
      if bool_decide (c = "+"%char) || bool_decide (c = "-"%char)
      then String c (pad +:+ s')
      else pad +:+ s
  | EmptyString => pad
  end.

(** [d.values()] *)
Definition values (v : pyval) : result (list pyval) :=
  match v with
  | PDict d => Ok d.*2
  | _ => Raise AttributeError
  end.

Definition SUFFIXES : list string :=
  ["Inc."; "Inc"; "Ltd."; "Ltd"; "Corp."; "Corp"; "Corporation"; "LLC"; "PLC"].

(** [name.replace(suf, "").strip()] *)
Definition stem (name suf : string) : string :=
  Text.strip (replace suf EmptyString name).

(** [generate_name_variants] on a string. The variants are built as a set
    and returned as [list(variants)], in no particular order: the result is
    kept as the set. *)
Definition generate_name_variants (name : string) : gset string :=
  foldl (fun variants suf =>
           if endswith name suf then {[stem name suf]} ∪ variants else variants)
        {[name]} SUFFIXES.

(** On a value that is not a string, [{name}] needs it hashable and
    [name.endswith] needs a [str]. *)
Definition variants_of (name : pyval) : result (gset string) :=
  match name with
  | PStr s => Ok (generate_name_variants s)
  | PList _ | PDict _ => Raise TypeError
  | _ => Raise AttributeError
  end.

Definition USER_AGENT : dict :=
  [("User-Agent", PStr "pharma-pipeline/0.1 contact@example.com")].

Definition sec_request : Request :=
  {| req_url := "https://www.sec.gov/files/company_tickers.json";
     req_params := []; req_headers := USER_AGENT |}.

(** The status chain of [canonicalize]. *)
Definition decide_status (ticker cik : pyval) : string :=
  if truthy ticker && truthy cik then "resolved"
  else if truthy ticker && negb (truthy cik) then "partial"
  else if negb (truthy ticker) then "private"
  else "failed".

(** One row of the result of [canonicalize]. *)
Record Canonical := {
  input_name : pyval;
  resolved_name : pyval;
  ticker : pyval;
  cik : pyval;
  website : pyval;
  name_variants : gset string;
  provenance : pyval;
  status : string
}.

Section Lookup.
(** [upper] is [str.upper]; [ticker_info] is [yf.Ticker(symbol).info], which
    may depend on what went over the network before. The requests yfinance
    makes on its own are not recorded in [sent]. *)
Context (E : Env) (upper : string -> string)
        (ticker_info : list NetCall -> pyval -> result pyval).

(** The loop of [get_cik] over [data.values()]. *)
Fixpoint find_cik (entries : list pyval) (ticker : pyval) : result pyval :=
  match entries with
  | [] => Ok PNone
  | entry :: rest =>
      theirs ← Py.get_or entry "ticker" (PStr EmptyString);
      theirs ← Py.as_str theirs;
      mine ← Py.as_str ticker;
      if bool_decide (upper theirs = upper mine) then
        c ← Py.get_or entry "cik_str" (PStr EmptyString);
        Ok (PStr (zfill 10 (fmt E c)))
      else find_cik rest ticker
  end.

Definition get_cik (ticker : pyval) : M pyval :=
  if negb (truthy ticker) then mret PNone
  else
    try_except
      (r ← requests_get E sec_request;
       _ ← lift (raise_for_status r);
       data ← lift (json_of r);
       entries ← lift (values data);
       lift (find_cik entries ticker))
      (fun _ => mret PNone).

Definition search_request (company_name : pyval) : Request :=
  {| req_url := "https://query2.finance.yahoo.com/v1/finance/search?q="
                +:+ fmt E company_name;
     req_params := []; req_headers := USER_AGENT |}.

(** The record of a name that could not be resolved. *)
Definition unresolved (company_name : pyval) (source : string) : dict :=
  [("resolved_name", company_name); ("ticker", PNone); ("website", PNone);
   ("source", PStr source)].

Definition yf_info (symbol : pyval) : M pyval := fun w =>
  (ticker_info (sent w) symbol, w).

Definition lookup_yfinance (company_name : pyval) : M dict :=
  try_except
    (r ← requests_get E (search_request company_name);
     _ ← lift (raise_for_status r);
     data ← lift (json_of r);
     quotes ← lift (Py.get data "quotes");
     ticker_symbol ← (if truthy quotes then
                        quotes ← lift (Py.item data "quotes");
                        quote ← lift (Py.first quotes);
                        lift (Py.get quote "symbol")
                      else mret PNone);
     if negb (truthy ticker_symbol)
     then mret (unresolved company_name "search_fail")
     else
       info ← yf_info ticker_symbol;
       long_name ← lift (Py.get_or info "longName" company_name);
       symbol ← lift (Py.get_or info "symbol" ticker_symbol);
       site ← lift (Py.get info "website");
       mret [("resolved_name", long_name); ("ticker", symbol);
             ("website", site); ("source", PStr "yfinance")])
    (fun _ => mret (unresolved company_name "exception")).

(** The body of the loop of [canonicalize], for one input name. *)
Definition canonical_record (name : pyval) : M Canonical :=
  record ← lookup_yfinance name;
  symbol ← lift (Py.item (PDict record) "ticker");
  number ← (if truthy symbol then get_cik symbol else mret PNone);
  resolved ← lift (Py.item (PDict record) "resolved_name");
  site ← lift (Py.item (PDict record) "website");
  variants ← lift (variants_of resolved);
  source ← lift (Py.item (PDict record) "source");
  mret {| input_name := name; resolved_name := resolved; ticker := symbol;
          cik := number; website := site; name_variants := variants;
          provenance := source;
          status := decide_status symbol number |}.


End Lookup.

(** A world in which Yahoo knows one symbol and the SEC file lists it. *)
Definition listed_net (history : list NetCall) (r : Request) : N * Outcome :=
  if bool_decide (req_url r = req_url sec_request) then
    Demo.page (PDict [("0", PDict [("cik_str", PInt 320193);
                                   ("ticker", PStr "AAPL");
                                   ("title", PStr "Apple Inc.")])])
  else
    Demo.page (PDict [("quotes", PList [PDict [("symbol", PStr "aapl")]])]).

Definition listed : Env :=
  {| SERPAPI_KEY := None; BING_KEY := None; getcwd := "/srv";
     net := listed_net;
     edgar := fun _ _ _ _ => (true, {| dirs := ∅; files := ∅ |});
     downloader_init := fun _ => Ok ();
     sha256_hex16 := fun u => u;
     str_of := fun v => match v with PInt 320193 => "320193" | _ => "?" end;
     isoformat := fun _ => "t";
     parse_date := fun _ => None;
     strptime_gdelt := fun _ => None;
     BeautifulSoup := fun _ => inr "parse error" |}.

Definition listed_info (history : list NetCall) (symbol : pyval) : result pyval :=
  Ok (PDict [("longName", PStr "Apple Inc."); ("symbol", PStr "AAPL");
             ("website", PStr "https://www.apple.com")]).

End Identifier.

(** [resolved_name.replace(" ", "_").replace("/", "_")], the stem of the
    profile's file name in [build_profiles]. *)
Definition safe_name (resolved_name : pyval) : result string :=
  name ← Py.as_str resolved_name;
  Ok (Identifier.replace "/" "_" (Identifier.replace " " "_" name)).

(** * Properties *)

(** ** Reasoning about [M] *)

Lemma bind_ok {A B} (m : M A) (f : A -> M B) w a w1 :
  m w = (Ok a, w1) -> (m ≫= f) w = f a w1.
Proof. intros H. unfold mbind, M_bind. by rewrite H. Qed.

Lemma bind_raise {A B} (m : M A) (f : A -> M B) w e w1 :
  m w = (Raise e, w1) -> (m ≫= f) w = (Raise e, w1).
Proof. intros H. unfold mbind, M_bind. by rewrite H. Qed.

Lemma bind_inv {A B} (m : M A) (f : A -> M B) w b w2 :
  (m ≫= f) w = (Ok b, w2) ->
  exists a w1, m w = (Ok a, w1) /\ f a w1 = (Ok b, w2).
Proof.
  unfold mbind, M_bind. destruct (m w) as [[a|e] w1]; [eauto|discriminate].
Qed.

Lemma lift_ok {A} (r : result A) w a w1 :
  lift r w = (Ok a, w1) <-> r = Ok a /\ w1 = w.
Proof. unfold lift. split; [intros [= -> ->]|intros [-> ->]]; done. Qed.


Section Rules.
Context (R : relation World) `{!PreOrder R}.

Lemma preserves_ret {A} (a : A) : preserves R (mret a).
Proof. intros w. simpl. reflexivity. Qed.

Lemma preserves_lift {A} (r : result A) : preserves R (lift r).
Proof. intros w. simpl. reflexivity. Qed.

Lemma preserves_bind {A B} (m : M A) (f : A -> M B) :
  preserves R m -> (forall a, preserves R (f a)) -> preserves R (m ≫= f).
Proof.
  intros Hm Hf w. unfold mbind, M_bind. specialize (Hm w).
  destruct (m w) as [[a|e] w1]; simpl in *; [|done].
  etrans; [exact Hm|apply Hf].
Qed.

Lemma preserves_try {A} (body : M A) (handler : exn -> M A) :
  preserves R body -> (forall e, preserves R (handler e)) ->
  preserves R (try_except body handler).
Proof.
  intros Hb Hh w. unfold try_except. specialize (Hb w).
  destruct (body w) as [[a|e] w1]; simpl in *; [done|].
  etrans; [exact Hb|apply Hh].
Qed.


Lemma preserves_now : preserves R now.
Proof. intros w. simpl. reflexivity. Qed.

Lemma preserves_utcnow E : preserves R (utcnow_iso E).
Proof. apply preserves_bind; [apply preserves_now|intros; apply preserves_ret]. Qed.

End Rules.




Lemma returns_utcnow E : returns (utcnow_iso E).
Proof. intros w. by eexists _, _. Qed.

Global Instance only_clock_preorder : PreOrder only_clock.
Proof.
  split.
  - intros []. reflexivity.
  - intros w1 w2 w3 H12 H23. unfold only_clock in *.
    rewrite H23, H12. reflexivity.
Qed.

Lemma preserves_sleep d : preserves only_clock (sleep d).
Proof. intros w. unfold sleep. case_match; simpl; [by destruct w|done]. Qed.

Global Instance storage_kept_preorder : PreOrder storage_kept.
Proof.
  split.
  - intros w. repeat split.
  - intros w1 w2 w3 (?&?&?&?&?) (?&?&?&?&?). repeat split; congruence.
Qed.

Lemma only_clock_storage w w' : only_clock w w' -> storage_kept w w'.
Proof. intros ->. repeat split. Qed.

Global Instance archive_upto_preorder name : PreOrder (archive_upto name).
Proof.
  split.
  - intros w. split; [done|by left].
  - intros w1 w2 w3 [Hw12 H12] [Hw23 H23]. split; [congruence|].
    destruct H23 as [->|[t ->]]; [done|].
    destruct H12 as [->|[t' ->]]; [eauto|].
    right. exists t. by rewrite insert_insert_eq.
Qed.

Lemma archive_upto_untouched name w w' :
  archive w' = archive w -> archive_writable w' = archive_writable w ->
  archive_upto name w w'.
Proof. intros H1 H2. split; [done|by left]. Qed.

Ltac step_preserves :=
  repeat first
    [ match goal with |- PreOrder _ => tc_solve end
    | progress intros
    | apply preserves_bind
    | apply preserves_try
    | apply preserves_ret
    | apply preserves_lift
    | apply preserves_utcnow
    | assumption
    | apply preserves_sleep
    | by (intros ?; unfold requests_get, sleep, invoked, archive_read,
            archive_write; simpl;
          repeat case_match; simplify_eq/=;
          first [apply archive_upto_untouched; done
                |split; [done|right; eauto]
                |repeat split])
    | case_match ].

Ltac munfold :=
  unfold mbind, M_bind, mret, M_ret, lift, try_except, now, utcnow_iso,
    invoked, sleep in *.

Ltac m_inv H :=
  cbv beta in H;
  repeat match type of H with
         | (_ ≫= _) _ = (Ok _, _) =>
             let a := fresh "a" in let w1 := fresh "w" in let Ha := fresh "Ha" in
             apply bind_inv in H as (a & w1 & Ha & H);
             try (apply lift_ok in Ha as [Ha ->])
         | mret _ _ = (Ok _, _) => unfold mret, M_ret in H; injection H as <- <-
         end.

(** ** Phase labels *)

Lemma lower_upper_char c : Text.lower_char (Text.upper_char c) = Text.lower_char c.
Proof. destruct c as [[] [] [] [] [] [] [] []]; reflexivity. Qed.

Lemma lower_upper s : Text.lower (Text.upper s) = Text.lower s.
Proof. induction s as [|c s IH]; simpl; [done|]. by rewrite lower_upper_char, IH. Qed.

Lemma upper_empty s : Text.upper s = EmptyString <-> s = EmptyString.
Proof. destruct s; simpl; split; congruence. Qed.

(** On every string the classifier returns, and what it returns is one of
    the eight labels. *)
Lemma normalize_phase_total (s : string) :
  exists label, _normalize_phase (PStr s) = Ok label /\ label ∈ phase_labels.
Proof.
  unfold _normalize_phase, phase_labels. simpl.
  repeat (case_match; simpl; [eexists; split; [reflexivity|set_solver]|]).
  eexists; split; [reflexivity|set_solver].
Qed.

Example phase_ex1 : _normalize_phase (PStr "Phase 1/2") = Ok "phase1_2".
Proof. reflexivity. Qed.
Example phase_ex2 : _normalize_phase (PStr "PHASE3") = Ok "phase3".
Proof. reflexivity. Qed.
Example phase_ex3 : _normalize_phase (PStr "Not Applicable") = Ok "not_applicable".
Proof. reflexivity. Qed.
Example phase_ex4 : _normalize_phase (PStr "Early Phase") = Ok "unknown".
Proof. reflexivity. Qed.
Example phase_ex5 : _normalize_phase PNone = Ok "unknown".
Proof. reflexivity. Qed.

(** The label does not depend on the case of the letters. *)
Lemma normalize_phase_case_insensitive (s : string) :
  _normalize_phase (PStr (Text.upper s)) = _normalize_phase (PStr s).
Proof.
  unfold _normalize_phase. simpl. rewrite lower_upper.
  destruct s; reflexivity.
Qed.

Lemma normalize_phase_empty : _normalize_phase (PStr EmptyString) = Ok "unknown".
Proof. reflexivity. Qed.

(** A label without any of the markers is [unknown]. *)
Lemma normalize_phase_unrecognized (s : string) :
  Forall (fun m => Text.contains m (Text.lower s) = false)
    ["1/2"; "2/3"; "1"; "2"; "3"; "4"; "not applicable"] ->
  _normalize_phase (PStr s) = Ok "unknown".
Proof.
  intros H. repeat (apply Forall_cons in H as [? H]).
  unfold _normalize_phase. simpl.
  destruct (negb _); [done|]. repeat case_match; congruence.
Qed.

(** C4: the compound label "Phase 1/Phase 2" does not contain the text
    "1/2", so the classifier falls through to the single-digit test and
    answers [phase1]; the label "Phase 1/2" is the one that gives
    [phase1_2]. *)
Theorem normalize_phase_compound_label :
  _normalize_phase (PStr "Phase 1/Phase 2") = Ok "phase1"
  /\ _normalize_phase (PStr "Phase 1/2") = Ok "phase1_2".
Proof. split; reflexivity. Qed.

(** ** Filings *)

(** C7: with neither a ticker nor a CIK, [fetch_edgar_filings] returns the
    empty list and leaves the world as it was, so nothing went over the
    network; and [normalize_financials] with [is_public=False] returns
    exactly [{public: False, filings: [], provenance: []}], whatever the
    filings it is given. *)
Theorem no_identifier_no_fetch (E : Env) (ticker cik : pyval) (count : Z)
    (filings : list dict) (w : World) :
  truthy ticker = false ->
  truthy cik = false ->
  fetch_edgar_filings E ticker cik count w = (Ok [], w)
  /\ sent (fetch_edgar_filings E ticker cik count w).2 = sent w
  /\ normalize_financials E filings false
     = Ok (PDict [("public", PBool false); ("filings", PList []);
                  ("provenance", PList [])]).
Proof.
  intros Ht Hc. unfold fetch_edgar_filings. rewrite Ht, Hc. simpl.
  repeat split.
Qed.

Lemma no_identifier_no_fetch_witness :
  fetch_edgar_filings Demo.env PNone (PInt 0) 2 Demo.world0 = (Ok [], Demo.world0)
  /\ sent (fetch_edgar_filings Demo.env PNone (PInt 0) 2 Demo.world0).2
     = sent Demo.world0
  /\ normalize_financials Demo.env [[("form", PStr "10-K")]] false
     = Ok (PDict [("public", PBool false); ("filings", PList []);
                  ("provenance", PList [])]).
Proof.
  apply (no_identifier_no_fetch Demo.env PNone (PInt 0) 2
           [[("form", PStr "10-K")]] Demo.world0); reflexivity.
Defined.

(** The runner's financial section, for a company without identifiers. *)
Lemma profile_financials_private (E : Env) (w : World) :
  profile_financials E PNone PNone w
  = (Ok (PDict [("public", PBool false); ("filings", PList []);
                ("provenance", PList [])]), w).
Proof. reflexivity. Qed.

(** ** The archive of fetched pages *)

Section ArchiveFacts.
Context (E : Env).



Lemma fetch_url_cached url max_retries sleep_us w text :
  archive w !! archive_name E url = Some text ->
  fetch_url E (PStr url) true max_retries sleep_us w
  = (Ok [("raw_text", PStr (Text.universal_newlines text));
         ("archive_path", PStr ("archive/" +:+ archive_name E url));
         ("fetched_at", PStr (isoformat E (clock w)));
         ("from_cache", PBool true)], w).
Proof.
  intros H. unfold fetch_url. munfold. unfold archive_read. simpl.
  by rewrite H.
Qed.

End ArchiveFacts.



(** ** The news adapters *)

Lemma res_bind_ok {A B} (r : result A) (f : A -> result B) b :
  r ≫= f = Ok b -> exists a, r = Ok a /\ f a = Ok b.
Proof. destruct r as [a|e]; simpl; [eauto|discriminate]. Qed.

Ltac res_inv H :=
  repeat (let x := fresh "x" in let Hx := fresh "Hx" in
          apply res_bind_ok in H as (x & Hx & H));
  try (injection H as <-).

Lemma mapM_ok_Forall {A B} (f : A -> result B) (P : B -> Prop) l l' :
  (forall x y, f x = Ok y -> P y) -> mapM f l = Ok l' -> Forall P l'.
Proof.
  intros Hf. revert l'. induction l as [|x l IH]; intros l' H; simpl in H.
  - injection H as <-. constructor.
  - res_inv H. constructor; eauto.
Qed.

Lemma mapM_ok_length {A B} (f : A -> result B) l l' :
  mapM f l = Ok l' -> length l' = length l.
Proof.
  revert l'. induction l as [|x l IH]; intros l' H; simpl in H.
  - by injection H as <-.
  - res_inv H. simpl. f_equal. eauto.
Qed.

Lemma dset_keys_present (a : dict) k v :
  k ∈ a.*1 -> (dset a k v).*1 = a.*1.
Proof.
  induction a as [|[k' v'] a IH]; simpl; intros Hin.
  - by apply elem_of_nil in Hin.
  - case_decide as Hk; simpl; [by subst|].
    f_equal. apply IH. apply elem_of_cons in Hin as [?|?]; [congruence|done].
Qed.

Section NewsFacts.
Context (E : Env).

Lemma serpapi_article_shape item a : serpapi_article item = Ok a -> tier_shaped a.
Proof. unfold serpapi_article. intros H. res_inv H. reflexivity. Qed.

Lemma bing_article_shape item a : bing_article item = Ok a -> tier_shaped a.
Proof. unfold bing_article. intros H. res_inv H. reflexivity. Qed.

Lemma gdelt_article_shape item a : gdelt_article item = Ok a -> tier_shaped a.
Proof. unfold gdelt_article. intros H. res_inv H. reflexivity. Qed.

Lemma gdelt_iso_date_shape a a' :
  tier_shaped a -> gdelt_iso_date E a = Ok a' -> tier_shaped a'.
Proof.
  unfold gdelt_iso_date, tier_shaped. intros Ha H.
  apply res_bind_ok in H as (p & _ & H).
  repeat case_match; simplify_eq; try done.
  rewrite dset_keys_present; [done|]. rewrite Ha.
  apply (bool_decide_unpack _). by vm_compute.
Qed.

Lemma gdelt_iso_dates_shape l l' :
  Forall tier_shaped l -> mapM (gdelt_iso_date E) l = Ok l' -> Forall tier_shaped l'.
Proof.
  intros Hl. revert l'. induction Hl as [|a l Ha Hl IH]; intros l' H; simpl in H.
  - injection H as <-. constructor.
  - res_inv H. constructor; eauto using gdelt_iso_date_shape.
Qed.

Lemma or_else_get_dict data k b c :
  or_else (Py.get data k) b = Ok c -> Py.is_dict data = true.
Proof. destruct data; simpl; done. Qed.

Lemma get_or_dict data k dflt c :
  Py.get_or data k dflt = Ok c -> Py.is_dict data = true.
Proof. destruct data; simpl; done. Qed.

(** The shared skeleton of the three adapters: the request, the status
    check and the decoding inside a [try] whose handler answers [[]]. *)
Lemma guarded_fetch_run req (rest : pyval -> M (list dict)) :
  (forall data, preserves only_clock (rest data)) ->
  (forall data w l w', rest data w = (Ok l, w') ->
                       Forall tier_shaped l /\ Py.is_dict data = true) ->
  forall w, exists l w',
    try_except
      (r ← requests_get E req;
       _ ← lift (raise_for_status r);
       data ← lift (json_of r);
       rest data)
      (fun _ => mret []) w = (Ok l, w')
    /\ Forall tier_shaped l
    /\ calls w' = calls w
    /\ (usable (net E (sent w) req).2 = false -> l = []).
Proof.
  intros Hframe Hrest w. munfold.
  unfold requests_get, raise_for_status, json_of, usable.
  destruct (net E (sent w) req) as [dt [|[ok txt [data|]]]]; simpl.
  - eexists _, _. repeat split; done.
  - destruct ok; simpl; [|eexists _, _; repeat split; done].
    match goal with |- context [rest data ?w1] =>
      pose proof (Hframe data w1) as Hw; pose proof (Hrest data w1) as Hl;
      destruct (rest data w1) as [[l|e] w2] end; simpl in Hw.
    + destruct (Hl l w2 eq_refl) as [Hshape Hdict].
      eexists _, _. split; [reflexivity|]. split; [done|].
      split; [by rewrite Hw|].
      destruct data; simpl in *; done.
    + eexists _, _. split; [reflexivity|]. split; [constructor|].
      split; [by rewrite Hw|]. done.
  - destruct ok; simpl; eexists _, _; repeat split; done.
Qed.

Lemma fetch_news_serpapi_run company max_results sleep_between :
  adapter_run E SerpApi max_results (has_key (SERPAPI_KEY E))
    (serpapi_request E company max_results)
    (fetch_news_serpapi E company max_results sleep_between).
Proof.
  intros w. unfold fetch_news_serpapi.
  rewrite (bind_ok _ _ w () (set_calls ((SerpApi, max_results) :: calls w) w))
    by reflexivity.
  destruct (has_key (SERPAPI_KEY E)); simpl.
  - edestruct guarded_fetch_run as (l & w' & -> & Hshape & Hcalls & Hnet);
      [| |eexists _, _; split; [reflexivity|]; split; [done|];
          split; [done|]; split; [done|exact Hnet]].
    + intros data. step_preserves; apply preserves_sleep.
    + intros data w0 l w' H. m_inv H.
      split; [|by eapply or_else_get_dict].
      eapply mapM_ok_Forall; [|eassumption]. apply serpapi_article_shape.
  - eexists _, _. repeat split; done.
Qed.

Lemma fetch_news_bing_run company max_results :
  adapter_run E Bing max_results (has_key (BING_KEY E))
    (bing_request E company max_results)
    (fetch_news_bing E company max_results).
Proof.
  intros w. unfold fetch_news_bing.
  rewrite (bind_ok _ _ w () (set_calls ((Bing, max_results) :: calls w) w))
    by reflexivity.
  destruct (has_key (BING_KEY E)); simpl.
  - edestruct guarded_fetch_run as (l & w' & -> & Hshape & Hcalls & Hnet);
      [| |eexists _, _; split; [reflexivity|]; split; [done|];
          split; [done|]; split; [done|exact Hnet]].
    + intros data. step_preserves.
    + intros data w0 l w' H. m_inv H.
      split; [|by eapply get_or_dict].
      eapply mapM_ok_Forall; [|eassumption]. apply bing_article_shape.
  - eexists _, _. repeat split; done.
Qed.

Lemma fetch_news_gdelt_run company max_results :
  adapter_run E Gdelt max_results true
    (gdelt_request company max_results)
    (fetch_news_gdelt E company max_results).
Proof.
  intros w. unfold fetch_news_gdelt.
  rewrite (bind_ok _ _ w () (set_calls ((Gdelt, max_results) :: calls w) w))
    by reflexivity.
  edestruct guarded_fetch_run as (l & w' & -> & Hshape & Hcalls & Hnet);
    [| |eexists _, _; split; [reflexivity|]; split; [done|];
          split; [done|]; split; [done|exact Hnet]].
  - intros data. step_preserves.
  - intros data w0 l w' H. m_inv H.
    split; [|by eapply get_or_dict].
    eapply gdelt_iso_dates_shape; [|eassumption].
    eapply mapM_ok_Forall; [|eassumption]. apply gdelt_article_shape.
Qed.

Lemma fetch_news_serpapi_storage company max_results sleep_between :
  preserves storage_kept (fetch_news_serpapi E company max_results sleep_between).
Proof. unfold fetch_news_serpapi. step_preserves. Qed.

Lemma fetch_news_bing_storage company max_results :
  preserves storage_kept (fetch_news_bing E company max_results).
Proof. unfold fetch_news_bing. step_preserves. Qed.

Lemma fetch_news_gdelt_storage company max_results :
  preserves storage_kept (fetch_news_gdelt E company max_results).
Proof. unfold fetch_news_gdelt. step_preserves. Qed.

Lemma collect_tiers_storage company max_results :
  preserves storage_kept (collect_tiers E company max_results).
Proof.
  unfold collect_tiers.
  step_preserves;
    first [apply fetch_news_serpapi_storage | apply fetch_news_bing_storage
          | apply fetch_news_gdelt_storage].
Qed.

Lemma len_app {A} (l1 l2 : list A) : len (l1 ++ l2) = (len l1 + len l2)%Z.
Proof. unfold len. rewrite length_app. lia. Qed.

(** The tier chain, run by run. *)
Lemma collect_tiers_run company max_results w :
  exists a1 a2 a3 w1 w2 w3,
    fetch_news_serpapi E company max_results 1000000 w = (Ok a1, w1)
    /\ (if (len a1 <? max_results)%Z
        then fetch_news_bing E company (max_results - len a1) w1 = (Ok a2, w2)
        else a2 = [] /\ w2 = w1)
    /\ (if (len a1 + len a2 <? max_results)%Z
        then fetch_news_gdelt E company (max_results - (len a1 + len a2)) w2
             = (Ok a3, w3)
        else a3 = [] /\ w3 = w2)
    /\ collect_tiers E company max_results w = (Ok (a1 ++ a2 ++ a3), w3)
    /\ Forall tier_shaped (a1 ++ a2 ++ a3)
    /\ rev (calls w3) = rev (calls w) ++ expected_calls max_results (len a1) (len a2).
Proof.
  destruct (fetch_news_serpapi_run company max_results 1000000 w)
    as (a1 & w1 & H1 & S1 & C1 & _).
  unfold collect_tiers, expected_calls. rewrite (bind_ok _ _ _ _ _ H1).
  destruct (len a1 <? max_results)%Z eqn:Hk1.
  - destruct (fetch_news_bing_run company (max_results - len a1) w1)
      as (a2 & w2 & H2 & S2 & C2 & _).
    rewrite (bind_ok _ _ w1 (a1 ++ a2) w2)
      by (by rewrite (bind_ok _ _ _ _ _ H2)).
    rewrite len_app.
    destruct (len a1 + len a2 <? max_results)%Z eqn:Hk2.
    + destruct (fetch_news_gdelt_run company (max_results - (len a1 + len a2)) w2)
        as (a3 & w3 & H3 & S3 & C3 & _).
      exists a1, a2, a3, w1, w2, w3. rewrite Hk1, Hk2.
      rewrite (bind_ok _ _ w2 ((a1 ++ a2) ++ a3) w3)
        by (by rewrite (bind_ok _ _ _ _ _ H3)).
      rewrite <- (assoc_L (++)).
      split; [done|]. split; [done|]. split; [done|]. split; [done|].
      split; [repeat apply Forall_app_2; done|].
      rewrite C3, C2, C1. simpl. by rewrite <- !(assoc_L (++)).
    + exists a1, a2, [], w1, w2, w2. rewrite Hk1, Hk2.
      rewrite (bind_ok _ _ w2 (a1 ++ a2) w2) by done.
      rewrite app_nil_r.
      split; [done|]. split; [done|]. split; [done|]. split; [done|].
      split; [by apply Forall_app_2|].
      rewrite C2, C1. simpl. by rewrite <- !(assoc_L (++)).
  - exists a1, [], [], w1, w1, w1.
    rewrite (bind_ok _ _ w1 a1 w1) by done.
    assert (len (@nil dict) = 0%Z) as -> by done.
    rewrite Z.add_0_r, Hk1.
    rewrite (bind_ok _ _ w1 a1 w1) by done.
    rewrite !app_nil_r.
    split; [done|]. split; [done|]. split; [done|]. split; [done|].
    split; [done|]. by rewrite C1.
Qed.

Lemma dget_absent (a : dict) k : k ∉ a.*1 -> dget a k = None.
Proof.
  induction a as [|[k' v] a IH]; simpl; intros Hk; [done|].
  apply not_elem_of_cons in Hk as [Hne Hk].
  case_decide; [congruence|]. by apply IH.
Qed.

(** An article that has no truthy [source_url] is passed through. *)
Lemma enrich_loop_skip a rest max_fallback count :
  truthy (aget a "source_url") = false ->
  enrich_loop E (a :: rest) max_fallback count
  = ('(rest', n) ← enrich_loop E rest max_fallback count; mret (a :: rest', n)).
Proof.
  intros H. simpl. rewrite H. by rewrite andb_false_r.
Qed.

Lemma tier_shaped_no_source_url a :
  tier_shaped a -> truthy (aget a "source_url") = false.
Proof.
  intros Ha. unfold aget. rewrite dget_absent; [done|].
  rewrite Ha. by apply (bool_decide_eq_false_1 ("source_url" ∈ tier_keys)).
Qed.

(** On the articles the adapters build, the enrichment loop changes
    nothing, fetches nothing and leaves its counter alone. *)
Lemma enrich_loop_tier_shaped articles max_fallback count w :
  Forall tier_shaped articles ->
  enrich_loop E articles max_fallback count w = (Ok (articles, count), w).
Proof.
  induction 1 as [|a rest Ha _ IH]; [done|].
  rewrite enrich_loop_skip by by apply tier_shaped_no_source_url.
  by rewrite (bind_ok _ _ _ _ _ IH).
Qed.

Lemma enrich_tier_shaped articles max_fallback w :
  Forall tier_shaped articles ->
  enrich_with_html_fallback E articles max_fallback w = (Ok articles, w).
Proof.
  intros H. unfold enrich_with_html_fallback.
  by rewrite (bind_ok _ _ _ _ _ (enrich_loop_tier_shaped _ _ _ _ H)).
Qed.

End NewsFacts.

(** C10: inside [fetch_company_news_multi] the enrichment pass is the
    identity. Whatever the tier chain collected, every article has exactly
    the keys title, url, source, snippet, published and raw, so the test on
    [source_url] fails for each; the pass returns the same list and leaves
    the world as it found it: no request, no archive write. *)
Theorem enrichment_is_identity_on_tiers (E : Env) (company : string)
    (max_results : Z) (w : World) :
  exists articles w1,
    collect_tiers E company max_results w = (Ok articles, w1)
    /\ Forall (fun a => a.*1 = ["title"; "url"; "source"; "snippet";
                                "published"; "raw"]) articles
    /\ enrich_with_html_fallback E articles 3 w1 = (Ok articles, w1).
Proof.
  destruct (collect_tiers_run E company max_results w)
    as (a1 & a2 & a3 & w1 & w2 & w3 & _ & _ & _ & Hrun & Hshape & _).
  exists (a1 ++ a2 ++ a3), w3. split; [done|]. split; [done|].
  by apply enrich_tier_shaped.
Qed.


(** ** The aggregator and its cache *)

Section AggregatorFacts.
Context (E : Env).

Lemma load_cache_pure company ttl_hours w :
  exists v, _load_cache company ttl_hours w = (Ok v, w).
Proof. unfold _load_cache. repeat case_match; eauto. Qed.

Lemma load_cache_payload company w :
  _load_cache company 24 w = (Ok (cached_payload company w), w).
Proof.
  unfold cached_payload.
  by destruct (load_cache_pure company 24 w) as [v ->].
Qed.

Lemma normalize_articles_run (l : list dict) w :
  exists norm, mapM (normalize_article E) l w = (Ok norm, w)
               /\ length norm = length l.
Proof.
  induction l as [|a l (norm & IH & Hlen)].
  - by exists [].
  - assert (exists n, normalize_article E a w = (Ok n, w)) as [n Hn]
      by (by eexists).
    exists (n :: norm). split; [|simpl; by rewrite Hlen].
    cbn [mapM].
    rewrite (bind_ok _ _ _ _ _ Hn). by rewrite (bind_ok _ _ _ _ _ IH).
Qed.

Lemma slice_to_len {A} (n : Z) (l : list A) :
  (0 <= n)%Z -> len (slice_to n l) = Z.min n (len l).
Proof.
  intros Hn. unfold slice_to, len.
  destruct (Z.leb_spec 0 n); [|lia].
  rewrite length_take. lia.
Qed.

(** On a cache miss the call is the tier chain, the normalization of what
    the chain collected, and the write. *)
Lemma fetch_company_news_multi_miss company max_results use_cache w :
  cache_miss company use_cache w ->
  exists articles w3 norm,
    collect_tiers E company max_results w = (Ok articles, w3)
    /\ Forall tier_shaped articles
    /\ length norm = length (slice_to max_results articles)
    /\ fetch_company_news_multi E company max_results use_cache w
       = (if use_cache
          then (_ ← _save_cache company (PList (PDict <$> norm));
                mret (PList (PDict <$> norm))) w3
          else (Ok (PList (PDict <$> norm)), w3)).
Proof.
  intros Hmiss.
  destruct (collect_tiers_run E company max_results w)
    as (a1 & a2 & a3 & w1 & w2 & w3 & _ & _ & _ & Hrun & Hshape & _).
  destruct (normalize_articles_run (slice_to max_results (a1 ++ a2 ++ a3)) w3)
    as (norm & Hnorm & Hlen).
  exists (a1 ++ a2 ++ a3), w3, norm. repeat (split; [done|]).
  unfold fetch_company_news_multi.
  assert (Hhit :
    (if use_cache
     then cached ← _load_cache company 24;
          mret (if truthy cached then Some cached else None)
     else mret None) w = (Ok None, w)).
  { destruct Hmiss as [->|Hfalsy]; [done|].
    destruct use_cache; [|done].
    rewrite (bind_ok _ _ _ _ _ (load_cache_payload company w)).
    by rewrite Hfalsy. }
  rewrite (bind_ok _ _ _ _ _ Hhit).
  rewrite (bind_ok _ _ _ _ _ Hrun).
  rewrite (bind_ok _ _ _ _ _ (enrich_tier_shaped E _ _ _ Hshape)).
  rewrite (bind_ok _ _ _ _ _ Hnorm).
  by destruct use_cache.
Qed.

Lemma save_cache_calls company payload w :
  calls (_save_cache company payload w).2 = calls w.
Proof. unfold _save_cache. by case_match. Qed.

End AggregatorFacts.

(** C2: on a cache miss tier 1 is invoked with the whole quota; tier 2 is
    invoked exactly when tier 1 returned [k1 < max_results] articles, with
    quota [max_results - k1]; tier 3 exactly when the two together are
    still short, with what remains; the log of adapter invocations holds
    these calls and no other; and the list returned has
    [min max_results total] items, so at most [max_results]. The only way
    the call does not return is a cache write that fails. *)
Theorem tier_quota_discipline (E : Env) (company : string) (max_results : Z)
    (use_cache : bool) (w : World) :
  cache_miss company use_cache w ->
  (0 <= max_results)%Z ->
  exists a1 a2 a3 w1 w2 w3,
    fetch_news_serpapi E company max_results 1000000 w = (Ok a1, w1)
    /\ (if (len a1 <? max_results)%Z
        then fetch_news_bing E company (max_results - len a1) w1 = (Ok a2, w2)
        else a2 = [] /\ w2 = w1)
    /\ (if (len a1 + len a2 <? max_results)%Z
        then fetch_news_gdelt E company (max_results - (len a1 + len a2)) w2
             = (Ok a3, w3)
        else a3 = [] /\ w3 = w2)
    /\ rev (calls (fetch_company_news_multi E company max_results use_cache w).2)
       = rev (calls w) ++ expected_calls max_results (len a1) (len a2)
    /\ match (fetch_company_news_multi E company max_results use_cache w).1 with
       | Ok out => exists items,
           out = PList items
           /\ len items = Z.min max_results (len (a1 ++ a2 ++ a3))
           /\ (len items <= max_results)%Z
       | Raise _ => use_cache = true /\ cache_writable w = false
       end.
Proof.
  intros Hmiss Hmax.
  destruct (fetch_company_news_multi_miss E company max_results use_cache w Hmiss)
    as (articles & w3' & norm & Hrun' & _ & Hlen & Hfetch).
  destruct (collect_tiers_run E company max_results w)
    as (a1 & a2 & a3 & w1 & w2 & w3 & H1 & H2 & H3 & Hrun & Hshape & Hcalls).
  rewrite Hrun in Hrun'. injection Hrun' as <- <-.
  exists a1, a2, a3, w1, w2, w3. repeat (split; [done|]).
  rewrite Hfetch.
  assert (Hitems : len (PDict <$> norm) = Z.min max_results (len (a1 ++ a2 ++ a3))).
  { unfold len at 1. rewrite length_fmap, Hlen. by apply slice_to_len. }
  assert (Hw : cache_writable w3 = cache_writable w).
  { pose proof (collect_tiers_storage E company max_results w) as Hs.
    rewrite Hrun in Hs. apply Hs. }
  destruct use_cache.
  - unfold mbind, M_bind, _save_cache. rewrite Hw.
    destruct (cache_writable w); simpl.
    + split; [done|]. eexists. repeat split; [done|lia].
    + done.
  - simpl. split; [done|]. eexists. repeat split; [done|lia].
Qed.

Lemma tier_quota_discipline_witness :
  cache_miss "Acme" false Demo.world0
  /\ (0 <= 5)%Z
  /\ exists a1 a2 a3 w1 w2 w3,
    fetch_news_serpapi Demo.env "Acme" 5 1000000 Demo.world0 = (Ok a1, w1)
    /\ (if (len a1 <? 5)%Z
        then fetch_news_bing Demo.env "Acme" (5 - len a1) w1 = (Ok a2, w2)
        else a2 = [] /\ w2 = w1)
    /\ (if (len a1 + len a2 <? 5)%Z
        then fetch_news_gdelt Demo.env "Acme" (5 - (len a1 + len a2)) w2
             = (Ok a3, w3)
        else a3 = [] /\ w3 = w2)
    /\ rev (calls (fetch_company_news_multi Demo.env "Acme" 5 false Demo.world0).2)
       = rev (calls Demo.world0) ++ expected_calls 5 (len a1) (len a2)
    /\ match (fetch_company_news_multi Demo.env "Acme" 5 false Demo.world0).1 with
       | Ok out => exists items,
           out = PList items
           /\ len items = Z.min 5 (len (a1 ++ a2 ++ a3))
           /\ (len items <= 5)%Z
       | Raise _ => false = true /\ cache_writable Demo.world0 = false
       end.
Proof.
  split; [by left|]. split; [lia|].
  apply (tier_quota_discipline Demo.env "Acme" 5 false Demo.world0);
    [by left|lia].
Defined.

(** In the demo world the chain runs all three tiers: 2 articles from
    SerpApi, none from Bing (no key), 1 from GDELT. *)
Example quota_trace_demo :
  rev (calls (fetch_company_news_multi Demo.env "Acme" 5 false Demo.world0).2)
  = [(SerpApi, 5%Z); (Bing, 3%Z); (Gdelt, 3%Z)].
Proof. reflexivity. Qed.

(** ** The news cache *)

(** Reading the cache never raises, and a file that is missing, too old or
    unreadable as JSON reads as [None]. *)
Lemma load_cache_degrades_to_miss (company : string) (ttl_hours : Z) (w : World) :
  exists v,
    _load_cache company ttl_hours w = (Ok v, w)
    /\ (news_cache w !! cache_file company = None -> v = PNone)
    /\ (forall f, news_cache w !! cache_file company = Some f ->
                  (hours ttl_hours < clock w - mtime f)%Z -> v = PNone)
    /\ (forall f, news_cache w !! cache_file company = Some f ->
                  loaded f = None -> v = PNone).
Proof.
  unfold _load_cache.
  destruct (news_cache w !! cache_file company) as [f|] eqn:Hf.
  - destruct (Z.gtb_spec (clock w - mtime f) (hours ttl_hours)).
    + eexists. split; [reflexivity|]. repeat split; done.
    + destruct (loaded f) as [v|] eqn:Hv.
      * eexists. split; [reflexivity|]. split; [done|].
        split; intros f' [= <-]; [lia|congruence].
      * eexists. split; [reflexivity|]. repeat split; done.
  - eexists. split; [reflexivity|]. repeat split; done.
Qed.

(** C3, as amended: a payload that is not empty, written to the cache for
    a company and read back for the same company no later than 24 hours
    after the write, is returned as it was stored, and the world is left
    as it was: no adapter is invoked and no request is sent. *)
Theorem cache_hit_returns_payload (E : Env) (company : string)
    (max_results : Z) (payload : pyval) (w0 w : World) :
  truthy payload = true ->
  cache_writable w0 = true ->
  news_cache w !! cache_file company
  = news_cache (_save_cache company payload w0).2 !! cache_file company ->
  (clock w - clock w0 <= hours 24)%Z ->
  fetch_company_news_multi E company max_results true w = (Ok payload, w).
Proof.
  intros Htruthy Hwritable Hentry Hfresh.
  unfold _save_cache in Hentry. rewrite Hwritable in Hentry. simpl in Hentry.
  rewrite lookup_insert_eq in Hentry.
  unfold fetch_company_news_multi.
  assert (Hload : _load_cache company 24 w = (Ok payload, w)).
  { unfold _load_cache. rewrite Hentry. simpl.
    destruct (Z.gtb_spec (clock w - clock w0) (hours 24)); [lia|done]. }
  rewrite (bind_ok _ _ w (Some payload) w); [done|].
  rewrite (bind_ok _ _ _ _ _ Hload). by rewrite Htruthy.
Qed.

Lemma cache_hit_returns_payload_witness :
  let payload := PList [PDict [("headline", PStr "A")]] in
  let w := set_clock (clock Demo.world0 + hours 1)
             (_save_cache "Acme" payload Demo.world0).2 in
  truthy payload = true
  /\ cache_writable Demo.world0 = true
  /\ news_cache w !! cache_file "Acme"
     = news_cache (_save_cache "Acme" payload Demo.world0).2 !! cache_file "Acme"
  /\ (clock w - clock Demo.world0 <= hours 24)%Z
  /\ fetch_company_news_multi Demo.env "Acme" 5 true w = (Ok payload, w).
Proof.
  intros payload w.
  assert (H1 : truthy payload = true) by reflexivity.
  assert (H2 : cache_writable Demo.world0 = true) by reflexivity.
  assert (H3 : news_cache w !! cache_file "Acme"
               = news_cache (_save_cache "Acme" payload Demo.world0).2
                 !! cache_file "Acme") by reflexivity.
  assert (H4 : (clock w - clock Demo.world0 <= hours 24)%Z)
    by (vm_compute; discriminate).
  repeat (split; [assumption|]).
  exact (cache_hit_returns_payload Demo.env "Acme" 5 payload Demo.world0 w
           H1 H2 H3 H4).
Defined.

(** C3, as worded, fails: an empty list is what the aggregator stores when
    no tier finds anything, and on the next call the stored [[]] counts as
    no entry, so the tiers run again. *)
Lemma empty_payload_is_a_miss : ~ cache_round_trip.
Proof.
  intros H.
  specialize (H Demo.env "Acme" 5%Z (PList []) Demo.world0
                (_save_cache "Acme" (PList []) Demo.world0).2
                eq_refl eq_refl).
  assert (Hfresh : (clock (_save_cache "Acme" (PList []) Demo.world0).2
                    - clock Demo.world0 <= hours 24)%Z)
    by (vm_compute; discriminate).
  specialize (H Hfresh).
  apply (f_equal (fun p => calls p.2)) in H.
  vm_compute in H. discriminate.
Qed.

(** A miss with [use_cache=True] and a cache that cannot be written. *)
Lemma save_failure_raises (E : Env) (company : string) (max_results : Z)
    (w : World) :
  cache_miss company true w ->
  cache_writable w = false ->
  exists w', fetch_company_news_multi E company max_results true w
             = (Raise OSError, w').
Proof.
  intros Hmiss Hro.
  destruct (fetch_company_news_multi_miss E company max_results true w Hmiss)
    as (articles & w3 & norm & Hrun & _ & _ & ->).
  assert (Hw : cache_writable w3 = cache_writable w).
  { pose proof (collect_tiers_storage E company max_results w) as Hs.
    rewrite Hrun in Hs. apply Hs. }
  unfold mbind, M_bind, _save_cache. rewrite Hw, Hro. by eexists.
Qed.

(** C8: a cache write that fails is not caught. On a miss with
    [use_cache=True] and a cache directory that cannot be written,
    [fetch_company_news_multi] raises [OSError] after the tiers have run,
    and the normalized list is lost. *)
Theorem cache_write_failure_propagates (E : Env) (company : string)
    (max_results : Z) (w : World) :
  cache_miss company true w ->
  cache_writable w = false ->
  (fetch_company_news_multi E company max_results true w).1 = Raise OSError.
Proof.
  intros Hmiss Hro.
  by destruct (save_failure_raises E company max_results w Hmiss Hro) as [w' ->].
Qed.

(** In [build_profiles] the exception is caught by the [except] of the news
    section, and the profile is written with no news at all. *)
Lemma profile_news_on_save_failure (E : Env) (resolved_name : string) (w : World) :
  cache_miss resolved_name true w ->
  cache_writable w = false ->
  (profile_news E resolved_name w).1 = PList [].
Proof.
  intros Hmiss Hro. unfold profile_news.
  by destruct (save_failure_raises E resolved_name 8 w Hmiss Hro) as [w' ->].
Qed.

Lemma cache_write_failure_propagates_witness :
  cache_miss "Acme" true Demo.read_only
  /\ cache_writable Demo.read_only = false
  /\ (fetch_company_news_multi Demo.env "Acme" 5 true Demo.read_only).1
     = Raise OSError.
Proof.
  assert (H1 : cache_miss "Acme" true Demo.read_only) by (by right).
  assert (H2 : cache_writable Demo.read_only = false) by reflexivity.
  repeat (split; [assumption|]).
  exact (cache_write_failure_propagates Demo.env "Acme" 5 Demo.read_only H1 H2).
Defined.

(** ** Adapters and errors *)

Section AdapterErrors.
Context (E : Env).



End AdapterErrors.



(** ** The enrichment pass *)

Lemma dget_dset_eq (d : dict) k v : dget (dset d k v) k = Some v.
Proof.
  induction d as [|[k' v'] d IH]; simpl.
  - by rewrite decide_True.
  - case_decide as Hk; simpl; [by rewrite decide_True|by rewrite decide_False].
Qed.

Lemma dget_dset_ne (d : dict) k k' v : k <> k' -> dget (dset d k v) k' = dget d k'.
Proof.
  intros Hne. induction d as [|[k0 v0] d IH]; simpl.
  - by rewrite decide_False.
  - case_decide as Hk; simpl.
    + subst. by rewrite !decide_False.
    + case_decide; [done|apply IH].
Qed.

Section EnrichFacts.
Context (E : Env).

Lemma fetch_attempts_returns n url name max_retries sleep_us :
  (0 <= sleep_us)%Z ->
  forall w, exists d w',
    fetch_attempts E n url name max_retries sleep_us w = (Ok d, w')
    /\ is_Some (dget d "raw_text").
Proof.
  intros Hs. induction n as [|n IH]; intros w.
  - eexists _, _. split; [reflexivity|by eexists].
  - cbn [fetch_attempts]. unfold try_except.
    match goal with |- context [match ?body w with _ => _ end] =>
      destruct (body w) as [[d|e] w1] eqn:Hbody end.
    + m_inv Hbody. eexists _, _. split; [reflexivity|by eexists].
    + unfold sleep, mbind, M_bind.
      destruct (Z.ltb_spec sleep_us 0); [lia|]. apply IH.
Qed.

Lemma fetch_url_returns url w :
  exists d w', fetch_url E (PStr url) true 3 2000000 w = (Ok d, w')
               /\ is_Some (dget d "raw_text").
Proof.
  unfold fetch_url.
  rewrite (bind_ok _ _ w url w) by reflexivity.
  rewrite (bind_ok _ _ w (Text.universal_newlines
                             <$> archive w !! archive_name E url) w)
    by reflexivity.
  destruct (archive w !! archive_name E url) as [txt|].
  - eexists _, _. split; [reflexivity|by eexists].
  - by apply fetch_attempts_returns.
Qed.

Lemma extract_basic_metadata_returns html_text source_url w :
  exists meta, extract_basic_metadata E html_text source_url w = (Ok meta, w).
Proof.
  unfold extract_basic_metadata. munfold.
  destruct (BeautifulSoup E html_text); by eexists.
Qed.

(** What one enrichment does to an article. *)
Lemma filled_from_enriched (a meta : dict) :
  filled_from a
    (dset (dset a "headline" (py_or (aget a "headline") (aget meta "title")))
       "summary"
       (py_or (py_or (aget (dset a "headline"
                              (py_or (aget a "headline") (aget meta "title")))
                        "summary")
                 (aget meta "description"))
          (aget meta "evidence_snippet"))).
Proof.
  split; [|split].
  - intros k Hh Hs. by rewrite !dget_dset_ne.
  - intros Ht. unfold aget at 1.
    rewrite dget_dset_ne, dget_dset_eq by done. simpl.
    unfold py_or. by rewrite Ht.
  - intros Ht. unfold aget at 1. rewrite dget_dset_eq. simpl.
    unfold aget at 1. rewrite dget_dset_ne by done.
    fold (aget a "summary"). unfold py_or. by rewrite !Ht.
Qed.

Lemma aget_item (a : dict) k v :
  truthy (aget a k) = true -> aget a k = v -> Py.item (PDict a) k = Ok v.
Proof.
  unfold aget, Py.item. destruct (dget a k); simpl; [congruence|discriminate].
Qed.

Lemma elem_of_shift (i : nat) (t : list nat) : S i ∈ S <$> t <-> i ∈ t.
Proof.
  rewrite list_elem_of_fmap. split.
  - intros (j & [= ->] & Hj). done.
  - intros Hi. by exists i.
Qed.

Lemma zero_not_shifted (t : list nat) : 0 ∉ S <$> t.
Proof. rewrite list_elem_of_fmap. intros (j & [=] & _). Qed.

(** The loop from any counter value: [touched] lists the positions that
    were enriched. *)
Lemma enrich_loop_budget articles max_fallback :
  Forall url_is_text articles ->
  forall count w, exists enriched n w' (touched : list nat),
    enrich_loop E articles max_fallback count w = (Ok (enriched, n), w')
    /\ n = (count + len touched)%Z
    /\ (n <= Z.max count max_fallback)%Z
    /\ NoDup touched
    /\ length enriched = length articles
    /\ forall i a a', articles !! i = Some a -> enriched !! i = Some a' ->
         (i ∈ touched -> incomplete a /\ filled_from a a')
         /\ (i ∉ touched -> a' = a).
Proof.
  induction 1 as [|a rest Ha _ IH]; intros count w.
  - exists [], count, w, []. split; [done|]. split; [unfold len; simpl; lia|].
    split; [lia|]. split; [constructor|]. split; [done|]. intros i a a' [=].
  - cbn [enrich_loop].
    destruct ((negb (truthy (aget a "headline")) || negb (truthy (aget a "summary")))
              && truthy (aget a "source_url") && (count <? max_fallback)%Z)
      eqn:Hcond.
    + apply andb_prop in Hcond as [Hcond Hlt].
      apply andb_prop in Hcond as [Hmissing Hurl].
      apply Z.ltb_lt in Hlt.
      destruct (Ha Hurl) as [u Hu].
      rewrite (bind_ok _ _ w (PStr u) w) by (by rewrite (aget_item a _ _ Hurl Hu)).
      destruct (fetch_url_returns u w) as (d & w1 & Hfetch & raw & Hraw).
      rewrite (bind_ok _ _ _ _ _ Hfetch).
      assert (Hinc : incomplete a).
      { split; [|done]. apply orb_prop in Hmissing as [H|H];
          apply negb_true_iff in H; auto. }
      destruct (truthy (aget d "raw_text")) eqn:Htext.
      * rewrite (bind_ok _ _ w1 raw w1)
          by (by unfold lift, Py.item; rewrite Hraw).
        rewrite (bind_ok _ _ w1 (PStr u) w1)
          by (by rewrite (aget_item a _ _ Hurl Hu)).
        destruct (extract_basic_metadata_returns raw (PStr u) w1) as [meta Hmeta].
        rewrite (bind_ok _ _ _ _ _ Hmeta).
        destruct (IH (count + 1)%Z w1)
          as (enriched & n & w' & touched & Hloop & Hn & Hle & Hnd & Hlen & Hpos).
        rewrite (bind_ok _ _ _ _ _ Hloop).
        eexists (_ :: enriched), n, w', (0 :: (S <$> touched)).
        split; [reflexivity|].
        split; [unfold len in *; simpl; rewrite length_fmap; lia|].
        split; [lia|].
        split; [constructor; [apply zero_not_shifted|by apply (NoDup_fmap_2 S)]|].
        split; [simpl; by rewrite Hlen|].
        intros [|i] b b' Hb Hb'; simpl in Hb, Hb'.
        -- injection Hb as <-. injection Hb' as <-.
           split; [intros _; split; [done|apply filled_from_enriched]|].
           intros Hnot. exfalso. apply Hnot. left.
        -- destruct (Hpos i b b' Hb Hb') as [Hin Hout]. split.
           ++ intros Hi. apply Hin. apply elem_of_cons in Hi as [[=]|Hi].
              by apply elem_of_shift.
           ++ intros Hi. apply Hout. intros Hi'. apply Hi. right.
              by apply elem_of_shift.
      * destruct (IH count w1)
          as (enriched & n & w' & touched & Hloop & Hn & Hle & Hnd & Hlen & Hpos).
        rewrite (bind_ok _ _ _ _ _ Hloop).
        eexists (a :: enriched), n, w', (S <$> touched).
        split; [reflexivity|].
        split; [unfold len in *; rewrite length_fmap; lia|].
        split; [lia|].
        split; [by apply (NoDup_fmap_2 S)|].
        split; [simpl; by rewrite Hlen|].
        intros [|i] b b' Hb Hb'; simpl in Hb, Hb'.
        -- injection Hb as <-. injection Hb' as <-.
           split; [intros Hi; by apply zero_not_shifted in Hi|done].
        -- destruct (Hpos i b b' Hb Hb') as [Hin Hout]. split.
           ++ intros Hi. apply Hin. by apply elem_of_shift.
           ++ intros Hi. apply Hout. intros Hi'. apply Hi. by apply elem_of_shift.
    + destruct (IH count w)
        as (enriched & n & w' & touched & Hloop & Hn & Hle & Hnd & Hlen & Hpos).
      rewrite (bind_ok _ _ _ _ _ Hloop).
      eexists (a :: enriched), n, w', (S <$> touched).
      split; [reflexivity|].
      split; [unfold len in *; rewrite length_fmap; lia|].
      split; [lia|].
      split; [by apply (NoDup_fmap_2 S)|].
      split; [simpl; by rewrite Hlen|].
      intros [|i] b b' Hb Hb'; simpl in Hb, Hb'.
      * injection Hb as <-. injection Hb' as <-.
        split; [intros Hi; by apply zero_not_shifted in Hi|done].
      * destruct (Hpos i b b' Hb Hb') as [Hin Hout]. split.
        -- intros Hi. apply Hin. by apply elem_of_shift.
        -- intros Hi. apply Hout. intros Hi'. apply Hi. by apply elem_of_shift.
Qed.

(** The loop does what the specification says, step by step. *)
Lemma enrich_loop_enriches articles max_fallback :
  forall count w enriched n w',
    (count <= max_fallback)%Z ->
    enrich_loop E articles max_fallback count w = (Ok (enriched, n), w') ->
    exists filled empty,
      enriches E (Z.to_nat (max_fallback - count)) w articles enriched w'
        filled empty
      /\ n = (count + Z.of_nat filled)%Z
      /\ filled <= Z.to_nat (max_fallback - count)
      /\ (filled = Z.to_nat (max_fallback - count)
          \/ filled + empty
             = length (filter (fun a => needs_page a = true) articles)).
Proof.
  induction articles as [|a rest IH]; intros count w enriched n w' Hcount Hrun.
  - injection Hrun as <- <- <-. exists 0, 0.
    split; [constructor|]. split; [lia|]. split; [lia|]. by right.
  - cbn [enrich_loop] in Hrun. rewrite filter_cons.
    change ((negb (truthy (aget a "headline")) || negb (truthy (aget a "summary")))
            && truthy (aget a "source_url")) with (needs_page a) in Hrun.
    destruct (needs_page a) eqn:Hneeds; cbn [andb] in Hrun.
    + rewrite decide_True by done.
      destruct (count <? max_fallback)%Z eqn:Hlt;
        [apply Z.ltb_lt in Hlt|apply Z.ltb_ge in Hlt].
      * assert (Hbudget : Z.to_nat (max_fallback - count)
                          = S (Z.to_nat (max_fallback - (count + 1)))) by lia.
        assert (Hurl : truthy (aget a "source_url") = true).
        { unfold needs_page in Hneeds. by apply andb_prop in Hneeds as [_ ?]. }
        rewrite (bind_ok _ _ w (aget a "source_url") w) in Hrun
          by (by rewrite (aget_item a _ _ Hurl eq_refl)).
        apply bind_inv in Hrun as (fetched & w1 & Hfetch & Hrun).
        destruct (truthy (aget fetched "raw_text")) eqn:Htext.
        -- rewrite (bind_ok _ _ w1 (aget fetched "raw_text") w1) in Hrun
             by (by rewrite (aget_item fetched _ _ Htext eq_refl)).
           rewrite (bind_ok _ _ w1 (aget a "source_url") w1) in Hrun
             by (by rewrite (aget_item a _ _ Hurl eq_refl)).
           apply bind_inv in Hrun as (meta & w2 & Hmeta & Hrun).
           apply bind_inv in Hrun as ([rest' n'] & w3 & Hrest & Hrun).
           injection Hrun as <- <- <-.
           destruct (IH (count + 1)%Z _ _ _ _ ltac:(lia) Hrest)
             as (filled & empty & Hspec & Hn & Hle & Hall).
           exists (S filled), empty. rewrite Hbudget.
           split; [|split; [lia|split; [lia|]]].
           ++ assert (Hfill : dset (dset a "headline"
                                      (py_or (aget a "headline") (aget meta "title")))
                                "summary"
                                (py_or (py_or (aget (dset a "headline"
                                                       (py_or (aget a "headline")
                                                          (aget meta "title")))
                                                 "summary")
                                          (aget meta "description"))
                                   (aget meta "evidence_snippet"))
                              = fill a meta).
              { unfold fill. do 3 f_equal. unfold aget.
                by rewrite dget_dset_ne. }
              rewrite Hfill. eapply enriches_fill; [done| |exact Hspec].
              unfold page_metadata. rewrite (bind_ok _ _ _ _ _ Hfetch), Htext.
              by rewrite (bind_ok _ _ _ _ _ Hmeta).
           ++ destruct Hall as [->|Hall]; [by left|right; simpl; lia].
        -- apply bind_inv in Hrun as ([rest' n'] & w3 & Hrest & Hrun).
           injection Hrun as <- <- <-.
           destruct (IH _ _ _ _ _ Hcount Hrest)
             as (filled & empty & Hspec & Hn & Hle & Hall).
           exists filled, (S empty).
           split; [|split; [lia|split; [lia|]]].
           ++ rewrite Hbudget. eapply enriches_empty; [done| |by rewrite <- Hbudget].
              unfold page_metadata. by rewrite (bind_ok _ _ _ _ _ Hfetch), Htext.
           ++ destruct Hall as [->|Hall]; [by left|right; simpl; lia].
      * apply bind_inv in Hrun as ([rest' n'] & w3 & Hrest & Hrun).
        injection Hrun as <- <- <-.
        destruct (IH _ _ _ _ _ Hcount Hrest)
          as (filled & empty & Hspec & Hn & Hle & Hall).
        exists filled, empty.
        split; [|split; [lia|split; [lia|left; lia]]].
        apply enriches_pass; [left; lia|done].
    + rewrite decide_False by (by intros ?).
      apply bind_inv in Hrun as ([rest' n'] & w3 & Hrest & Hrun).
      injection Hrun as <- <- <-.
      destruct (IH _ _ _ _ _ Hcount Hrest)
        as (filled & empty & Hspec & Hn & Hle & Hall).
      exists filled, empty. split; [|done].
      apply enriches_pass; [by right|done].
Qed.

End EnrichFacts.

(** C6: with [max_fallback=3] the pass enriches at most three articles of
    its input, however many are incomplete: the counter [n] of enrichments
    is shared by the whole pass. Each enriched article lacked a headline or
    a summary and had a source URL; enrichment leaves its other keys alone
    and keeps a headline or summary it already had. Every other article,
    those past the budget included, comes out as it went in. The pass is
    the one the specification describes: in arrival order, an incomplete
    article met while the budget lasts has its page fetched and is filled
    from the page's metadata when the fetch yields a text. So fewer than
    three articles are enriched only when every incomplete article was
    tried, and then each one not enriched had a fetch without text. *)
Theorem enrichment_budget (E : Env) (articles : list dict) (w : World) :
  Forall url_is_text articles ->
  exists enriched n w' (touched : list nat) (empty : nat),
    enrich_loop E articles 3 0 w = (Ok (enriched, n), w')
    /\ enrich_with_html_fallback E articles 3 w = (Ok enriched, w')
    /\ n = len touched
    /\ (n <= 3)%Z
    /\ NoDup touched
    /\ length enriched = length articles
    /\ (forall i a a', articles !! i = Some a -> enriched !! i = Some a' ->
          (i ∈ touched -> incomplete a /\ filled_from a a')
          /\ (i ∉ touched -> a' = a))
    /\ enriches E 3 w articles enriched w' (length touched) empty
    /\ (length touched = 3
        \/ length touched + empty
           = length (filter (fun a => needs_page a = true) articles)).
Proof.
  intros Hurls.
  destruct (enrich_loop_budget E articles 3 Hurls 0%Z w)
    as (enriched & n & w' & touched & Hloop & Hn & Hle & Hnd & Hlen & Hpos).
  destruct (enrich_loop_enriches E articles 3 0%Z w enriched n w' ltac:(lia) Hloop)
    as (filled & empty & Hspec & Hfilled & _ & Hall).
  assert (Hsame : filled = length touched) by (unfold len in Hn; lia).
  subst filled.
  exists enriched, n, w', touched, empty.
  split; [done|].
  split; [unfold enrich_with_html_fallback; by rewrite (bind_ok _ _ _ _ _ Hloop)|].
  split; [lia|]. split; [lia|]. split; [done|]. split; [done|].
  split; [done|]. split; [exact Hspec|exact Hall].
Qed.

Lemma enrichment_budget_witness :
  Forall url_is_text Demo.five
  /\ (enrich_with_html_fallback Demo.env Demo.five 3 Demo.world0).1
     = Ok [Demo.filled "http://1"; Demo.filled "http://2";
           Demo.filled "http://3"; Demo.bare "http://4"; Demo.bare "http://5"]
  /\ exists enriched n w' (touched : list nat) (empty : nat),
    enrich_loop Demo.env Demo.five 3 0 Demo.world0 = (Ok (enriched, n), w')
    /\ enrich_with_html_fallback Demo.env Demo.five 3 Demo.world0
       = (Ok enriched, w')
    /\ n = len touched
    /\ (n <= 3)%Z
    /\ NoDup touched
    /\ length enriched = length Demo.five
    /\ (forall i a a', Demo.five !! i = Some a -> enriched !! i = Some a' ->
          (i ∈ touched -> incomplete a /\ filled_from a a')
          /\ (i ∉ touched -> a' = a))
    /\ enriches Demo.env 3 Demo.world0 Demo.five enriched w'
         (length touched) empty
    /\ (length touched = 3
        \/ length touched + empty
           = length (filter (fun a => needs_page a = true) Demo.five)).
Proof.
  assert (H : Forall url_is_text Demo.five).
  { repeat constructor; intros _; eexists; reflexivity. }
  split; [exact H|]. split; [vm_compute; reflexivity|].
  exact (enrichment_budget Demo.env Demo.five Demo.world0 H).
Defined.

(** Five incomplete articles, every page fetched with success: the first
    three are enriched, the last two come out as they went in. *)
Example enrichment_of_five :
  (enrich_with_html_fallback Demo.env Demo.five 3 Demo.world0).1
  = Ok [Demo.filled "http://1"; Demo.filled "http://2"; Demo.filled "http://3";
        Demo.bare "http://4"; Demo.bare "http://5"].
Proof. vm_compute. reflexivity. Qed.

(** ** Deduplication of trials *)

Lemma first_seen_keys seen l k :
  k ∈ (first_seen seen l).*1 <-> k ∈ l.*1 /\ k ∉ seen.
Proof.
  revert seen. induction l as [|[k' v] l IH]; intros seen; simpl.
  - split; [by intros ?%elem_of_nil|by intros [?%elem_of_nil _]].
  - case_bool_decide as Hk'; simpl.
    + rewrite IH, elem_of_cons. split; [naive_solver|].
      intros [[->|?] ?]; done.
    + rewrite !elem_of_cons, IH. split.
      * intros [->|[? Hn]]; [auto|]. split; [auto|set_solver].
      * intros [[->|?] ?]; [auto|].
        destruct (decide (k = k')) as [->|]; [auto|]. right. split; [done|set_solver].
Qed.


(** A kept sighting is the first of its identifier. *)
Lemma first_seen_first seen l k v :
  (k, v) ∈ first_seen seen l ->
  exists before after, l = before ++ (k, v) :: after /\ k ∉ before.*1.
Proof.
  revert seen. induction l as [|[k' v'] l IH]; intros seen; simpl.
  - by intros ?%elem_of_nil.
  - case_bool_decide as Hk'.
    + intros Hin. destruct (IH _ Hin) as (before & after & -> & Hb).
      exists ((k', v') :: before), after. split; [done|].
      simpl. apply not_elem_of_cons. split; [|done].
      intros ->. apply (list_elem_of_fmap_2 fst) in Hin.
      apply first_seen_keys in Hin as [_ ?]. done.
    + intros [[= -> ->]|Hin]%elem_of_cons.
      * exists [], l. split; [done|]. apply not_elem_of_nil.
      * destruct (IH _ Hin) as (before & after & -> & Hb).
        exists ((k', v') :: before), after. split; [done|].
        simpl. apply not_elem_of_cons. split; [|done].
        intros ->. apply (list_elem_of_fmap_2 fst) in Hin.
        apply first_seen_keys in Hin as [_ ?]. set_solver.
Qed.

Lemma first_seen_app seen l1 l2 :
  first_seen seen (l1 ++ l2)
  = first_seen seen l1 ++ first_seen (list_to_set l1.*1 ∪ seen) l2.
Proof.
  revert seen. induction l1 as [|[k v] l1 IH]; intros seen; simpl.
  - by rewrite (left_id_L ∅ (∪)).
  - case_bool_decide as Hk.
    + rewrite IH. do 2 f_equal. set_solver.
    + simpl. rewrite IH. do 3 f_equal. set_solver.
Qed.

Lemma advance_nil seen acc : advance seen acc seen acc [].
Proof.
  split; [set_solver|]. exists []. by rewrite app_nil_r.
Qed.

Lemma advance_app seen acc seen1 acc1 seen2 acc2 t1 t2 :
  advance seen acc seen1 acc1 t1 -> advance seen1 acc1 seen2 acc2 t2 ->
  advance seen acc seen2 acc2 (t1 ++ t2).
Proof.
  intros [-> (new1 & -> & H1)] [-> (new2 & -> & H2)]. split.
  - rewrite fmap_app, list_to_set_app_L. set_solver.
  - exists (new1 ++ new2). split; [by rewrite (assoc_L (++))|].
    by rewrite first_seen_app, !fmap_app, H1, H2.
Qed.

Section TrialFacts.
Context (E : Env).

Lemma trial_record_tag variant nct protocol status w trial w' :
  trial_record E variant nct protocol status w = (Ok trial, w') ->
  aget trial "nct" = nct /\ aget trial "matched_variant" = variant.
Proof.
  unfold trial_record. intros H. m_inv H. split; reflexivity.
Qed.

Lemma visit_study_advance variant s seen acc w seen' acc' w' :
  visit_study E variant s (seen, acc) w = (Ok (seen', acc'), w') ->
  advance seen acc seen' acc'
    (option_list ((fun k => (k, variant)) <$> study_key s)).
Proof.
  unfold visit_study, study_key. intros H.
  destruct (Py.is_dict s); simpl in H;
    [|injection H as <- <- <-; apply advance_nil].
  apply bind_inv in H as (protocol & ? & [Hprotocol ->]%lift_ok & H).
  apply bind_inv in H as (ident & ? & [Hident ->]%lift_ok & H).
  apply bind_inv in H as (status & ? & [_ ->]%lift_ok & H).
  apply bind_inv in H as (nct & ? & [Hnct ->]%lift_ok & H).
  rewrite Hprotocol; simpl. rewrite Hident; simpl. rewrite Hnct; simpl.
  destruct (truthy nct); simpl in H;
    [|injection H as <- <- <-; apply advance_nil].
  apply bind_inv in H as (key & ? & [Hkey ->]%lift_ok & H).
  rewrite Hkey; simpl.
  case_bool_decide as Hseen.
  - injection H as <- <- <-. split; [set_solver|].
    exists []. rewrite app_nil_r. split; [done|].
    simpl. by rewrite bool_decide_eq_true_2.
  - apply bind_inv in H as (trial & ? & Htrial & H).
    injection H as <- <- <-.
    apply trial_record_tag in Htrial as [Htag Hvar].
    split; [set_solver|].
    eexists [_]. split; [done|].
    simpl. rewrite bool_decide_eq_false_2 by done.
    unfold candidate_tag. by rewrite Htag, Hkey, Hvar.
Qed.

Lemma visit_studies_advance variant studies seen acc w seen' acc' w' :
  visit_studies E variant studies (seen, acc) w = (Ok (seen', acc'), w') ->
  advance seen acc seen' acc'
    (omap (fun s => (fun k => (k, variant)) <$> study_key s) studies).
Proof.
  revert seen acc w. induction studies as [|s rest IH]; intros seen acc w H.
  - injection H as <- <- <-. apply advance_nil.
  - cbn [visit_studies] in H.
    apply bind_inv in H as ([seen1 acc1] & w1 & Hs & H).
    apply visit_study_advance in Hs. apply IH in H.
    pose proof (advance_app _ _ _ _ _ _ _ _ Hs H) as Hadv.
    simpl. destruct (study_key s); exact Hadv.
Qed.

Lemma visit_item_advance company item seen acc w seen' acc' w' :
  visit_item E company item (seen, acc) w = (Ok (seen', acc'), w') ->
  advance seen acc seen' acc' (item_sightings company item).
Proof.
  unfold visit_item, item_sightings. intros H.
  destruct (match item with
            | Tagged v j => (v, j)
            | Bare j => (company, j)
            end) as [variant raw_json].
  m_inv H. rewrite Ha. simpl. rewrite Ha0.
  by apply visit_studies_advance in H.
Qed.

Lemma visit_items_advance company items seen acc w seen' acc' w' :
  visit_items E company items (seen, acc) w = (Ok (seen', acc'), w') ->
  advance seen acc seen' acc' (sightings company items).
Proof.
  revert seen acc w. induction items as [|item rest IH]; intros seen acc w H.
  - injection H as <- <- <-. apply advance_nil.
  - cbn [visit_items] in H.
    apply bind_inv in H as ([seen1 acc1] & w1 & Hi & H).
    apply visit_item_advance in Hi. apply IH in H.
    exact (advance_app _ _ _ _ _ _ _ _ Hi H).
Qed.

End TrialFacts.

(** The candidates of a run that returns, read as sightings. *)
Lemma normalize_trials_tags (E : Env) (raw_results : RawResults)
    (company : pyval) (w : World) (out : pyval) :
  (normalize_trials E raw_results company w).1 = Ok out ->
  exists candidates counts,
    out = PDict [("company_name", company);
                 ("pipeline",
                  PDict [("candidates", PList (PDict <$> candidates));
                         ("counts_by_phase", PDict counts)])]
    /\ candidate_tag <$> candidates
       = Some <$> first_seen ∅ (sightings company (as_items raw_results company)).
Proof.
  intros H.
  destruct (normalize_trials E raw_results company w) as [[r|e] w'] eqn:Hrun;
    simpl in H; [|done].
  injection H as ->. unfold normalize_trials in Hrun.
  apply bind_inv in Hrun as ([seen' candidates] & w1 & Hvisit & Hrun).
  apply bind_inv in Hrun as (counts & ? & [_ ->]%lift_ok & Hrun).
  injection Hrun as <- <-.
  apply visit_items_advance in Hvisit as [_ (new & Hnew & Htags)].
  simpl in Hnew. subst new.
  by exists candidates, counts.
Qed.

(** A single dict has no variants to tell apart: every candidate carries
    the company name. This is how [build_profiles] calls [normalize_trials],
    after merging the study lists of all variants. *)
Lemma one_dict_variant_is_company_name (E : Env) (raw_json : dict)
    (company : pyval) (w : World) (out : pyval) :
  (normalize_trials E (OneDict raw_json) company w).1 = Ok out ->
  exists candidates counts,
    out = PDict [("company_name", company);
                 ("pipeline",
                  PDict [("candidates", PList (PDict <$> candidates));
                         ("counts_by_phase", PDict counts)])]
    /\ Forall (fun c => aget c "matched_variant" = company) candidates.
Proof.
  intros H.
  destruct (normalize_trials_tags E _ _ _ _ H) as (candidates & counts & -> & Htags).
  exists candidates, counts. split; [done|].
  apply Forall_forall. intros c Hc.
  apply (list_elem_of_fmap_2 candidate_tag) in Hc. rewrite Htags in Hc.
  apply list_elem_of_fmap in Hc as ([k v] & Htag & Hin).
  destruct (first_seen_first _ _ k v Hin) as (before & after & Hs & _).
  assert (Hv : (k, v) ∈ sightings company (as_items (OneDict raw_json) company))
    by (rewrite Hs; set_solver).
  unfold sightings in Hv. simpl in Hv. rewrite app_nil_r in Hv.
  unfold item_sightings in Hv.
  destruct (_ ≫= _) as [l|] in Hv; [|by apply elem_of_nil in Hv].
  apply list_elem_of_omap in Hv as (s & _ & Hsk).
  destruct (study_key s); simplify_eq/=.
  unfold candidate_tag in Htag. destruct (Py.hash_key _); by simplify_eq.
Qed.



(** Two variants that share NCT1: three candidates, and NCT1 keeps the
    variant it was first seen under. *)
Example two_variants_sightings :
  first_seen ∅ (sightings (PStr "Acme Corp") Demo.two_variants)
  = [(Py.HStr "NCT1", PStr "Acme"); (Py.HStr "NCT2", PStr "Acme");
     (Py.HStr "NCT3", PStr "Acme Inc.")].
Proof. vm_compute. reflexivity. Qed.

(** The runner in the demo world: the registry knows the variant "Acme"
    and fails on "Acme Inc."; the failure is absorbed, and both trials are
    recorded under the resolved name, not under the variant that found
    them. *)
Example runner_tags_with_resolved_name :
  candidate_tags_of
    (profile_trials Demo.env [PStr "Acme Inc."; PStr "Acme"] (PStr "Acme Inc.")
       Demo.world0).1
  = [(PStr "NCT1", PStr "Acme Inc."); (PStr "NCT2", PStr "Acme Inc.")].
Proof. vm_compute. reflexivity. Qed.


(** The same company in the demo world, with a cache that can be written
    and with one that cannot: three news items, or none. *)
Example profile_news_demo :
  (exists items, (profile_news Demo.env "Acme" Demo.world0).1 = PList items
                 /\ length items = 3)
  /\ (profile_news Demo.env "Acme" Demo.read_only).1 = PList [].
Proof.
  split; [eexists; split; [vm_compute; reflexivity|reflexivity]|].
  vm_compute. reflexivity.
Qed.

(** * Further properties *)

(** ** Text *)

Lemma take_length n s : String.length (Text.take n s) <= n.
Proof.
  revert s. induction n as [|n IH]; intros [|c s]; simpl; try lia.
  specialize (IH s). lia.
Qed.

Lemma take_all n s : String.length s <= n -> Text.take n s = s.
Proof.
  revert s. induction n as [|n IH]; intros [|c s]; simpl; intros H; try done; try lia.
  f_equal. apply IH. lia.
Qed.

Lemma all_chars_take p n s : all_chars p s = true -> all_chars p (Text.take n s) = true.
Proof.
  revert s. induction n as [|n IH]; intros [|c s]; simpl; try done.
  intros [Hc Hs]%andb_prop. rewrite Hc. simpl. by apply IH.
Qed.

Lemma all_chars_rev_app p s1 s2 :
  all_chars p (String.rev_app s1 s2) = all_chars p s1 && all_chars p s2.
Proof.
  revert s2. induction s1 as [|c s1 IH]; intros s2; simpl; [done|].
  rewrite IH. simpl. destruct (p c), (all_chars p s1); done.
Qed.

Lemma all_chars_rev p s : all_chars p (String.rev s) = all_chars p s.
Proof. unfold String.rev. rewrite all_chars_rev_app. simpl. by rewrite andb_true_r. Qed.

Lemma all_chars_lstrip p s : all_chars p s = true -> all_chars p (Text.lstrip s) = true.
Proof.
  induction s as [|c s IH]; simpl; [done|].
  intros H. case_match; [|done]. apply andb_prop in H as [_ H]. by apply IH.
Qed.

Lemma all_chars_strip p s : all_chars p s = true -> all_chars p (Text.strip s) = true.
Proof.
  intros H. unfold Text.strip.
  rewrite all_chars_rev. apply all_chars_lstrip.
  rewrite all_chars_rev. by apply all_chars_lstrip.
Qed.

Lemma all_chars_map p q f s :
  (forall c, q c = true -> p (f c) = true) ->
  all_chars q s = true -> all_chars p (Text.map_chars f s) = true.
Proof.
  intros Hf. induction s as [|c s IH]; simpl; [done|].
  intros [Hc Hs]%andb_prop. rewrite (Hf c Hc). simpl. by apply IH.
Qed.

Lemma all_chars_true s : all_chars (fun _ => true) s = true.
Proof. induction s; simpl; done. Qed.

Lemma rev_app_rev_app s1 s2 s3 :
  String.rev_app (String.rev_app s1 s2) s3 = String.rev_app s2 (s1 +:+ s3).
Proof.
  revert s2 s3. induction s1 as [|c s1 IH]; intros s2 s3; simpl; [done|].
  rewrite IH. simpl. done.
Qed.

Lemma append_empty s : s +:+ EmptyString = s.
Proof.
  induction s as [|c s IH]; [done|].
  change (String c (s +:+ EmptyString) = String c s). by rewrite IH.
Qed.

Lemma rev_rev s : String.rev (String.rev s) = s.
Proof.
  unfold String.rev. rewrite rev_app_rev_app. apply append_empty.
Qed.

Lemma lstrip_id s :
  all_chars (fun c => negb (Text.isspace c)) s = true -> Text.lstrip s = s.
Proof.
  destruct s as [|c s]; simpl; [done|].
  intros [Hc _]%andb_prop. apply negb_true_iff in Hc. by rewrite Hc.
Qed.

Lemma strip_id s :
  all_chars (fun c => negb (Text.isspace c)) s = true -> Text.strip s = s.
Proof.
  intros H. unfold Text.strip. rewrite (lstrip_id s H).
  rewrite lstrip_id by by rewrite all_chars_rev. apply rev_rev.
Qed.

Lemma map_chars_id (p : ascii -> bool) f s :
  (forall c, p c = true -> f c = c) ->
  all_chars p s = true -> Text.map_chars f s = s.
Proof.
  intros Hf. induction s as [|c s IH]; simpl; [done|].
  intros [Hc Hs]%andb_prop. by rewrite (Hf c Hc), IH.
Qed.

Lemma all_chars_impl (p q : ascii -> bool) s :
  (forall c, p c = true -> q c = true) ->
  all_chars p s = true -> all_chars q s = true.
Proof.
  intros Hpq. induction s as [|c s IH]; simpl; [done|].
  intros [Hc Hs]%andb_prop. by rewrite (Hpq c Hc), IH.
Qed.

(** ** The cache file name *)

Lemma keep_or_underscore_kept c :
  (Text.isalnum (keep_or_underscore c)
   || bool_decide (keep_or_underscore c ∈ [" "; "."; "_"]%char)) = true.
Proof. destruct c as [[] [] [] [] [] [] [] []]; reflexivity. Qed.

Lemma space_to_underscore_safe c :
  (Text.isalnum c || bool_decide (c ∈ [" "; "."; "_"]%char)) = true ->
  filename_char (space_to_underscore c) = true.
Proof. destruct c as [[] [] [] [] [] [] [] []]; done. Qed.

Lemma filename_char_fixed c :
  filename_char c = true ->
  keep_or_underscore c = c /\ space_to_underscore c = c
  /\ Text.isspace c = false.
Proof. destruct c as [[] [] [] [] [] [] [] []]; done. Qed.

Lemma sanitize_filename_chars (name : string) :
  String.length (_sanitize_filename name) <= 180
  /\ all_chars filename_char (_sanitize_filename name) = true.
Proof.
  unfold _sanitize_filename. split; [apply take_length|].
  apply all_chars_take.
  apply (all_chars_map _ _ _ _ space_to_underscore_safe).
  apply all_chars_strip.
  apply (all_chars_map _ (fun _ => true)); [|apply all_chars_true].
  intros c _. apply keep_or_underscore_kept.
Qed.

Lemma filename_chars_no_slash s :
  all_chars filename_char s = true -> Text.contains "/" s = false.
Proof.
  induction s as [|c s IH]; [done|].
  simpl. intros [Hc Hs]%andb_prop. rewrite (IH Hs).
  destruct c as [[] [] [] [] [] [] [] []]; try done.
Qed.

(** X1: the file name derived from a company name is at most 180 characters
    long and made of letters, digits, dots and underscores only: no space,
    no path separator. *)
Theorem sanitize_filename_safe (name : string) :
  String.length (_sanitize_filename name) <= 180
  /\ all_chars filename_char (_sanitize_filename name) = true
  /\ Text.contains "/" (_sanitize_filename name) = false.
Proof.
  destruct (sanitize_filename_chars name) as [Hlen Hsafe].
  split; [done|]. split; [done|]. by apply filename_chars_no_slash.
Qed.

(** X2: sanitizing is idempotent, so a company name and its sanitized form
    share one cache file. *)
Theorem sanitize_filename_idempotent (name : string) :
  _sanitize_filename (_sanitize_filename name) = _sanitize_filename name
  /\ cache_file (_sanitize_filename name) = cache_file name.
Proof.
  destruct (sanitize_filename_chars name) as [Hlen Hsafe].
  assert (H : _sanitize_filename (_sanitize_filename name)
              = _sanitize_filename name).
  { set (t := _sanitize_filename name) in *. unfold _sanitize_filename.
    rewrite (map_chars_id filename_char keep_or_underscore t)
      by (done || intros c Hc; by apply filename_char_fixed).
    rewrite strip_id
      by (eapply all_chars_impl; [|exact Hsafe];
          intros c Hc; apply negb_true_iff; by apply filename_char_fixed).
    rewrite (map_chars_id filename_char space_to_underscore t)
      by (done || intros c Hc; by apply filename_char_fixed).
    by apply take_all. }
  split; [done|]. unfold cache_file. by rewrite H.
Qed.

(** ** Phase labels, on any value *)

Lemma lower_empty s : Text.lower s = EmptyString <-> s = EmptyString.
Proof. destruct s; simpl; split; congruence. Qed.

(** X3: [_normalize_phase] answers [unknown] on every falsy value, one of
    the eight labels on every string, and raises [AttributeError] on any
    other value (a number, a list, a dict): a study whose first phase is not
    a string makes normalization fail. *)
Theorem normalize_phase_on_values (v : pyval) :
  match v with
  | PStr s => exists label, _normalize_phase v = Ok label /\ label ∈ phase_labels
  | _ => _normalize_phase v
         = if truthy v then Raise AttributeError else Ok "unknown"
  end.
Proof.
  destruct v as [|b|n|q|s|l|d]; try reflexivity.
  - by destruct b.
  - unfold _normalize_phase. simpl. by destruct (negb (n =? 0)%Z).
  - unfold _normalize_phase. simpl. by destruct (negb (Qeq_bool q 0)).
  - apply normalize_phase_total.
  - by destruct l.
  - by destruct d.
Qed.

(** X4: the label depends on the letters only up to case: two strings with
    the same lower-case form get the same label. *)
Theorem normalize_phase_ignores_case (s1 s2 : string) :
  Text.lower s1 = Text.lower s2 ->
  _normalize_phase (PStr s1) = _normalize_phase (PStr s2).
Proof.
  intros H. unfold _normalize_phase. simpl. rewrite H.
  destruct s1, s2; simpl in *; done.
Qed.

Lemma normalize_phase_ignores_case_witness :
  Text.lower "PHASE 2/PHASE 3" = Text.lower "Phase 2/phase 3"
  /\ _normalize_phase (PStr "PHASE 2/PHASE 3")
     = _normalize_phase (PStr "Phase 2/phase 3").
Proof.
  split; [reflexivity|].
  apply (normalize_phase_ignores_case "PHASE 2/PHASE 3" "Phase 2/phase 3").
  reflexivity.
Defined.

(** ** The extractor *)

Lemma prefix_take n s : String.prefix (Text.take n s) s = true.
Proof.
  revert s. induction n as [|n IH]; intros [|c s]; simpl; try done.
  destruct (ascii_dec c c); [apply IH|done].
Qed.

(** X5: [extract_basic_metadata] always returns, without touching the
    world. Its confidence is 0.6 when a title or a description was found,
    0.2 when the page parsed and had neither, and 0.0 when parsing raised;
    in that last case the result has no [evidence_snippet] key. A snippet,
    when there is one, is the first 200 characters of the description, or of
    the title when there is no description. *)
Theorem extract_metadata_shape (E : Env) (html_text source_url : pyval)
    (w : World) :
  exists meta,
    extract_basic_metadata E html_text source_url w = (Ok meta, w)
    /\ aget meta "source_url" = source_url
    /\ aget meta "extraction_confidence"
       = match BeautifulSoup E html_text with
         | inl _ => if truthy (aget meta "title")
                       || truthy (aget meta "description")
                    then PFloat (6 # 10) else PFloat (2 # 10)
         | inr _ => PFloat 0
         end
    /\ match BeautifulSoup E html_text with
       | inl _ =>
           match aget meta "evidence_snippet" with
           | PStr s =>
               String.length s <= 200
               /\ exists full,
                    (if truthy (aget meta "description")
                     then aget meta "description" else aget meta "title")
                    = PStr full
                    /\ s = Text.take 200 full
           | other =>
               other = PNone
               /\ truthy (aget meta "title") = false
               /\ truthy (aget meta "description") = false
           end
       | inr _ =>
           dget meta "evidence_snippet" = None
           /\ aget meta "title" = PNone /\ aget meta "description" = PNone
       end.
Proof.
  unfold extract_basic_metadata. munfold.
  destruct (BeautifulSoup E html_text) as [soup|msg].
  - eexists. split; [reflexivity|]. split; [reflexivity|].
    set (title := if nonempty (title_string soup)
                  then Text.strip <$> title_string soup
                  else if nonempty (h1_string soup)
                       then Text.strip <$> h1_string soup else None).
    set (description := match meta_description soup with
                        | Some c => Some (Text.strip c)
                        | None => Text.strip <$> og_description soup
                        end).
    assert (Ht : truthy (opt_str title) = nonempty title) by by destruct title.
    assert (Hd : truthy (opt_str description) = nonempty description)
      by by destruct description.
    change (aget _ "title") with (opt_str title).
    change (aget _ "description") with (opt_str description).
    rewrite Ht, Hd. split; [by destruct (nonempty title), (nonempty description)|].
    change (aget _ "evidence_snippet")
      with (opt_str (if nonempty description then Text.take 200 <$> description
                     else if nonempty title then Text.take 200 <$> title
                          else None)).
    destruct description as [d|], title as [t|]; cbn -[Text.take];
      repeat case_bool_decide; cbn -[Text.take];
      try (split; [apply take_length|eexists; split; reflexivity]);
      try done.
  - eexists. repeat split; reflexivity.
Qed.

(** ** The fetcher *)

Lemma replicate_shift {A} k (x : A) l :
  replicate k x ++ x :: l = x :: replicate k x ++ l.
Proof. induction k as [|k IH]; simpl; [done|]. by rewrite IH. Qed.

Section FetchFacts.
Context (E : Env).

(** One attempt of the retry loop: it ends with the page archived, or it
    fails, having sent its request and changed nothing else but the clock. *)
Lemma fetch_attempt_step url name w :
  let body :=
    (r ← requests_get E (page_request url);
     _ ← lift (raise_for_status r);
     _ ← archive_write name (text r);
     t ← utcnow_iso E;
     mret [("raw_text", PStr (text r));
           ("archive_path", PStr ("archive/" +:+ name));
           ("fetched_at", t); ("from_cache", PBool false)]) in
  exists dt,
    let w1 := set_sent (HttpGet (page_request url) :: sent w)
                (set_clock (clock w + Z.of_N dt) w) in
    (exists e, body w = (Raise e, w1))
    \/ (exists t, body w
                  = (Ok [("raw_text", PStr t);
                         ("archive_path", PStr ("archive/" +:+ name));
                         ("fetched_at", PStr (isoformat E (clock w1)));
                         ("from_cache", PBool false)],
                     set_archive (<[name := t]> (archive w)) w1)).
Proof.
  simpl. munfold. unfold requests_get, raise_for_status, archive_write.
  destruct (net E (sent w) (page_request url)) as [dt [|resp]]; simpl;
    exists dt; [left; by eexists|].
  destruct (status_ok resp); simpl; [|left; by eexists].
  destruct (archive_writable w); simpl; [right; by eexists|left; by eexists].
Qed.

Lemma fetch_attempts_outcome n url name max_retries sleep_us w d w' :
  fetch_attempts E n url name max_retries sleep_us w = (Ok d, w') ->
  exists k,
    k <= n
    /\ sent w' = replicate k (HttpGet (page_request url)) ++ sent w
    /\ ((aget d "raw_text" = PNone /\ is_Some (dget d "error") /\ k = n
         /\ archive w' = archive w
         /\ (clock w + Z.of_nat n * sleep_us <= clock w')%Z)
        \/ (exists t, aget d "raw_text" = PStr t
                      /\ aget d "from_cache" = PBool false
                      /\ archive w' = <[name := t]> (archive w))).
Proof.
  revert w. induction n as [|n IH]; intros w H.
  - injection H as <- <-. exists 0. split; [done|]. split; [done|].
    left. repeat split; [by eexists|simpl; lia].
  - cbn [fetch_attempts] in H. unfold try_except in H.
    fold (page_request url) in H.
    destruct (fetch_attempt_step url name w) as (dt & [[e He]|[t Ht]]).
    + simpl in He. rewrite He in H. unfold mbind, M_bind, sleep in H.
      destruct (Z.ltb_spec sleep_us 0); [done|].
      apply IH in H as (k & Hk & Hsent & Hcase).
      exists (S k). split; [lia|].
      split; [rewrite Hsent; simpl; apply replicate_shift|].
      destruct Hcase as [(? & ? & -> & Harch & Hclock)|(t & ? & ? & ->)].
      * left. repeat split; try done. simpl in Hclock. lia.
      * right. by exists t.
    + simpl in Ht. rewrite Ht in H. injection H as <- <-.
      exists 1. split; [lia|]. split; [done|]. right. by exists t.
Qed.

Lemma fetch_url_unfold url use_cache max_retries sleep_us w :
  fetch_url E (PStr url) use_cache max_retries sleep_us w
  = match archive w !! archive_name E url with
    | Some txt =>
        if use_cache
        then (Ok [("raw_text", PStr (Text.universal_newlines txt));
                  ("archive_path", PStr ("archive/" +:+ archive_name E url));
                  ("fetched_at", PStr (isoformat E (clock w)));
                  ("from_cache", PBool true)], w)
        else fetch_attempts E (Z.to_nat max_retries) url (archive_name E url)
               max_retries sleep_us w
    | None => fetch_attempts E (Z.to_nat max_retries) url (archive_name E url)
                max_retries sleep_us w
    end.
Proof.
  unfold fetch_url.
  rewrite (bind_ok _ _ w url w) by reflexivity.
  rewrite (bind_ok _ _ w (Text.universal_newlines
                             <$> archive w !! archive_name E url) w)
    by reflexivity.
  destruct (archive w !! archive_name E url); [|done]. by destruct use_cache.
Qed.

End FetchFacts.



(** Reading in text mode leaves no carriage return, and a text without one
    is read back as it is. *)
Lemma universal_newlines_no_cr s :
  all_chars (fun c => negb (bool_decide (c = Text.CR)))
    (Text.universal_newlines s) = true.
Proof.
  assert (H : forall n s, String.length s <= n ->
            all_chars (fun c => negb (bool_decide (c = Text.CR)))
              (Text.universal_newlines s) = true).
  { clear s. induction n as [|n IH]; intros [|c s] Hn; simpl in *; try done; try lia.
    case_bool_decide as Hc; simpl.
    - destruct s as [|c' s']; [done|]. simpl in Hn.
      case_bool_decide; apply IH; simpl; lia.
    - rewrite bool_decide_eq_false_2 by done. simpl. apply IH. lia. }
  by apply (H (String.length s)).
Qed.

Lemma universal_newlines_id s :
  all_chars (fun c => negb (bool_decide (c = Text.CR))) s = true ->
  Text.universal_newlines s = s.
Proof.
  induction s as [|c s IH]; simpl; [done|].
  intros [Hc Hs]%andb_prop. apply negb_true_iff in Hc. rewrite Hc.
  by rewrite IH.
Qed.

Lemma universal_newlines_idemp s :
  Text.universal_newlines (Text.universal_newlines s) = Text.universal_newlines s.
Proof. apply universal_newlines_id, universal_newlines_no_cr. Qed.

(** X7: the archive is a read-through cache, up to line endings. Whenever
    [fetch_url] returns a page text, the archive has an entry under the
    digest of the URL, and a following call with [use_cache=True] sends
    nothing, changes nothing and returns, with [from_cache] set, that text
    as text mode reads it back: every carriage return, with the line feed
    that follows it if there is one, has become a line feed. It is the very
    same text when the page has no carriage return. *)
Theorem fetch_url_read_through (E : Env) (url : string) (use_cache : bool)
    (max_retries sleep_us : Z) (w : World) (d : dict) (w' : World) (t : string) :
  fetch_url E (PStr url) use_cache max_retries sleep_us w = (Ok d, w') ->
  aget d "raw_text" = PStr t ->
  is_Some (archive w' !! archive_name E url)
  /\ (forall max_retries' sleep_us',
        fetch_url E (PStr url) true max_retries' sleep_us' w'
        = (Ok [("raw_text", PStr (Text.universal_newlines t));
               ("archive_path", PStr ("archive/" +:+ archive_name E url));
               ("fetched_at", PStr (isoformat E (clock w')));
               ("from_cache", PBool true)], w'))
  /\ (all_chars (fun c => negb (bool_decide (c = Text.CR))) t = true ->
      Text.universal_newlines t = t).
Proof.
  intros Hrun Htext.
  assert (Harch : exists stored,
            archive w' !! archive_name E url = Some stored
            /\ Text.universal_newlines stored = Text.universal_newlines t).
  { rewrite fetch_url_unfold in Hrun.
    assert (Hloop : fetch_attempts E (Z.to_nat max_retries) url
                      (archive_name E url) max_retries sleep_us w = (Ok d, w') ->
                    exists stored,
                      archive w' !! archive_name E url = Some stored
                      /\ Text.universal_newlines stored
                         = Text.universal_newlines t).
    { intros H. apply fetch_attempts_outcome in H as (k & _ & _ & Hcase).
      destruct Hcase as [(Hnone & _)|(t' & Ht' & _ & ->)]; [congruence|].
      exists t'. rewrite lookup_insert_eq. split; [done|]. congruence. }
    destruct (archive w !! archive_name E url) as [txt|] eqn:Hl; [|by apply Hloop].
    destruct use_cache; [|by apply Hloop].
    injection Hrun as <- <-.
    change (PStr (Text.universal_newlines txt) = PStr t) in Htext.
    injection Htext as <-. exists txt. split; [done|].
    by rewrite universal_newlines_idemp. }
  destruct Harch as (stored & Hstored & Hsame).
  split; [by eexists|]. split; [|apply universal_newlines_id].
  intros mr sl. rewrite (fetch_url_cached E _ _ _ _ _ Hstored). by rewrite Hsame.
Qed.

Lemma fetch_url_read_through_witness :
  exists d w',
    fetch_url Dos.env (PStr "http://x") true 3 2000000 Demo.world0
    = (Ok d, w')
    /\ aget d "raw_text" = PStr Dos.page
    /\ is_Some (archive w' !! archive_name Dos.env "http://x")
    /\ (forall max_retries' sleep_us',
          fetch_url Dos.env (PStr "http://x") true
            max_retries' sleep_us' w'
          = (Ok [("raw_text",
                  PStr (Text.universal_newlines Dos.page));
                 ("archive_path",
                  PStr ("archive/"
                        +:+ archive_name Dos.env "http://x"));
                 ("fetched_at", PStr (isoformat Dos.env (clock w')));
                 ("from_cache", PBool true)], w'))
    /\ (all_chars (fun c => negb (bool_decide (c = Text.CR)))
          Dos.page = true ->
        Text.universal_newlines Dos.page = Dos.page).
Proof.
  eexists _, _.
  split; [vm_compute; reflexivity|]. split; [reflexivity|].
  eapply (fetch_url_read_through Dos.env "http://x" true 3 2000000
            Demo.world0);
    [vm_compute; reflexivity|reflexivity].
Defined.

(** A page with a carriage return before its line feed: fetched, it is
    returned as the server sent it; read back from the archive, it has lost
    the carriage return. *)
Example crlf_page_read_back :
  (exists w', fetch_url Dos.env (PStr "http://x") true 3 2000000 Demo.world0
              = (Ok [("raw_text", PStr Dos.page);
                     ("archive_path", PStr "archive/http://x.html");
                     ("fetched_at", PStr "t"); ("from_cache", PBool false)], w')
              /\ (fetch_url Dos.env (PStr "http://x") true 3 2000000 w').1
                 = Ok [("raw_text",
                        PStr ("<title>T</title>"
                              +:+ String Text.LF "<p>text</p>"));
                       ("archive_path", PStr "archive/http://x.html");
                       ("fetched_at", PStr "t"); ("from_cache", PBool true)])
  /\ Text.universal_newlines Dos.page <> Dos.page.
Proof.
  split; [eexists; split; vm_compute; reflexivity|].
  vm_compute. discriminate.
Qed.



(** ** The aggregator: cache fill, expiry, quota and traffic *)

Section AggregatorMore.
Context (E : Env).

Lemma try_except_inv {A} (body : M A) (handler : exn -> M A) w a w' :
  try_except body handler w = (Ok a, w') ->
  body w = (Ok a, w')
  \/ exists e w1, body w = (Raise e, w1) /\ handler e w1 = (Ok a, w').
Proof.
  unfold try_except. destruct (body w) as [[x|e] w1]; intros H.
  - by left.
  - right. by exists e, w1.
Qed.

Lemma chars_length s : length (Text.chars s) = String.length s.
Proof. induction s as [|c s IH]; simpl; [done|]. by rewrite IH. Qed.

Lemma sliced_len v quota items :
  (0 <= quota)%Z -> Py.sliced v quota = Ok items -> (len items <= quota)%Z.
Proof.
  intros Hq. unfold len.
  destruct v; simpl; intros [= <-].
  - rewrite length_fmap, chars_length. unfold str_slice_to.
    destruct (Z.leb_spec 0 quota); [|lia].
    pose proof (take_length (Z.to_nat quota) s). lia.
  - unfold slice_to. destruct (Z.leb_spec 0 quota); [|lia].
    rewrite length_take. lia.
Qed.

(** An adapter returns no more than its quota. *)
Lemma serpapi_within_quota company quota sleep_between w l w' :
  (0 <= quota)%Z ->
  fetch_news_serpapi E company quota sleep_between w = (Ok l, w') ->
  (len l <= quota)%Z.
Proof.
  intros Hq H. unfold fetch_news_serpapi in H.
  apply bind_inv in H as (? & w0 & _ & H).
  destruct (negb (has_key (SERPAPI_KEY E)));
    [injection H as <- <-; unfold len; simpl; lia|].
  apply try_except_inv in H as [H|(e & w1 & _ & H)];
    [|injection H as <- <-; unfold len; simpl; lia].
  m_inv H.
  apply (sliced_len _ _ _ Hq) in Ha3. apply mapM_ok_length in Ha4.
  unfold len in *. lia.
Qed.

Lemma bing_within_quota company quota w l w' :
  (0 <= quota)%Z ->
  fetch_news_bing E company quota w = (Ok l, w') ->
  (len l <= quota)%Z.
Proof.
  intros Hq H. unfold fetch_news_bing in H.
  apply bind_inv in H as (? & w0 & _ & H).
  destruct (negb (has_key (BING_KEY E)));
    [injection H as <- <-; unfold len; simpl; lia|].
  apply try_except_inv in H as [H|(e & w1 & _ & H)];
    [|injection H as <- <-; unfold len; simpl; lia].
  m_inv H.
  apply (sliced_len _ _ _ Hq) in Ha3. apply mapM_ok_length in Ha4.
  unfold len in *. lia.
Qed.

Lemma gdelt_within_quota company quota w l w' :
  (0 <= quota)%Z ->
  fetch_news_gdelt E company quota w = (Ok l, w') ->
  (len l <= quota)%Z.
Proof.
  intros Hq H. unfold fetch_news_gdelt in H.
  apply bind_inv in H as (? & w0 & _ & H).
  apply try_except_inv in H as [H|(e & w1 & _ & H)];
    [|injection H as <- <-; unfold len; simpl; lia].
  m_inv H.
  apply (sliced_len _ _ _ Hq) in Ha3. apply mapM_ok_length in Ha4.
  apply mapM_ok_length in Ha5.
  unfold len in *. lia.
Qed.

Lemma slice_to_all {A} (n : Z) (l : list A) :
  (len l <= n)%Z -> slice_to n l = l.
Proof.
  intros H. unfold slice_to, len in *.
  destruct (Z.leb_spec 0 n); [|lia]. apply take_ge. lia.
Qed.

(** The request of a guarded fetch is sent exactly once. *)
Lemma guarded_fetch_sent req (rest : pyval -> M (list dict)) :
  (forall data, preserves only_clock (rest data)) ->
  forall w,
    sent (try_except
            (r ← requests_get E req;
             _ ← lift (raise_for_status r);
             data ← lift (json_of r);
             rest data)
            (fun _ => mret []) w).2 = HttpGet req :: sent w.
Proof.
  intros Hframe w. munfold. unfold requests_get, raise_for_status, json_of.
  destruct (net E (sent w) req) as [dt [|[ok txt [data|]]]]; simpl; [done| |].
  - destruct ok; simpl; [|done].
    match goal with |- context [rest data ?w1] =>
      pose proof (Hframe data w1) as Hw;
      destruct (rest data w1) as [[l|e] w2] end; simpl in *; by rewrite Hw.
  - by destruct ok.
Qed.

Lemma serpapi_sent company quota sleep_between w :
  sent (fetch_news_serpapi E company quota sleep_between w).2
  = if has_key (SERPAPI_KEY E)
    then HttpGet (serpapi_request E company quota) :: sent w
    else sent w.
Proof.
  unfold fetch_news_serpapi.
  rewrite (bind_ok _ _ w () (set_calls ((SerpApi, quota) :: calls w) w))
    by reflexivity.
  destruct (has_key (SERPAPI_KEY E)); simpl; [|done].
  rewrite guarded_fetch_sent; [done|].
  intros data. step_preserves; apply preserves_sleep.
Qed.

Lemma bing_sent company quota w :
  sent (fetch_news_bing E company quota w).2
  = if has_key (BING_KEY E)
    then HttpGet (bing_request E company quota) :: sent w
    else sent w.
Proof.
  unfold fetch_news_bing.
  rewrite (bind_ok _ _ w () (set_calls ((Bing, quota) :: calls w) w))
    by reflexivity.
  destruct (has_key (BING_KEY E)); simpl; [|done].
  rewrite guarded_fetch_sent; [done|].
  intros data. step_preserves.
Qed.

Lemma gdelt_sent company quota w :
  sent (fetch_news_gdelt E company quota w).2
  = HttpGet (gdelt_request company quota) :: sent w.
Proof.
  unfold fetch_news_gdelt.
  rewrite (bind_ok _ _ w () (set_calls ((Gdelt, quota) :: calls w) w))
    by reflexivity.
  rewrite guarded_fetch_sent; [done|].
  intros data. step_preserves.
Qed.

(** The tier chain: what it collects fits the quota, and it sends at most
    one request per tier. *)
Lemma collect_tiers_bounds company max_results w :
  exists articles w3 reqs,
    collect_tiers E company max_results w = (Ok articles, w3)
    /\ Forall tier_shaped articles
    /\ ((0 <= max_results)%Z -> (len articles <= max_results)%Z)
    /\ sent w3 = (HttpGet <$> reqs) ++ sent w
    /\ length reqs <= 3
    /\ Forall (fun r => req_url r ∈ tier_endpoints) reqs.
Proof.
  destruct (collect_tiers_run E company max_results w)
    as (a1 & a2 & a3 & w1 & w2 & w3 & H1 & H2 & H3 & Hrun & Hshape & _).
  pose proof (serpapi_sent company max_results 1000000 w) as S1.
  rewrite H1 in S1. simpl in S1.
  assert (exists r1, sent w1 = (HttpGet <$> r1) ++ sent w /\ length r1 <= 1
                     /\ Forall (fun r => req_url r ∈ tier_endpoints) r1)
    as (r1 & Hs1 & Hl1 & He1).
  { destruct (has_key (SERPAPI_KEY E)).
    - exists [serpapi_request E company max_results].
      split; [done|]. split; [simpl; lia|]. repeat constructor.
    - exists []. split; [done|]. split; [simpl; lia|]. constructor. }
  assert (exists r2, sent w2 = (HttpGet <$> r2) ++ sent w1 /\ length r2 <= 1
                     /\ Forall (fun r => req_url r ∈ tier_endpoints) r2
                     /\ ((0 <= max_results)%Z ->
                         (len a1 + len a2 <= max_results)%Z))
    as (r2 & Hs2 & Hl2 & He2 & Hq2).
  { destruct (len a1 <? max_results)%Z eqn:Hk1.
    - pose proof (bing_sent company (max_results - len a1) w1) as S2.
      rewrite H2 in S2. simpl in S2.
      assert (Hq : (0 <= max_results)%Z -> (len a1 + len a2 <= max_results)%Z).
      { intros _. apply Z.ltb_lt in Hk1.
        apply bing_within_quota in H2; lia. }
      destruct (has_key (BING_KEY E)).
      + exists [bing_request E company (max_results - len a1)].
        split; [done|]. split; [simpl; lia|]. split; [|done].
        repeat constructor.
      + exists []. split; [done|]. split; [simpl; lia|]. split; [constructor|done].
    - destruct H2 as [-> ->]. exists []. split; [done|]. split; [simpl; lia|].
      split; [done|]. intros Hq. apply serpapi_within_quota in H1; [|done].
      unfold len in *. simpl. lia. }
  assert (exists r3, sent w3 = (HttpGet <$> r3) ++ sent w2 /\ length r3 <= 1
                     /\ Forall (fun r => req_url r ∈ tier_endpoints) r3
                     /\ ((0 <= max_results)%Z ->
                         (len a1 + len a2 + len a3 <= max_results)%Z))
    as (r3 & Hs3 & Hl3 & He3 & Hq3).
  { destruct (len a1 + len a2 <? max_results)%Z eqn:Hk2.
    - pose proof (gdelt_sent company (max_results - (len a1 + len a2)) w2) as S3.
      rewrite H3 in S3. simpl in S3.
      exists [gdelt_request company (max_results - (len a1 + len a2))].
      split; [done|]. split; [simpl; lia|]. split.
      + repeat constructor.
      + intros _. apply Z.ltb_lt in Hk2. apply gdelt_within_quota in H3; lia.
    - destruct H3 as [-> ->]. exists []. split; [done|]. split; [simpl; lia|].
      split; [done|]. intros Hq. specialize (Hq2 Hq). unfold len in *. simpl. lia. }
  exists (a1 ++ a2 ++ a3), w3, (r3 ++ r2 ++ r1).
  split; [done|]. split; [done|]. split.
  - intros Hq. rewrite !len_app. specialize (Hq3 Hq). lia.
  - split; [by rewrite Hs3, Hs2, Hs1, !fmap_app, <- !(assoc_L (++))|].
    split; [rewrite !length_app; lia|].
    by repeat apply Forall_app_2.
Qed.

Lemma fetch_hit company max_results w :
  truthy (cached_payload company w) = true ->
  fetch_company_news_multi E company max_results true w
  = (Ok (cached_payload company w), w).
Proof.
  intros H. unfold fetch_company_news_multi.
  rewrite (bind_ok _ _ w (Some (cached_payload company w)) w); [done|].
  rewrite (bind_ok _ _ _ _ _ (load_cache_payload company w)). by rewrite H.
Qed.

End AggregatorMore.

(** X9: the tier chain never collects more than the quota: with
    [max_results >= 0] the three tiers together return at most [max_results]
    articles, so the truncation [articles[:max_results]] that follows drops
    nothing. *)
Theorem chain_within_quota (E : Env) (company : string) (max_results : Z)
    (w : World) :
  (0 <= max_results)%Z ->
  exists articles w',
    collect_tiers E company max_results w = (Ok articles, w')
    /\ (len articles <= max_results)%Z
    /\ slice_to max_results articles = articles.
Proof.
  intros Hq.
  destruct (collect_tiers_bounds E company max_results w)
    as (articles & w3 & reqs & Hrun & _ & Hlen & _).
  exists articles, w3. split; [done|]. split; [auto|].
  apply slice_to_all. auto.
Qed.

Lemma chain_within_quota_witness :
  (0 <= 2)%Z
  /\ exists articles w',
    collect_tiers Demo.env "Acme" 2 Demo.world0 = (Ok articles, w')
    /\ (len articles <= 2)%Z
    /\ slice_to 2 articles = articles.
Proof.
  split; [lia|]. apply (chain_within_quota Demo.env "Acme" 2 Demo.world0). lia.
Defined.

(** X10: one call of [fetch_company_news_multi] sends at most three
    requests, each to the endpoint of one of the three tiers, and never
    reads or writes the page archive. *)
Theorem aggregator_traffic (E : Env) (company : string) (max_results : Z)
    (use_cache : bool) (w : World) :
  exists reqs,
    sent (fetch_company_news_multi E company max_results use_cache w).2
    = (HttpGet <$> reqs) ++ sent w
    /\ length reqs <= 3
    /\ Forall (fun r => req_url r ∈ tier_endpoints) reqs
    /\ archive (fetch_company_news_multi E company max_results use_cache w).2
       = archive w.
Proof.
  destruct (decide (cache_miss company use_cache w)) as [Hmiss|Hhit].
  - destruct (fetch_company_news_multi_miss E company max_results use_cache w Hmiss)
      as (articles & w3 & norm & Hrun & _ & _ & ->).
    destruct (collect_tiers_bounds E company max_results w)
      as (articles' & w3' & reqs & Hrun' & _ & _ & Hsent & Hlen & Hurl).
    rewrite Hrun in Hrun'. injection Hrun' as <- <-.
    assert (Harch : archive w3 = archive w).
    { pose proof (collect_tiers_storage E company max_results w) as Hs.
      rewrite Hrun in Hs. apply Hs. }
    exists reqs.
    destruct use_cache; [|done].
    unfold mbind, M_bind, _save_cache. by destruct (cache_writable w3).
  - exists []. unfold cache_miss in Hhit.
    destruct use_cache; [|by destruct Hhit; left].
    destruct (truthy (cached_payload company w)) eqn:Ht; [|by destruct Hhit; right].
    rewrite (fetch_hit E company max_results w Ht).
    split; [done|]. split; [simpl; lia|]. split; [constructor|done].
Qed.

Section CacheFill.
Context (E : Env).

(** A miss with a writable cache: the tiers run, tier 1 first, and the
    list that is returned is what the cache file holds afterwards. *)
Lemma miss_writes_cache company max_results w :
  cache_miss company true w ->
  cache_writable w = true ->
  exists items w' later,
    fetch_company_news_multi E company max_results true w = (Ok (PList items), w')
    /\ rev (calls w') = rev (calls w) ++ (SerpApi, max_results) :: later
    /\ news_cache w' !! cache_file company
       = Some {| mtime := clock w'; loaded := Some (PList items) |}
    /\ cache_writable w' = true.
Proof.
  intros Hmiss Hwr.
  destruct (fetch_company_news_multi_miss E company max_results true w Hmiss)
    as (articles & w3 & norm & Hrun & _ & _ & ->).
  destruct (collect_tiers_run E company max_results w)
    as (a1 & a2 & a3 & w1 & w2 & w3' & _ & _ & _ & Hrun' & _ & Hcalls).
  rewrite Hrun in Hrun'. injection Hrun' as -> <-.
  assert (Hw : cache_writable w3 = true).
  { pose proof (collect_tiers_storage E company max_results w) as Hs.
    rewrite Hrun in Hs. destruct Hs as (_ & _ & _ & Hs & _).
    simpl in Hs. congruence. }
  unfold mbind, M_bind, _save_cache. rewrite Hw. simpl.
  eexists _, _, _. split; [reflexivity|]. simpl.
  split; [exact Hcalls|]. split; [by rewrite lookup_insert_eq|done].
Qed.

Lemma fresh_entry_payload company w payload :
  news_cache w !! cache_file company
  = Some {| mtime := clock w; loaded := Some payload |} ->
  cached_payload company w = payload.
Proof.
  intros H. unfold cached_payload, _load_cache. rewrite H. simpl.
  rewrite Z.sub_diag. reflexivity.
Qed.

End CacheFill.

(** X11: on a miss with a writable cache, the list that
    [fetch_company_news_multi] returns is written to the company's cache
    file; if it is not empty, a call made right after returns that same
    list and leaves the world alone, whatever [max_results] it is given:
    a cached list is served whole, even when it is longer than the quota of
    the later call. *)
Theorem miss_fills_cache (E : Env) (company : string) (max_results : Z)
    (w : World) :
  cache_miss company true w ->
  cache_writable w = true ->
  exists items w',
    fetch_company_news_multi E company max_results true w = (Ok (PList items), w')
    /\ news_cache w' !! cache_file company
       = Some {| mtime := clock w'; loaded := Some (PList items) |}
    /\ (items <> [] ->
        forall max_results',
          fetch_company_news_multi E company max_results' true w'
          = (Ok (PList items), w')).
Proof.
  intros Hmiss Hwr.
  destruct (miss_writes_cache E company max_results w Hmiss Hwr)
    as (items & w' & later & Hrun & _ & Hentry & _).
  exists items, w'. split; [done|]. split; [done|].
  intros Hne max'.
  pose proof (fresh_entry_payload company w' _ Hentry) as Hp.
  rewrite <- Hp. apply fetch_hit. rewrite Hp. by destruct items.
Qed.

Lemma miss_fills_cache_witness :
  cache_miss "Acme" true Demo.world0
  /\ cache_writable Demo.world0 = true
  /\ exists items w',
    fetch_company_news_multi Demo.env "Acme" 8 true Demo.world0
    = (Ok (PList items), w')
    /\ news_cache w' !! cache_file "Acme"
       = Some {| mtime := clock w'; loaded := Some (PList items) |}
    /\ (items <> [] ->
        forall max_results',
          fetch_company_news_multi Demo.env "Acme" max_results' true w'
          = (Ok (PList items), w')).
Proof.
  assert (H1 : cache_miss "Acme" true Demo.world0) by (by right).
  assert (H2 : cache_writable Demo.world0 = true) by reflexivity.
  split; [exact H1|]. split; [exact H2|].
  exact (miss_fills_cache Demo.env "Acme" 8 Demo.world0 H1 H2).
Defined.

(** X12: a cache entry older than 24 hours is not served. The tiers run,
    tier 1 first with the full quota, and the entry is replaced by the
    fresh result, stamped with the time of the write. *)
Theorem stale_entry_replaced (E : Env) (company : string) (max_results : Z)
    (w : World) (f : CacheFile) :
  news_cache w !! cache_file company = Some f ->
  (hours 24 < clock w - mtime f)%Z ->
  cache_writable w = true ->
  exists items w' later,
    fetch_company_news_multi E company max_results true w = (Ok (PList items), w')
    /\ rev (calls w') = rev (calls w) ++ (SerpApi, max_results) :: later
    /\ news_cache w' !! cache_file company
       = Some {| mtime := clock w'; loaded := Some (PList items) |}.
Proof.
  intros Hf Hold Hwr.
  assert (Hmiss : cache_miss company true w).
  { right. unfold cached_payload, _load_cache. rewrite Hf.
    destruct (Z.gtb_spec (clock w - mtime f) (hours 24)); [done|lia]. }
  destruct (miss_writes_cache E company max_results w Hmiss Hwr)
    as (items & w' & later & Hrun & Hcalls & Hentry & _).
  by exists items, w', later.
Qed.

Lemma stale_entry_replaced_witness :
  let stale := {| mtime := 0; loaded := Some (PList [PDict [("headline", PStr "old")]]) |} in
  let w := set_news_cache {[ cache_file "Acme" := stale ]} Demo.world0 in
  news_cache w !! cache_file "Acme" = Some stale
  /\ (hours 24 < clock w - mtime stale)%Z
  /\ cache_writable w = true
  /\ exists items w' later,
    fetch_company_news_multi Demo.env "Acme" 5 true w = (Ok (PList items), w')
    /\ rev (calls w') = rev (calls w) ++ (SerpApi, 5%Z) :: later
    /\ news_cache w' !! cache_file "Acme"
       = Some {| mtime := clock w'; loaded := Some (PList items) |}.
Proof.
  intros stale w.
  assert (H1 : news_cache w !! cache_file "Acme" = Some stale) by reflexivity.
  assert (H2 : (hours 24 < clock w - mtime stale)%Z) by reflexivity.
  assert (H3 : cache_writable w = true) by reflexivity.
  split; [exact H1|]. split; [exact H2|]. split; [exact H3|].
  exact (stale_entry_replaced Demo.env "Acme" 5 w stale H1 H2 H3).
Defined.

(** ** Trials: the records and the counts *)

Section TrialsMore.
Context (E : Env).

Lemma normalize_phase_label v label :
  _normalize_phase v = Ok label -> label ∈ phase_labels.
Proof.
  unfold _normalize_phase, phase_labels.
  destruct (negb (truthy v)); [intros [= <-]; set_solver|].
  destruct (Py.as_str v) as [raw|]; simpl; [|done].
  repeat (case_match; [intros [= <-]; set_solver|]).
  intros [= <-]. set_solver.
Qed.

Lemma build_snippet_length protocol s :
  _build_snippet E protocol = Ok s -> String.length s <= 150.
Proof.
  unfold _build_snippet. intros H.
  repeat (let x := fresh "x" in let Hx := fresh "Hx" in
          apply res_bind_ok in H as (x & Hx & H)).
  apply (f_equal (fun r => match r with
                           | Ok s => String.length s
                           | Raise _ => 0
                           end)) in H.
  cbn -[Text.take] in H. rewrite <- H. apply take_length.
Qed.

Lemma trial_record_well_formed variant nct protocol status w trial w' :
  truthy nct = true ->
  trial_record E variant nct protocol status w = (Ok trial, w') ->
  well_formed_trial E trial.
Proof.
  intros Hnct H. unfold trial_record in H.
  repeat match type of H with
         | (lift _ ≫= _) _ = (Ok _, _) =>
             let a := fresh "a" in let Ha := fresh "Ha" in
             apply bind_inv in H as (a & ? & [Ha ->]%lift_ok & H)
         | (utcnow_iso _ ≫= _) _ = (Ok _, _) =>
             apply bind_inv in H as (? & ? & _ & H)
         end.
  injection H as <- <-.
  match goal with Hs : _build_snippet _ _ = Ok _ |- _ =>
    apply build_snippet_length in Hs end.
  match goal with Hp : _normalize_phase _ = Ok _ |- _ =>
    apply normalize_phase_label in Hp end.
  split; [done|]. split; [done|]. split; [by eexists|]. split; [done|].
  by eexists.
Qed.

Lemma visit_study_Forall (P : dict -> Prop) variant s seen acc w seen' acc' w' :
  (forall nct protocol status w trial w',
      truthy nct = true ->
      trial_record E variant nct protocol status w = (Ok trial, w') -> P trial) ->
  visit_study E variant s (seen, acc) w = (Ok (seen', acc'), w') ->
  Forall P acc -> Forall P acc'.
Proof.
  intros HP H Hacc. unfold visit_study in H.
  destruct (Py.is_dict s); simpl in H; [|by injection H as <- <- <-].
  apply bind_inv in H as (protocol & ? & [_ ->]%lift_ok & H).
  apply bind_inv in H as (ident & ? & [_ ->]%lift_ok & H).
  apply bind_inv in H as (status & ? & [_ ->]%lift_ok & H).
  apply bind_inv in H as (nct & ? & [_ ->]%lift_ok & H).
  destruct (truthy nct) eqn:Hnct; simpl in H; [|by injection H as <- <- <-].
  apply bind_inv in H as (key & ? & [_ ->]%lift_ok & H).
  case_bool_decide; [by injection H as <- <- <-|].
  apply bind_inv in H as (trial & ? & Htrial & H).
  injection H as <- <- <-.
  apply Forall_app_2; [done|]. constructor; [|constructor]. eauto.
Qed.

Lemma visit_studies_Forall (P : dict -> Prop) variant studies :
  (forall nct protocol status w trial w',
      truthy nct = true ->
      trial_record E variant nct protocol status w = (Ok trial, w') -> P trial) ->
  forall seen acc w seen' acc' w',
    visit_studies E variant studies (seen, acc) w = (Ok (seen', acc'), w') ->
    Forall P acc -> Forall P acc'.
Proof.
  intros HP. induction studies as [|s rest IH]; intros seen acc w seen' acc' w' H Hacc.
  - by injection H as <- <- <-.
  - cbn [visit_studies] in H.
    apply bind_inv in H as ([seen1 acc1] & w1 & Hs & H).
    eapply IH; [exact H|]. by eapply visit_study_Forall.
Qed.

Lemma visit_items_Forall (P : dict -> Prop) company items :
  (forall variant nct protocol status w trial w',
      truthy nct = true ->
      trial_record E variant nct protocol status w = (Ok trial, w') -> P trial) ->
  forall seen acc w seen' acc' w',
    visit_items E company items (seen, acc) w = (Ok (seen', acc'), w') ->
    Forall P acc -> Forall P acc'.
Proof.
  intros HP. induction items as [|item rest IH]; intros seen acc w seen' acc' w' H Hacc.
  - by injection H as <- <- <-.
  - cbn [visit_items] in H.
    apply bind_inv in H as ([seen1 acc1] & w1 & Hi & H).
    eapply IH; [exact H|].
    unfold visit_item in Hi.
    destruct (match item with
              | Tagged v j => (v, j)
              | Bare j => (company, j)
              end) as [variant raw_json].
    apply bind_inv in Hi as (? & ? & [_ ->]%lift_ok & Hi).
    apply bind_inv in Hi as (studies & ? & [_ ->]%lift_ok & Hi).
    eapply visit_studies_Forall; [|exact Hi|exact Hacc]. apply HP.
Qed.

(** The run of [normalize_trials], opened up. *)
Lemma normalize_trials_inv raw_results company w out :
  (normalize_trials E raw_results company w).1 = Ok out ->
  exists candidates counts,
    out = PDict [("company_name", company);
                 ("pipeline",
                  PDict [("candidates", PList (PDict <$> candidates));
                         ("counts_by_phase", PDict counts)])]
    /\ Forall (well_formed_trial E) candidates
    /\ count_phases candidates [] = Ok counts.
Proof.
  intros H.
  destruct (normalize_trials E raw_results company w) as [[r|e] w'] eqn:Hrun;
    simpl in H; [|done].
  injection H as ->. unfold normalize_trials in Hrun.
  apply bind_inv in Hrun as ([seen' candidates] & w1 & Hvisit & Hrun).
  apply bind_inv in Hrun as (counts & ? & [Hcounts ->]%lift_ok & Hrun).
  injection Hrun as <- <-.
  exists candidates, counts. split; [done|]. split; [|done].
  eapply (visit_items_Forall (well_formed_trial E)); [|exact Hvisit|constructor].
  intros. by eapply trial_record_well_formed.
Qed.

End TrialsMore.

(** X13: every record of the candidates list has the nine keys of a trial,
    a truthy [nct], a phase that is one of the eight labels, the registry
    URL of its identifier as [source_url], and an evidence snippet of at
    most 150 characters. *)
Theorem candidates_well_formed (E : Env) (raw_results : RawResults)
    (company : pyval) (w : World) (out : pyval) :
  (normalize_trials E raw_results company w).1 = Ok out ->
  exists candidates counts,
    out = PDict [("company_name", company);
                 ("pipeline",
                  PDict [("candidates", PList (PDict <$> candidates));
                         ("counts_by_phase", PDict counts)])]
    /\ Forall (fun c =>
         c.*1 = trial_keys
         /\ truthy (aget c "nct") = true
         /\ (exists label, aget c "phase" = PStr label /\ label ∈ phase_labels)
         /\ aget c "source_url"
            = PStr ("https://clinicaltrials.gov/study/" +:+ fmt E (aget c "nct"))
         /\ exists s, aget c "evidence_snippet" = PStr s
                      /\ String.length s <= 150) candidates.
Proof.
  intros H.
  destruct (normalize_trials_inv E _ _ _ _ H) as (candidates & counts & -> & Hwf & _).
  by exists candidates, counts.
Qed.

Lemma candidates_well_formed_witness :
  exists out,
    (normalize_trials Demo.env (Items Demo.two_variants) (PStr "Acme Corp")
       Demo.world0).1 = Ok out
    /\ exists candidates counts,
      out = PDict [("company_name", PStr "Acme Corp");
                   ("pipeline",
                    PDict [("candidates", PList (PDict <$> candidates));
                           ("counts_by_phase", PDict counts)])]
      /\ Forall (fun c =>
           c.*1 = trial_keys
           /\ truthy (aget c "nct") = true
           /\ (exists label, aget c "phase" = PStr label /\ label ∈ phase_labels)
           /\ aget c "source_url"
              = PStr ("https://clinicaltrials.gov/study/"
                      +:+ fmt Demo.env (aget c "nct"))
           /\ exists s, aget c "evidence_snippet" = PStr s
                        /\ String.length s <= 150) candidates.
Proof.
  eexists. split; [vm_compute; reflexivity|].
  apply (candidates_well_formed Demo.env (Items Demo.two_variants)
           (PStr "Acme Corp") Demo.world0).
  vm_compute. reflexivity.
Defined.

(** ** Trials: counts_by_phase *)

Lemma dict_total_dset d k n :
  default (PInt 0) (dget d k) = PInt n ->
  dict_total (dset d k (PInt (n + 1))) = (dict_total d + 1)%Z.
Proof.
  induction d as [|[k' v'] d IH]; simpl.
  - intros [= <-]. lia.
  - case_decide as Hk; simpl.
    + intros ->. lia.
    + intros H. specialize (IH H). destruct v'; lia.
Qed.

Lemma dset_keys d k v k' :
  k' ∈ (dset d k v).*1 -> k' = k \/ k' ∈ d.*1.
Proof.
  induction d as [|[k0 v0] d IH]; simpl.
  - set_solver.
  - case_decide; simpl; set_solver.
Qed.

Lemma dset_keys_NoDup d k v : NoDup d.*1 -> NoDup (dset d k v).*1.
Proof.
  induction d as [|[k0 v0] d IH]; simpl; intros Hnd.
  - repeat constructor. set_solver.
  - apply NoDup_cons in Hnd as [Hk0 Hnd]. case_decide as Hk; simpl.
    + subst. by apply NoDup_cons.
    + apply NoDup_cons. split; [|by apply IH].
      intros [->|Hin]%dset_keys; done.
Qed.

Lemma tally_cons p t rest :
  tally p (t :: rest) = ((if has_phase p t then 1 else 0) + tally p rest)%Z.
Proof.
  unfold tally, len. rewrite filter_cons.
  destruct (has_phase p t); simpl; lia.
Qed.

Lemma count_phases_spec l :
  forall c c', count_phases l c = Ok c' ->
    (forall p n, default (PInt 0) (dget c p) = PInt n ->
                 default (PInt 0) (dget c' p) = PInt (n + tally p l))
    /\ dict_total c' = (dict_total c + len l)%Z
    /\ (forall k, k ∈ c'.*1 ->
                  k ∈ c.*1 \/ exists t, t ∈ l /\ aget t "phase" = PStr k)
    /\ (NoDup c.*1 -> NoDup c'.*1).
Proof.
  induction l as [|t rest IH]; intros c c' H.
  - injection H as <-. split; [|split; [|split]].
    + intros p n ->. f_equal. unfold tally, len. simpl. lia.
    + unfold len. simpl. lia.
    + auto.
    + auto.
  - cbn [count_phases] in H.
    apply res_bind_ok in H as (phase & Hphase & H).
    apply res_bind_ok in H as (key & Hkey & H).
    destruct phase; try discriminate. injection Hkey as ->.
    simpl in Hphase. destruct (dget t "phase") as [ph|] eqn:Hget; [|discriminate].
    injection Hphase as ->.
    destruct (default (PInt 0) (dget c key)) as [| |n| | | |] eqn:Hn; try discriminate.
    destruct (IH _ _ H) as (Hcount & Htotal & Hkeys & Hnd).
    split; [|split; [|split]].
    + intros p m Hm. rewrite tally_cons. unfold has_phase, aget. rewrite Hget. simpl.
      case_bool_decide as Hp.
      * subst p. rewrite Hn in Hm. injection Hm as <-.
        rewrite (Hcount key (n + 1)%Z); [f_equal; lia|].
        by rewrite dget_dset_eq.
      * rewrite (Hcount p m); [f_equal; lia|].
        by rewrite dget_dset_ne.
    + rewrite Htotal, (dict_total_dset _ _ _ Hn). unfold len. simpl. lia.
    + intros k [Hk|(t' & Ht' & Hph)]%Hkeys.
      * apply dset_keys in Hk as [->|Hk]; [|by left].
        right. exists t. split; [set_solver|]. unfold aget. by rewrite Hget.
      * right. exists t'. split; [set_solver|done].
    + intros Hc. by apply Hnd, dset_keys_NoDup.
Qed.

(** X14: [counts_by_phase] is the tally of the candidates: a label maps to
    the number of candidates carrying it (a label no candidate carries is
    not a key), the counts add up to the number of candidates, and the
    keys are distinct labels of the eight. *)
Theorem counts_by_phase_tally (E : Env) (raw_results : RawResults)
    (company : pyval) (w : World) (out : pyval) :
  (normalize_trials E raw_results company w).1 = Ok out ->
  exists candidates counts,
    out = PDict [("company_name", company);
                 ("pipeline",
                  PDict [("candidates", PList (PDict <$> candidates));
                         ("counts_by_phase", PDict counts)])]
    /\ (forall p, dget counts p
                  = if (0 <? tally p candidates)%Z
                    then Some (PInt (tally p candidates)) else None)
    /\ dict_total counts = len candidates
    /\ NoDup counts.*1
    /\ Forall (fun k => k ∈ phase_labels) counts.*1.
Proof.
  intros H.
  destruct (normalize_trials_inv E _ _ _ _ H)
    as (candidates & counts & -> & Hwf & Hcounts).
  exists candidates, counts. split; [done|].
  destruct (count_phases_spec _ _ _ Hcounts) as (Hcount & Htotal & Hkeys & Hnd).
  assert (Hlabel : forall k, k ∈ counts.*1 ->
            (0 < tally k candidates)%Z /\ k ∈ phase_labels).
  { intros k [Hk|(t & Ht & Hph)]%Hkeys; [set_solver|].
    split.
    - apply list_elem_of_split in Ht as (l1 & l2 & ->).
      unfold tally, len. rewrite filter_app, filter_cons, decide_True.
      + rewrite length_app. simpl. lia.
      + unfold has_phase. rewrite Hph. by apply bool_decide_eq_true.
    - rewrite Forall_forall in Hwf.
      destruct (Hwf t Ht) as (_ & _ & (label & Hl & Hin) & _).
      rewrite Hph in Hl. by injection Hl as ->. }
  split; [|split; [|split]].
  - intros p. specialize (Hcount p 0%Z eq_refl). rewrite Z.add_0_l in Hcount.
    destruct (dget counts p) as [v|] eqn:Hget.
    + simpl in Hcount. subst v.
      assert (Hp : p ∈ counts.*1).
      { clear -Hget. induction counts as [|[k v] d IH]; simpl in *; [done|].
        case_decide; set_solver. }
      destruct (Hlabel p Hp) as [Hpos _].
      by rewrite (proj2 (Z.ltb_lt _ _) Hpos).
    + simpl in Hcount. injection Hcount as Hz. rewrite <- Hz. done.
  - rewrite Htotal. simpl. lia.
  - apply Hnd. constructor.
  - apply Forall_forall. intros k Hk. by apply Hlabel.
Qed.

Lemma counts_by_phase_tally_witness :
  exists out,
    (normalize_trials Demo.env (Items Demo.two_variants) (PStr "Acme Corp")
       Demo.world0).1 = Ok out
    /\ exists candidates counts,
      out = PDict [("company_name", PStr "Acme Corp");
                   ("pipeline",
                    PDict [("candidates", PList (PDict <$> candidates));
                           ("counts_by_phase", PDict counts)])]
      /\ (forall p, dget counts p
                    = if (0 <? tally p candidates)%Z
                      then Some (PInt (tally p candidates)) else None)
      /\ dict_total counts = len candidates
      /\ NoDup counts.*1
      /\ Forall (fun k => k ∈ phase_labels) counts.*1.
Proof.
  eexists. split; [vm_compute; reflexivity|].
  apply (counts_by_phase_tally Demo.env (Items Demo.two_variants)
           (PStr "Acme Corp") Demo.world0).
  vm_compute. reflexivity.
Defined.

(** ** Trials: a study with an empty list *)

(** X15: a study with an identifier whose [phases] list is present but
    empty makes [phases[0]] raise [IndexError]; nothing in
    [normalize_trials] catches it, so when such a study comes first the
    call raises and leaves the world as it was. *)
Theorem empty_phases_abort (E : Env) (s : pyval) (k : Py.hkey)
    (rest : list pyval) (company : pyval) (w : World) :
  study_key s = Some k ->
  phases_of s = Ok (PList []) ->
  normalize_trials E (OneDict [("studies", PList (s :: rest))]) company w
  = (Raise IndexError, w).
Proof.
  intros Hkey Hphases. unfold study_key in Hkey. unfold phases_of in Hphases.
  destruct s as [| | | | | |d]; try discriminate. simpl in Hkey, Hphases.
  destruct (default (PDict []) (dget d "protocolSection")) as [| | | | | |p] eqn:Hp;
    try discriminate.
  simpl in Hkey, Hphases.
  destruct (default (PDict []) (dget p "identificationModule")) as [| | | | | |i] eqn:Hi;
    try discriminate.
  simpl in Hkey.
  destruct (truthy (default PNone (dget i "nctId"))) eqn:Hnct; [|discriminate].
  destruct (Py.hash_key (default PNone (dget i "nctId"))) as [key|] eqn:Hhash;
    [|discriminate].
  destruct (default (PDict []) (dget p "designModule")) as [| | | | | |dm] eqn:Hdm;
    try discriminate.
  simpl in Hphases. injection Hphases as Hphases.
  assert (Hv : visit_study E company (PDict d) (∅, []) w = (Raise IndexError, w)).
  { unfold visit_study, trial_record, mbind, M_bind, lift. simpl.
    rewrite Hp. simpl. rewrite Hi. simpl. rewrite Hnct. simpl. rewrite Hhash. simpl.
    rewrite Hdm. simpl. rewrite Hphases. reflexivity. }
  unfold normalize_trials, as_items. cbn [visit_items visit_item].
  apply bind_raise. apply bind_raise.
  rewrite (bind_ok _ _ w (PList (PDict d :: rest)) w) by reflexivity.
  rewrite (bind_ok _ _ w (PDict d :: rest) w) by reflexivity.
  cbn [visit_studies]. by apply bind_raise.
Qed.

Lemma empty_phases_abort_witness :
  study_key (phaseless_study "NCT01") = Some (Py.HStr "NCT01")
  /\ phases_of (phaseless_study "NCT01") = Ok (PList [])
  /\ normalize_trials Demo.env
       (OneDict [("studies", PList [phaseless_study "NCT01"])])
       (PStr "Acme Corp") Demo.world0
     = (Raise IndexError, Demo.world0).
Proof.
  split; [reflexivity|]. split; [reflexivity|].
  apply (empty_phases_abort Demo.env (phaseless_study "NCT01")
           (Py.HStr "NCT01") [] (PStr "Acme Corp") Demo.world0); reflexivity.
Defined.

(** ** The runner: the clinical section *)

Section RunnerTrials.
Context (E : Env).

Lemma fetch_trials_sent query max_records w :
  sent (fetch_trials E query max_records w).2
  = HttpGet (trials_request query max_records) :: sent w.
Proof.
  unfold fetch_trials, mbind, M_bind, requests_get, lift.
  destruct (net E (sent w) _) as [dt [|resp]]; simpl; [done|].
  destruct (raise_for_status resp); simpl; [|done].
  destruct (json_of resp) as [data|]; simpl; [|done].
  destruct data; simpl; try done. by case_bool_decide.
Qed.

Lemma gather_step variant raw_trials w :
  exists more w1,
    try_except
      (trials_for_variant ← fetch_trials E variant 5;
       studies ← lift (Py.get trials_for_variant "studies");
       if truthy studies then
         studies ← lift (Py.item trials_for_variant "studies");
         more ← lift (Py.iter studies);
         mret (raw_trials ++ more)
       else mret raw_trials)
      (fun _ => mret raw_trials) w = (Ok (raw_trials ++ more), w1)
    /\ sent w1 = HttpGet (trials_request variant 5) :: sent w.
Proof.
  pose proof (fetch_trials_sent variant 5 w) as Hs.
  unfold try_except, mbind, M_bind, lift.
  destruct (fetch_trials E variant 5 w) as [[t|e] w1]; simpl in Hs |- *.
  - destruct (Py.get t "studies") as [studies|]; simpl.
    + destruct (truthy studies); simpl.
      * destruct (Py.item t "studies") as [st|]; simpl.
        -- destruct (Py.iter st) as [more|]; simpl.
           ++ by exists more, w1.
           ++ exists [], w1. by rewrite app_nil_r.
        -- exists [], w1. by rewrite app_nil_r.
      * exists [], w1. by rewrite app_nil_r.
    + exists [], w1. by rewrite app_nil_r.
  - exists [], w1. by rewrite app_nil_r.
Qed.

Lemma gather_trials_run variants :
  forall raw_trials w,
    exists more w',
      gather_trials E variants raw_trials w = (Ok (raw_trials ++ more), w')
      /\ sent w'
         = rev ((fun v => HttpGet (trials_request v 5)) <$> variants) ++ sent w.
Proof.
  induction variants as [|v rest IH]; intros raw_trials w.
  - exists [], w. by rewrite app_nil_r.
  - cbn [gather_trials].
    destruct (gather_step v raw_trials w) as (more1 & w1 & Hstep & Hs1).
    rewrite (bind_ok _ _ _ _ _ Hstep).
    destruct (IH (raw_trials ++ more1) w1) as (more2 & w2 & Hrest & Hs2).
    exists (more1 ++ more2), w2. rewrite Hrest, Hs2, Hs1.
    split; [by rewrite app_assoc|].
    rewrite fmap_cons. simpl. by rewrite <- app_assoc.
Qed.

End RunnerTrials.

(** X16: the clinical section of [build_profiles] sends one registry
    request per name variant, in the order of the variants and whatever the
    earlier ones returned or raised, and a variant can only add studies to
    the list gathered so far. *)
Theorem one_request_per_variant (E : Env) (variants raw_trials : list pyval)
    (w : World) :
  exists more w',
    gather_trials E variants raw_trials w = (Ok (raw_trials ++ more), w')
    /\ sent w'
       = rev ((fun v => HttpGet (trials_request v 5)) <$> variants) ++ sent w.
Proof. apply gather_trials_run. Qed.

(** X17: the clinical section never fails: it always hands the profile a
    dict with a [pipeline] of [candidates] and [counts_by_phase], and every
    candidate is tagged with the resolved name, whichever variant found it. *)
Theorem profile_trials_total (E : Env) (variants : list pyval) (name : pyval)
    (w : World) :
  exists out w' candidates counts,
    profile_trials E variants name w = (Ok out, w')
    /\ Py.item out "pipeline"
       = Ok (PDict [("candidates", PList (PDict <$> candidates));
                    ("counts_by_phase", PDict counts)])
    /\ Forall (fun c => aget c "matched_variant" = name) candidates.
Proof.
  unfold profile_trials, try_except.
  destruct (gather_trials_run E variants [] w) as (raw & w1 & Hg & _).
  rewrite (bind_ok _ _ _ _ _ Hg).
  destruct (normalize_trials E (OneDict [("studies", PList ([] ++ raw))]) name w1)
    as [[out|e] w2] eqn:Hn.
  - destruct (one_dict_variant_is_company_name E
                [("studies", PList ([] ++ raw))] name w1 out)
      as (candidates & counts & -> & Htag); [by rewrite Hn|].
    eexists _, w2, candidates, counts. split; [reflexivity|]. by split.
  - exists empty_pipeline, w2, [], []. repeat split. constructor.
Qed.

(** ** Filings: the downloads and the records *)

Section EdgarMore.
Context (E : Env).

Lemma filing_records_run form ticker cik base_path folders w :
  exists l,
    filing_records E form ticker cik base_path folders w = (Ok l, w)
    /\ length l <= length folders
    /\ Forall (filing_of form) l.
Proof.
  induction folders as [|folder rest IH].
  - exists []. split; [done|]. split; [simpl; lia|constructor].
  - destruct IH as (more & Hmore & Hlen & Hall). cbn [filing_records].
    unfold filing_record, path_exists, utcnow_iso, now, mbind, M_bind. simpl.
    destruct (_ || _); simpl; rewrite Hmore; simpl.
    + eexists. split; [reflexivity|]. split; [simpl; lia|].
      constructor; [by split|done].
    + exists more. split; [done|]. split; [lia|done].
Qed.

Lemma slice_to_length {A} (n : Z) (l : list A) :
  (0 <= n)%Z -> (len (slice_to n l) <= n)%Z.
Proof.
  intros Hn. unfold slice_to, len.
  rewrite (proj2 (Z.leb_le _ _) Hn), length_take. lia.
Qed.

(** One round of the loop over the forms: it returns whatever happens, it
    asks the downloader once, and its records are of that form. *)
Lemma fetch_form_round form ticker cik count w :
  exists l w',
    try_except (fetch_form E form ticker cik count) (fun _ => mret []) w
    = (Ok l, w')
    /\ sent w' = EdgarGet form (py_or ticker cik) count :: sent w
    /\ Forall (filing_of form) l
    /\ ((0 <= count)%Z -> (len l <= count)%Z).
Proof.
  unfold try_except, fetch_form, mbind, M_bind, downloader_get, lift.
  destruct (edgar E (sent w) form (py_or ticker cik) count) as [ok d].
  set (w1 := set_disk d _).
  assert (Hs : sent w1 = EdgarGet form (py_or ticker cik) count :: sent w)
    by (by destruct w).
  assert (Hnil : exists l w',
             (Ok ([] : list dict), w1) = (Ok l, w')
             /\ sent w' = EdgarGet form (py_or ticker cik) count :: sent w
             /\ Forall (filing_of form) l
             /\ ((0 <= count)%Z -> (len l <= count)%Z)).
  { exists [], w1. split; [done|]. split; [done|]. split; [constructor|].
    unfold len. simpl. lia. }
  destruct ok; [|exact Hnil].
  destruct (if truthy ticker then as_path ticker else Ok (str_of E cik))
    as [sub|]; [|exact Hnil].
  unfold path_exists. simpl.
  destruct (_ || _); [|exact Hnil].
  unfold listdir. destruct (dirs (disk w1) !! _) as [names|]; [|exact Hnil].
  destruct (filing_records_run form ticker cik
              (path_join (path_join (path_join (getcwd E) "sec-edgar-filings") sub)
                 form)
              (slice_to count (sorted_desc names)) w1)
    as (l & -> & Hlen & Hall).
  exists l, w1. split; [done|]. split; [done|]. split; [done|].
  intros Hc. pose proof (slice_to_length count (sorted_desc names) Hc).
  unfold len in *. lia.
Qed.

Lemma fetch_forms_run ticker cik count w :
  exists annual quarterly w',
    fetch_forms E ["10-K"; "10-Q"] ticker cik count w
    = (Ok (annual ++ quarterly), w')
    /\ sent w' = [EdgarGet "10-Q" (py_or ticker cik) count;
                  EdgarGet "10-K" (py_or ticker cik) count] ++ sent w
    /\ Forall (filing_of "10-K") annual
    /\ Forall (filing_of "10-Q") quarterly
    /\ ((0 <= count)%Z -> (len annual <= count)%Z /\ (len quarterly <= count)%Z).
Proof.
  cbn [fetch_forms].
  destruct (fetch_form_round "10-K" ticker cik count w)
    as (annual & w1 & Hk & Hs1 & Hallk & Hlenk).
  destruct (fetch_form_round "10-Q" ticker cik count w1)
    as (quarterly & w2 & Hq & Hs2 & Hallq & Hlenq).
  exists annual, quarterly, w2.
  rewrite (bind_ok _ _ _ _ _ Hk).
  split; [|split; [by rewrite Hs2, Hs1|auto]].
  unfold mbind, M_bind at 1. unfold mbind, M_bind at 1. rewrite Hq. simpl.
  by rewrite app_nil_r.
Qed.

End EdgarMore.

(** X18: given a ticker or a CIK, [fetch_edgar_filings] first constructs
    the downloader, outside every [try]: when the constructor raises, the
    call raises the same exception and nothing is downloaded. When it
    returns, the call returns too, after exactly two downloads, for the
    annual and then the quarterly reports, whether or not the first download
    worked; the records come annual first, each with the five keys of a
    filing and its form, and with a non-negative [count] there are at most
    [count] of each form. *)
Theorem filings_two_downloads (E : Env) (ticker cik : pyval) (count : Z)
    (w : World) :
  truthy ticker = true \/ truthy cik = true ->
  match downloader_init E (sent w) with
  | Raise e =>
      fetch_edgar_filings E ticker cik count w
      = (Raise e, set_sent (EdgarInit :: sent w) w)
  | Ok _ =>
      exists annual quarterly w',
        fetch_edgar_filings E ticker cik count w = (Ok (annual ++ quarterly), w')
        /\ sent w' = [EdgarGet "10-Q" (py_or ticker cik) count;
                      EdgarGet "10-K" (py_or ticker cik) count;
                      EdgarInit] ++ sent w
        /\ Forall (filing_of "10-K") annual
        /\ Forall (filing_of "10-Q") quarterly
        /\ ((0 <= count)%Z ->
            (len annual <= count)%Z /\ (len quarterly <= count)%Z)
  end.
Proof.
  intros Hid. unfold fetch_edgar_filings.
  replace (negb (truthy ticker) && negb (truthy cik)) with false
    by (destruct Hid as [-> | ->]; simpl; [done|by rewrite andb_false_r]).
  unfold mbind, M_bind, downloader_new.
  destruct (downloader_init E (sent w)) as [[]|e]; [|done].
  destruct (fetch_forms_run E ticker cik count (set_sent (EdgarInit :: sent w) w))
    as (annual & quarterly & w' & Hrun & Hsent & Hrest).
  exists annual, quarterly, w'. split; [done|]. split; [|done].
  rewrite Hsent. done.
Qed.

Lemma filings_two_downloads_witness :
  ((fetch_edgar_filings Filed.env (PStr "ACME") PNone 2 Demo.world0).1
   = Ok [[("form", PStr "10-K"); ("filing_date", PStr "0003");
          ("file_path",
           PStr "/srv/sec-edgar-filings/ACME/10-K/0003/full-submission.txt");
          ("source_url",
           PStr "https://www.sec.gov/Archives/edgar/data/ACME/0003/index.html");
          ("fetched", PStr "t")]]
   /\ match downloader_init Filed.env (sent Demo.world0) with
      | Raise e =>
          fetch_edgar_filings Filed.env (PStr "ACME") PNone 2 Demo.world0
          = (Raise e, set_sent (EdgarInit :: sent Demo.world0) Demo.world0)
      | Ok _ =>
          exists annual quarterly w',
            fetch_edgar_filings Filed.env (PStr "ACME") PNone 2 Demo.world0
            = (Ok (annual ++ quarterly), w')
            /\ sent w' = [EdgarGet "10-Q" (py_or (PStr "ACME") PNone) 2;
                          EdgarGet "10-K" (py_or (PStr "ACME") PNone) 2;
                          EdgarInit] ++ sent Demo.world0
            /\ Forall (filing_of "10-K") annual
            /\ Forall (filing_of "10-Q") quarterly
            /\ ((0 <= 2)%Z -> (len annual <= 2)%Z /\ (len quarterly <= 2)%Z)
      end)
  /\ match downloader_init Offline.env (sent Demo.world0) with
     | Raise e =>
         fetch_edgar_filings Offline.env PNone (PInt 320193) 2 Demo.world0
         = (Raise e, set_sent (EdgarInit :: sent Demo.world0) Demo.world0)
     | Ok _ =>
         exists annual quarterly w',
           fetch_edgar_filings Offline.env PNone (PInt 320193) 2 Demo.world0
           = (Ok (annual ++ quarterly), w')
           /\ sent w' = [EdgarGet "10-Q" (py_or PNone (PInt 320193)) 2;
                         EdgarGet "10-K" (py_or PNone (PInt 320193)) 2;
                         EdgarInit] ++ sent Demo.world0
           /\ Forall (filing_of "10-K") annual
           /\ Forall (filing_of "10-Q") quarterly
           /\ ((0 <= 2)%Z -> (len annual <= 2)%Z /\ (len quarterly <= 2)%Z)
     end.
Proof.
  split; [split; [vm_compute; reflexivity|]|].
  - apply (filings_two_downloads Filed.env (PStr "ACME") PNone 2 Demo.world0).
    left. reflexivity.
  - apply (filings_two_downloads Offline.env PNone (PInt 320193) 2 Demo.world0).
    right. reflexivity.
Defined.

(** ** Filings: provenance *)

Lemma dget_of_key (d : dict) k : k ∈ d.*1 -> is_Some (dget d k).
Proof.
  induction d as [|[k' v] d IH]; simpl; [by intros ?%elem_of_nil|].
  case_decide; [by eexists|]. set_solver.
Qed.

Lemma provenance_of_filing (E : Env) form f :
  filing_of form f ->
  exists p, provenance_entry E f = Ok p
            /\ Py.item p "source_url" = Py.item (PDict f) "source_url"
            /\ Py.item p "source_type" = Ok (PStr "edgar").
Proof.
  intros [Hkeys _]. unfold provenance_entry, Py.item.
  destruct (dget_of_key f "source_url") as [v1 ->];
    [rewrite Hkeys; unfold filing_keys; set_solver|].
  destruct (dget_of_key f "fetched") as [v2 ->];
    [rewrite Hkeys; unfold filing_keys; set_solver|].
  destruct (dget_of_key f "form") as [v3 ->];
    [rewrite Hkeys; unfold filing_keys; set_solver|].
  destruct (dget_of_key f "filing_date") as [v4 ->];
    [rewrite Hkeys; unfold filing_keys; set_solver|].
  simpl. eexists. split; [reflexivity|]. by split.
Qed.

Lemma provenance_of_filings (E : Env) filings :
  Forall (fun f => exists form, filing_of form f) filings ->
  exists provenance,
    mapM (provenance_entry E) filings = Ok provenance
    /\ Forall2 (fun f p =>
         Py.item p "source_url" = Py.item (PDict f) "source_url"
         /\ Py.item p "source_type" = Ok (PStr "edgar")) filings provenance.
Proof.
  induction 1 as [|f rest [form Hf] _ (ps & Hps & Hall)].
  - exists []. split; [done|constructor].
  - destruct (provenance_of_filing E form f Hf) as (p & Hp & Hurl).
    exists (p :: ps). split; [|by constructor].
    simpl. rewrite Hp. simpl. by rewrite Hps.
Qed.

Lemma fetched_filings_shape (E : Env) ticker cik count w filings w' :
  fetch_edgar_filings E ticker cik count w = (Ok filings, w') ->
  Forall (fun f => exists form, filing_of form f) filings.
Proof.
  unfold fetch_edgar_filings.
  destruct (negb (truthy ticker) && negb (truthy cik)).
  - intros [= <- _]. constructor.
  - intros (? & w1 & _ & Hrun)%bind_inv. revert Hrun.
    destruct (fetch_forms_run E ticker cik count w1)
      as (annual & quarterly & w2 & -> & _ & Hk & Hq & _).
    intros [= <- _]. apply Forall_app_2.
    + eapply Forall_impl; [exact Hk|]. intros f Hf. by eexists.
    + eapply Forall_impl; [exact Hq|]. intros f Hf. by eexists.
Qed.

(** X19: what [fetch_edgar_filings] returns can always be normalized:
    [normalize_financials] does not raise on it, keeps the filings as they
    are, and adds one provenance entry per filing, in the same order, with
    the filing's [source_url] and the source type "edgar". *)
Theorem fetched_filings_normalize (E : Env) (ticker cik : pyval) (count : Z)
    (w w' : World) (filings : list dict) :
  fetch_edgar_filings E ticker cik count w = (Ok filings, w') ->
  exists provenance,
    normalize_financials E filings true
    = Ok (PDict [("public", PBool true);
                 ("filings", PList (PDict <$> filings));
                 ("provenance", PList provenance)])
    /\ Forall2 (fun f p =>
         Py.item p "source_url" = Py.item (PDict f) "source_url"
         /\ Py.item p "source_type" = Ok (PStr "edgar")) filings provenance.
Proof.
  intros Hfetch. apply fetched_filings_shape in Hfetch.
  destruct (provenance_of_filings E filings Hfetch) as (ps & Hps & Hall).
  exists ps. split; [|done].
  unfold normalize_financials. simpl. destruct filings as [|f rest].
  - simpl in Hps. by injection Hps as <-.
  - by rewrite Hps.
Qed.

Lemma fetched_filings_normalize_witness :
  exists filings w',
    fetch_edgar_filings Filed.env (PStr "ACME") PNone 2 Demo.world0
    = (Ok filings, w')
    /\ length filings = 1
    /\ exists provenance,
      normalize_financials Filed.env filings true
      = Ok (PDict [("public", PBool true);
                   ("filings", PList (PDict <$> filings));
                   ("provenance", PList provenance)])
      /\ Forall2 (fun f p =>
           Py.item p "source_url" = Py.item (PDict f) "source_url"
           /\ Py.item p "source_type" = Ok (PStr "edgar")) filings provenance.
Proof.
  eexists _, _. split; [vm_compute; reflexivity|]. split; [reflexivity|].
  eapply (fetched_filings_normalize Filed.env (PStr "ACME") PNone 2 Demo.world0).
  vm_compute. reflexivity.
Defined.

(** X20: the financial section of [build_profiles] never fails: it always
    yields a dict with [public], [filings] and [provenance], where [public]
    says whether the row has a ticker or a CIK, and there are as many
    provenance entries as filings. *)
Theorem profile_financials_total (E : Env) (ticker cik : pyval) (w : World) :
  exists filings provenance w',
    profile_financials E ticker cik w
    = (Ok (PDict [("public", PBool (notna ticker || notna cik));
                  ("filings", PList filings);
                  ("provenance", PList provenance)]), w')
    /\ length filings = length provenance.
Proof.
  unfold profile_financials, try_except.
  destruct (notna ticker || notna cik) eqn:Hpub.
  - unfold mbind, M_bind.
    destruct (fetch_edgar_filings E _ _ 2 w) as [[fs|e] w1];
      [|by exists [], [], w1].
    unfold lift, normalize_financials. simpl.
    destruct fs as [|f rest]; [by exists [], [], w1|].
    destruct (mapM (provenance_entry E) (f :: rest)) as [ps|e] eqn:Hps; simpl.
    + eexists _, ps, w1. split; [reflexivity|].
      change (length (PDict <$> f :: rest) = length ps).
      rewrite length_fmap. symmetry. by eapply mapM_ok_length.
    + by exists [], [], w1.
  - by exists [], [], w.
Qed.

(** ** The runner: the news loop *)

(** X21: the news loop downloads nothing for items that have both a headline
    and a summary, or no URL: on a list of such items it only rewrites each
    item's [published] and leaves the world as it was. *)
Theorem settled_items_untouched (E : Env) (ds : list dict) (w : World) :
  Forall (fun d => needs_page d = false) ds ->
  backfill_items E (PDict <$> ds) w = ((set_published E <$> ds, Ok ()), w).
Proof.
  induction 1 as [|d rest Hd _ IH]; [done|].
  rewrite fmap_cons. cbn [backfill_items].
  assert (Hitem : backfill_item E (PDict d) w = ((set_published E d, Ok ()), w)).
  { unfold backfill_item. unfold needs_page in Hd.
    destruct (negb (truthy (aget d "headline")) || negb (truthy (aget d "summary")));
      [|done].
    simpl in Hd. by rewrite Hd. }
  rewrite Hitem, IH. done.
Qed.

Lemma settled_items_untouched_witness :
  Forall (fun d => needs_page d = false)
    [Demo.filled "http://1"; [("headline", PStr "T")]]
  /\ backfill_items Demo.env
       (PDict <$> [Demo.filled "http://1"; [("headline", PStr "T")]]) Demo.world0
     = ((set_published Demo.env
           <$> [Demo.filled "http://1"; [("headline", PStr "T")]], Ok ()),
        Demo.world0).
Proof.
  assert (H : Forall (fun d => needs_page d = false)
                [Demo.filled "http://1"; [("headline", PStr "T")]])
    by (repeat constructor).
  split; [exact H|].
  exact (settled_items_untouched Demo.env _ Demo.world0 H).
Defined.

(** X22: when the page of an incomplete item was fetched and the extractor
    could not parse it, the extractor's result has no [evidence_snippet]
    and the loop stops there with [KeyError]: the item keeps its
    [published] and its snippet but has already lost a falsy headline or
    summary to [None] and got the confidence 0.0, and the items after it
    are not looked at. *)
Theorem parse_failure_stops_loop (E : Env) (d fetched : dict) (msg : string)
    (rest : list pyval) (w w1 : World) :
  needs_page d = true ->
  fetch_url E (aget d "source_url") true 3 2000000 w = (Ok fetched, w1) ->
  truthy (aget fetched "raw_text") = true ->
  BeautifulSoup E (aget fetched "raw_text") = inr msg ->
  exists d',
    backfill_items E (PDict d :: rest) w = ((PDict d' :: rest, Raise KeyError), w1)
    /\ aget d' "headline" = py_or (aget d "headline") PNone
    /\ aget d' "summary" = py_or (aget d "summary") PNone
    /\ aget d' "extraction_confidence" = PFloat 0
    /\ dget d' "published" = dget d "published"
    /\ dget d' "evidence_snippet" = dget d "evidence_snippet".
Proof.
  intros Hneeds Hfetch Htext Hparse. unfold needs_page in Hneeds.
  apply andb_prop in Hneeds as [Hgap Hurl].
  cbn [backfill_items]. unfold backfill_item.
  rewrite Hgap, Hurl, Hfetch, Htext.
  unfold extract_basic_metadata, utcnow_iso, now, mbind, M_bind. simpl.
  rewrite Hparse. simpl.
  eexists. split; [reflexivity|].
  split; [|split; [|split; [|split]]].
  - unfold aget.
    by rewrite !(dget_dset_ne _ _ "headline"), dget_dset_eq by done.
  - unfold aget.
    rewrite !(dget_dset_ne _ _ "summary") by done.
    rewrite dget_dset_eq. simpl.
    by rewrite (dget_dset_ne _ "headline" "summary") by done.
  - unfold aget. by rewrite dget_dset_eq.
  - by rewrite !(dget_dset_ne _ _ "published") by done.
  - by rewrite !(dget_dset_ne _ _ "evidence_snippet") by done.
Qed.

Lemma parse_failure_stops_loop_witness :
  exists d',
    backfill_items Offline.env
      [PDict (Demo.bare "http://1"); PDict (Demo.bare "http://2")]
      (with_page Offline.env "http://1" "<html>" Demo.world0)
    = ((PDict d' :: [PDict (Demo.bare "http://2")], Raise KeyError),
       with_page Offline.env "http://1" "<html>" Demo.world0)
    /\ aget d' "headline" = py_or (aget (Demo.bare "http://1") "headline") PNone
    /\ aget d' "summary" = py_or (aget (Demo.bare "http://1") "summary") PNone
    /\ aget d' "extraction_confidence" = PFloat 0
    /\ dget d' "published" = dget (Demo.bare "http://1") "published"
    /\ dget d' "evidence_snippet" = dget (Demo.bare "http://1") "evidence_snippet".
Proof.
  apply (parse_failure_stops_loop Offline.env (Demo.bare "http://1")
           [("raw_text", PStr "<html>");
            ("archive_path", PStr "archive/http://1.html");
            ("fetched_at", PStr "t"); ("from_cache", PBool true)]
           "parse error" [PDict (Demo.bare "http://2")]
           (with_page Offline.env "http://1" "<html>" Demo.world0)
           (with_page Offline.env "http://1" "<html>" Demo.world0));
    vm_compute; reflexivity.
Defined.

(** ** Name variants *)

Module IdentifierFacts.
Import Identifier.

Lemma append_assoc (a b c : string) : (a +:+ b) +:+ c = a +:+ (b +:+ c).
Proof.
  induction a as [|x a IH]; [done|].
  change (String x ((a +:+ b) +:+ c) = String x (a +:+ (b +:+ c))). by rewrite IH.
Qed.

Lemma append_length (a b : string) :
  String.length (a +:+ b) = String.length a + String.length b.
Proof.
  induction a as [|x a IH]; [done|].
  change (S (String.length (a +:+ b)) = S (String.length a + String.length b)).
  by rewrite IH.
Qed.

Lemma rev_app_append s acc : String.rev_app s acc = String.rev s +:+ acc.
Proof.
  unfold String.rev. revert acc. induction s as [|c s IH]; intros acc; [done|].
  simpl. rewrite IH, (IH (String c EmptyString)), append_assoc. done.
Qed.

Lemma rev_append (a b : string) :
  String.rev (a +:+ b) = String.rev b +:+ String.rev a.
Proof.
  induction a as [|x a IH].
  - change (EmptyString +:+ b) with b. by rewrite append_empty.
  - change (String x a +:+ b) with (String x (a +:+ b)).
    unfold String.rev at 1 3. simpl.
    rewrite !rev_app_append, IH, append_assoc. done.
Qed.

Lemma rev_length s : String.length (String.rev s) = String.length s.
Proof.
  induction s as [|c s IH]; [done|].
  unfold String.rev. simpl. rewrite rev_app_append, append_length, IH. simpl. lia.
Qed.

Lemma prefix_split p s :
  String.prefix p s = true -> exists rest, s = p +:+ rest.
Proof.
  revert s. induction p as [|c p IH]; intros s H.
  - by exists s.
  - destruct s as [|c' s]; simpl in H; [done|].
    destruct (ascii_dec c c') as [->|]; [|done].
    destruct (IH s H) as [rest ->]. by exists rest.
Qed.

Lemma prefix_append p rest : String.prefix p (p +:+ rest) = true.
Proof.
  induction p as [|c p IH]; [by destruct rest|].
  change (String c p +:+ rest) with (String c (p +:+ rest)). simpl.
  by destruct (ascii_dec c c).
Qed.

(** [endswith] is what it says. *)
Lemma endswith_split s suf :
  endswith s suf = true <-> exists pre, s = pre +:+ suf.
Proof.
  unfold endswith. split.
  - intros [rest Hrest]%prefix_split. exists (String.rev rest).
    rewrite <- (rev_rev s), Hrest, rev_append, rev_rev. done.
  - intros [pre ->]. rewrite rev_append. apply prefix_append.
Qed.

Lemma lstrip_length s : String.length (Text.lstrip s) <= String.length s.
Proof.
  induction s as [|c s IH]; simpl; [lia|]. destruct (Text.isspace c); simpl; lia.
Qed.

Lemma strip_length s : String.length (Text.strip s) <= String.length s.
Proof.
  unfold Text.strip. rewrite rev_length.
  etrans; [apply lstrip_length|]. rewrite rev_length. apply lstrip_length.
Qed.

Lemma replace_go_length old skip s :
  String.length (replace_go old EmptyString skip s) <= String.length s.
Proof.
  revert skip. induction s as [|c s IH]; intros skip; [simpl; lia|].
  cbn [replace_go]. destruct skip as [|k].
  - destruct (String.prefix old (String c s)).
    + specialize (IH (String.length old - 1)).
      change (EmptyString +:+ ?x) with x. simpl. lia.
    + specialize (IH 0). simpl. lia.
  - specialize (IH k). simpl. lia.
Qed.

(** Taking out a string that is there makes the text shorter. *)
Lemma replace_shrinks old pre :
  old <> EmptyString ->
  String.length (replace old EmptyString (pre +:+ old))
  < String.length (pre +:+ old).
Proof.
  intros Hold. unfold replace. destruct old as [|o old']; [done|].
  clear Hold. set (old := String o old').
  assert (Hhit : forall c s', String.prefix old (String c s') = true ->
            String.length (replace_go old EmptyString 0 (String c s'))
            < String.length (String c s')).
  { intros c s' Hp. cbn [replace_go]. rewrite Hp.
    change (EmptyString +:+ ?x) with x.
    pose proof (replace_go_length old (String.length old - 1) s').
    change (String.length (String c s')) with (S (String.length s')). lia. }
  induction pre as [|c pre IH].
  - change (EmptyString +:+ old) with old. apply Hhit.
    pose proof (prefix_append old EmptyString) as Hself.
    by rewrite append_empty in Hself.
  - change (String c pre +:+ old) with (String c (pre +:+ old)).
    destruct (String.prefix old (String c (pre +:+ old))) eqn:Hp.
    + by apply Hhit.
    + cbn [replace_go]. rewrite Hp.
      change (S (String.length (replace_go old EmptyString 0 (pre +:+ old)))
              < S (String.length (pre +:+ old))). lia.
Qed.

Lemma stem_shorter name suf :
  suf <> EmptyString -> endswith name suf = true ->
  String.length (stem name suf) < String.length name.
Proof.
  intros Hsuf [pre ->]%endswith_split. unfold stem.
  pose proof (strip_length (replace suf EmptyString (pre +:+ suf))).
  pose proof (replace_shrinks suf pre Hsuf). lia.
Qed.

(** A name ends with at most one of the listed suffixes. *)
Lemma one_suffix name suf :
  suf ∈ SUFFIXES -> endswith name suf = true ->
  filter (fun s => endswith name s = true) SUFFIXES = [suf].
Proof.
  intros Hin Hends. unfold endswith in *.
  apply prefix_split in Hends as [rest Hrest].
  unfold SUFFIXES in *.
  repeat (apply elem_of_cons in Hin as [->|Hin]);
    [..|by apply elem_of_nil in Hin];
    rewrite Hrest; destruct rest; vm_compute; reflexivity.
Qed.

Lemma variants_by_filter name (l : list string) (acc : gset string) :
  foldl (fun variants suf =>
           if endswith name suf then {[stem name suf]} ∪ variants else variants)
        acc l
  = acc ∪ list_to_set (stem name <$> filter (fun s => endswith name s = true) l).
Proof.
  revert acc. induction l as [|suf l IH]; intros acc; simpl.
  - set_solver.
  - rewrite IH, filter_cons. destruct (endswith name suf) eqn:Hs.
    + rewrite decide_True by done. rewrite fmap_cons. set_solver.
    + rewrite decide_False by (by intros ?). done.
Qed.

End IdentifierFacts.

(** X23: [generate_name_variants] yields the name alone when the name ends
    with none of the nine listed suffixes; otherwise exactly one suffix
    applies and the result has exactly two elements: the name and the
    name with every occurrence of that suffix taken out and the blanks
    trimmed, which is strictly shorter than the name. *)
Theorem name_variants_spec (name : string) :
  match filter (fun s => Identifier.endswith name s = true) Identifier.SUFFIXES with
  | [] => Identifier.generate_name_variants name = {[name]}
  | suf :: others =>
      others = []
      /\ Identifier.generate_name_variants name
         = {[name; Identifier.stem name suf]}
      /\ String.length (Identifier.stem name suf) < String.length name
      /\ size (Identifier.generate_name_variants name) = 2
  end.
Proof.
  unfold Identifier.generate_name_variants.
  rewrite IdentifierFacts.variants_by_filter.
  destruct (filter _ Identifier.SUFFIXES) as [|suf others] eqn:Hf.
  - set_solver.
  - assert (Hsuf : suf ∈ filter (fun s => Identifier.endswith name s = true)
                          Identifier.SUFFIXES) by (rewrite Hf; set_solver).
    apply list_elem_of_filter in Hsuf as [Hends Hin].
    rewrite (IdentifierFacts.one_suffix name suf Hin Hends) in Hf.
    injection Hf as <-.
    assert (Hlen : String.length (Identifier.stem name suf) < String.length name).
    { apply IdentifierFacts.stem_shorter; [|done].
      intros ->. unfold Identifier.SUFFIXES in Hin. set_solver. }
    assert (Heq : ({[name]} : gset string)
                  ∪ list_to_set (Identifier.stem name <$> [suf])
                  = {[name; Identifier.stem name suf]}) by set_solver.
    rewrite Heq. split; [done|]. split; [done|]. split; [done|].
    rewrite size_union, !size_singleton; [done|].
    apply disjoint_singleton_l. intros Hsame%elem_of_singleton.
    rewrite <- Hsame in Hlen. lia.
Qed.

(** The suffix is taken out wherever it occurs, not only at the end. *)
Example variants_of_two_names :
  Identifier.generate_name_variants "Apple Inc." = {["Apple Inc."; "Apple"]}
  /\ Identifier.generate_name_variants "Incyte Inc" = {["Incyte Inc"; "yte"]}.
Proof. split; vm_compute; reflexivity. Qed.

(** ** Identifiers *)

Section IdentifierRuns.
Import Identifier.
Context (E : Env) (upper : string -> string)
        (ticker_info : list NetCall -> pyval -> result pyval).

Lemma zeros_length n : String.length (zeros n) = n.
Proof. induction n as [|n IH]; simpl; [done|]. by rewrite IH. Qed.

Lemma zfill_length width s :
  String.length (zfill width s) = width `max` String.length s.
Proof.
  unfold zfill. destruct s as [|c s].
  - rewrite zeros_length. simpl. lia.
  - destruct (_ || _).
    + change (String.length (String c ?x)) with (S (String.length x)).
      rewrite IdentifierFacts.append_length, zeros_length. simpl. lia.
    + rewrite IdentifierFacts.append_length, zeros_length. simpl. lia.
Qed.

Lemma find_cik_result entries symbol v :
  find_cik E upper entries symbol = Ok v ->
  v = PNone \/ exists s, v = PStr s /\ 10 <= String.length s.
Proof.
  induction entries as [|entry rest IH]; cbn [find_cik]; intros H.
  - left. by injection H as <-.
  - apply res_bind_ok in H as (theirs & _ & H).
    apply res_bind_ok in H as (theirs' & _ & H).
    apply res_bind_ok in H as (mine & _ & H).
    case_bool_decide; [|by apply IH].
    apply res_bind_ok in H as (c & _ & H).
    right. eexists. split; [by injection H as <-|].
    rewrite zfill_length. lia.
Qed.

Lemma get_cik_run symbol w :
  exists v w',
    get_cik E upper symbol w = (Ok v, w')
    /\ (v = PNone \/ exists s, v = PStr s /\ 10 <= String.length s)
    /\ sent w' = (if truthy symbol then [HttpGet sec_request] else []) ++ sent w
    /\ (truthy symbol = false -> v = PNone /\ w' = w).
Proof.
  unfold get_cik. destruct (truthy symbol); simpl.
  - unfold try_except, mbind, M_bind, requests_get, lift.
    destruct (net E (sent w) sec_request) as [dt out].
    set (w1 := set_sent _ _).
    assert (Hs : sent w1 = HttpGet sec_request :: sent w) by done.
    assert (Hnone : exists v w',
              (Ok PNone, w1) = (Ok v, w')
              /\ (v = PNone \/ exists s, v = PStr s /\ 10 <= String.length s)
              /\ sent w' = HttpGet sec_request :: sent w
              /\ (true = false -> v = PNone /\ w' = w)).
    { exists PNone, w1. split; [done|]. split; [by left|]. by split. }
    destruct out as [|resp]; [exact Hnone|].
    destruct (raise_for_status resp); [|exact Hnone].
    destruct (json_of resp) as [data|]; [|exact Hnone].
    destruct (values data) as [entries|]; [|exact Hnone].
    destruct (find_cik E upper entries symbol) as [v|] eqn:Hfind; [|exact Hnone].
    exists v, w1. split; [done|]. split; [by eapply find_cik_result|]. by split.
  - exists PNone, w. split; [done|]. split; [by left|]. by split.
Qed.

Lemma lookup_yfinance_run name w :
  exists record w',
    lookup_yfinance E ticker_info name w = (Ok record, w')
    /\ record.*1 = ["resolved_name"; "ticker"; "website"; "source"]
    /\ sent w' = HttpGet (search_request E name) :: sent w
    /\ (aget record "source" = PStr "yfinance"
        \/ record = unresolved name "search_fail"
        \/ record = unresolved name "exception").
Proof.
  unfold lookup_yfinance, try_except, mbind, M_bind, requests_get, lift, yf_info,
    mret, M_ret.
  repeat case_match; simplify_eq;
    (eexists _, _; split; [reflexivity|]; split; [reflexivity|];
     split; [reflexivity|]; auto).
Qed.

End IdentifierRuns.

(** X24: [get_cik] never raises. On a falsy ticker it returns [None]
    without touching the world; otherwise it sends exactly one request, for
    the SEC ticker file, and returns [None] or a string of at least ten
    characters. *)
Theorem get_cik_total (E : Env) (upper : string -> string) (symbol : pyval)
    (w : World) :
  exists v w',
    Identifier.get_cik E upper symbol w = (Ok v, w')
    /\ (v = PNone \/ exists s, v = PStr s /\ 10 <= String.length s)
    /\ sent w' = (if truthy symbol then [HttpGet Identifier.sec_request] else [])
                 ++ sent w
    /\ (truthy symbol = false -> v = PNone /\ w' = w).
Proof. apply get_cik_run. Qed.

(** X25: [lookup_yfinance] never raises and sends exactly one request of its
    own, the Yahoo search for the name. Its record always has the four keys
    [resolved_name], [ticker], [website] and [source]; unless the source is
    "yfinance", the record is the input name with no ticker and no website,
    marked "search_fail" or "exception". *)
Theorem lookup_yfinance_total (E : Env)
    (ticker_info : list NetCall -> pyval -> result pyval) (name : pyval)
    (w : World) :
  exists record w',
    Identifier.lookup_yfinance E ticker_info name w = (Ok record, w')
    /\ record.*1 = ["resolved_name"; "ticker"; "website"; "source"]
    /\ sent w' = HttpGet (Identifier.search_request E name) :: sent w
    /\ (aget record "source" = PStr "yfinance"
        \/ record = Identifier.unresolved name "search_fail"
        \/ record = Identifier.unresolved name "exception").
Proof. apply lookup_yfinance_run. Qed.

(** What a row of [canonicalize] is, when there is one. *)
Lemma canonical_record_inv (E : Env) (upper : string -> string)
    (ticker_info : list NetCall -> pyval -> result pyval) (name : pyval)
    (w w' : World) (row : Identifier.Canonical) :
  Identifier.canonical_record E upper ticker_info name w = (Ok row, w') ->
  Identifier.input_name row = name
  /\ Identifier.status row ∈ ["resolved"; "partial"; "private"]
  /\ (Identifier.status row = "private"
      <-> truthy (Identifier.ticker row) = false)
  /\ (Identifier.status row = "resolved"
      <-> truthy (Identifier.ticker row) = true
          /\ truthy (Identifier.cik row) = true)
  /\ sent w'
     = (if truthy (Identifier.ticker row)
        then [HttpGet Identifier.sec_request] else [])
       ++ HttpGet (Identifier.search_request E name) :: sent w
  /\ (truthy (Identifier.ticker row) = false -> Identifier.cik row = PNone)
  /\ exists s, Identifier.resolved_name row = PStr s
               /\ s ∈ Identifier.name_variants row.
Proof.
  intros H. unfold Identifier.canonical_record in H.
  apply bind_inv in H as (record & w1 & Hlook & H).
  destruct (lookup_yfinance_run E ticker_info name w)
    as (record' & w1' & Hrun & _ & Hsent & _).
  rewrite Hrun in Hlook. injection Hlook as -> ->.
  apply bind_inv in H as (symbol & ? & [_ ->]%lift_ok & H).
  apply bind_inv in H as (number & w2 & Hcik & H).
  apply bind_inv in H as (resolved & ? & [_ ->]%lift_ok & H).
  apply bind_inv in H as (site & ? & [_ ->]%lift_ok & H).
  apply bind_inv in H as (variants & ? & [Hvar ->]%lift_ok & H).
  apply bind_inv in H as (source & ? & [_ ->]%lift_ok & H).
  injection H as <- <-. simpl.
  assert (Hnum : sent w2 = (if truthy symbol
                            then [HttpGet Identifier.sec_request] else [])
                           ++ sent w1
                 /\ (truthy symbol = false -> number = PNone)).
  { destruct (get_cik_run E upper symbol w1) as (v & w3 & Hget & _ & Hs & Hfalsy).
    destruct (truthy symbol) eqn:Hsym.
    - rewrite Hget in Hcik. injection Hcik as <- <-. by split.
    - injection Hcik as <- <-. by split. }
  destruct Hnum as [Hs2 Hnone].
  split; [done|].
  unfold Identifier.decide_status.
  split; [destruct (truthy symbol), (truthy number); simpl; set_solver|].
  split; [destruct (truthy symbol), (truthy number); simpl; split; done|].
  split; [destruct (truthy symbol), (truthy number); simpl; split;
            (done || by intros [? ?])|].
  split; [by rewrite Hs2, Hsent|].
  split; [done|].
  destruct resolved as [| | | |s| |]; try discriminate.
  injection Hvar as <-. exists s. split; [done|].
  unfold Identifier.generate_name_variants.
  rewrite IdentifierFacts.variants_by_filter. set_solver.
Qed.

(** X26: in a row of [canonicalize] the status is "resolved", "partial" or
    "private", never "failed": it is "private" exactly when the ticker is
    falsy and "resolved" exactly when ticker and CIK are both truthy.
    Without a ticker the CIK is [None] and the SEC is not asked: the Yahoo
    search is the only request; with a ticker the SEC request follows the
    search. A resolved name that is a string is one of its own variants. *)
Theorem canonical_record_status (E : Env) (upper : string -> string)
    (ticker_info : list NetCall -> pyval -> result pyval) (name : pyval)
    (w w' : World) (row : Identifier.Canonical) :
  Identifier.canonical_record E upper ticker_info name w = (Ok row, w') ->
  Identifier.input_name row = name
  /\ Identifier.status row ∈ ["resolved"; "partial"; "private"]
  /\ (Identifier.status row = "private"
      <-> truthy (Identifier.ticker row) = false)
  /\ (Identifier.status row = "resolved"
      <-> truthy (Identifier.ticker row) = true
          /\ truthy (Identifier.cik row) = true)
  /\ sent w'
     = (if truthy (Identifier.ticker row)
        then [HttpGet Identifier.sec_request] else [])
       ++ HttpGet (Identifier.search_request E name) :: sent w
  /\ (truthy (Identifier.ticker row) = false -> Identifier.cik row = PNone)
  /\ exists s, Identifier.resolved_name row = PStr s
               /\ s ∈ Identifier.name_variants row.
Proof. apply canonical_record_inv. Qed.

Lemma canonical_record_status_witness :
  exists row w',
    Identifier.canonical_record Identifier.listed Text.upper
      Identifier.listed_info (PStr "apple") Demo.world0 = (Ok row, w')
    /\ Identifier.cik row = PStr "0000320193"
    /\ Identifier.name_variants row = {["Apple Inc."; "Apple"]}
    /\ Identifier.input_name row = PStr "apple"
    /\ Identifier.status row ∈ ["resolved"; "partial"; "private"]
    /\ (Identifier.status row = "private"
        <-> truthy (Identifier.ticker row) = false)
    /\ (Identifier.status row = "resolved"
        <-> truthy (Identifier.ticker row) = true
            /\ truthy (Identifier.cik row) = true)
    /\ sent w'
       = (if truthy (Identifier.ticker row)
          then [HttpGet Identifier.sec_request] else [])
         ++ HttpGet (Identifier.search_request Identifier.listed (PStr "apple"))
            :: sent Demo.world0
    /\ (truthy (Identifier.ticker row) = false -> Identifier.cik row = PNone)
    /\ exists s, Identifier.resolved_name row = PStr s
                 /\ s ∈ Identifier.name_variants row.
Proof.
  eexists _, _. split; [vm_compute; reflexivity|].
  split; [reflexivity|]. split; [vm_compute; reflexivity|].
  eapply (canonical_record_status Identifier.listed Text.upper
            Identifier.listed_info (PStr "apple") Demo.world0).
  vm_compute. reflexivity.
Defined.

(** X27: a row of [canonicalize] can fail in one way only: the lookup
    always gives a record, and the row raises exactly when the record's
    resolved name is not a string, which [generate_name_variants] cannot
    take. *)
Theorem canonical_record_raises_iff (E : Env) (upper : string -> string)
    (ticker_info : list NetCall -> pyval -> result pyval) (name : pyval)
    (w : World) :
  exists record w1,
    Identifier.lookup_yfinance E ticker_info name w = (Ok record, w1)
    /\ (raises (Identifier.canonical_record E upper ticker_info name w).1
        <-> forall s, aget record "resolved_name" <> PStr s).
Proof.
  destruct (lookup_yfinance_run E ticker_info name w)
    as (record & w1 & Hrun & Hkeys & _).
  exists record, w1. split; [done|].
  unfold Identifier.canonical_record.
  rewrite (bind_ok _ _ _ _ _ Hrun).
  destruct record as [|[k1 v1] [|[k2 v2] [|[k3 v3] [|[k4 v4] [|]]]]];
    try discriminate.
  injection Hkeys as -> -> -> ->.
  unfold mbind, M_bind, lift. simpl.
  destruct (get_cik_run E upper v2 w1) as (v & w2 & Hget & _).
  assert (Hnum : exists number w3,
            (if truthy v2 then Identifier.get_cik E upper v2 else mret PNone) w1
            = (Ok number, w3)).
  { destruct (truthy v2); [by exists v, w2|by exists PNone, w1]. }
  destruct Hnum as (number & w3 & ->).
  unfold aget. simpl.
  destruct v1; simpl; split; try done; try (intros _ s; discriminate).
  intros Hnot. by destruct (Hnot s).
Qed.

(** ** The profile's file name *)

Lemma replace_one_char (c d : ascii) s :
  Identifier.replace (String c EmptyString) (String d EmptyString) s
  = Text.map_chars (fun x => if bool_decide (x = c) then d else x) s.
Proof.
  unfold Identifier.replace.
  induction s as [|x s IH]; [done|].
  cbn [Identifier.replace_go Text.map_chars String.prefix String.length].
  destruct (ascii_dec c x) as [->|Hne].
  - rewrite bool_decide_eq_true_2 by done.
    replace (String.prefix EmptyString s) with true by (by destruct s).
    simpl. by rewrite IH.
  - rewrite bool_decide_eq_false_2 by done. by rewrite IH.
Qed.

Lemma map_chars_length f s :
  String.length (Text.map_chars f s) = String.length s.
Proof. induction s as [|c s IH]; simpl; [done|]. by rewrite IH. Qed.

(** X28: the file name stem that [build_profiles] derives from a resolved
    name has the length of the name and contains neither a blank nor a
    slash, so the profile is written directly into the output folder; a
    resolved name that is not a string (a missing cell) raises
    [AttributeError], outside every [try] of the loop. *)
Theorem safe_name_flat (resolved_name : pyval) :
  match resolved_name with
  | PStr name =>
      exists stem,
        safe_name resolved_name = Ok stem
        /\ String.length stem = String.length name
        /\ all_chars (fun c => negb (bool_decide (c = " "%char))
                               && negb (bool_decide (c = "/"%char))) stem = true
  | _ => safe_name resolved_name = Raise AttributeError
  end.
Proof.
  destruct resolved_name as [| | | |name| |]; try reflexivity.
  eexists. split; [reflexivity|].
  rewrite !replace_one_char, !map_chars_length. split; [done|].
  apply (all_chars_map _ (fun c => negb (bool_decide (c = " "%char)))).
  - intros c Hc. repeat case_bool_decide; subst; done.
  - apply (all_chars_map _ (fun _ => true)); [|apply all_chars_true].
    intros c _. repeat case_bool_decide; subst; done.
Qed.

(** ** The canonical table *)


